(** * Relacio backend: session, quota and call coordination

    A shallow embedding of the parts of the backend that carry state-machine
    and quota semantics: the Subscription quota ledger, the Match model and
    the swipe paths, the VideoCall model with its REST and socket handlers,
    the notification service, presence tracking and the read-receipt paths.

    Conventions of the embedding.
    - A Mongoose collection is a list of documents in natural order;
      [findOne] returns the first document that satisfies the query.
    - A JavaScript [Date] is its epoch milliseconds; [new Date()] and
      [Date.now()] are the [now] argument of an operation.
    - An optional document path ([undefined] when unset) is an [option].
    - Code that may throw returns a [Result]; the results of the external
      collaborators (Daily.co) are arguments of the handlers that call them.
    - JavaScript Numbers that hold counters, limits and durations are [Z];
      a sum or product the code stores is rounded to the nearest double
      ([toNumber]), which is exact up to 2^53. *)

From Stdlib Require Import ZArith List Bool String DecimalString Lia.
Import ListNotations.

Open Scope string_scope.
Open Scope Z_scope.

(** ** Shared vocabulary *)

Definition ObjectId := string.

(** A [Date] is its epoch milliseconds. *)
Definition JsDate := Z.

Definition getTime (d : JsDate) : Z := d.

(** Calendar fields of a date (proleptic Gregorian calendar, the server's
    zone taken as UTC): days since the epoch, then the civil date. *)
Definition epochDay (d : JsDate) : Z := d / 86400000.

Definition civil (d : JsDate) : Z * Z * Z :=
  let z := epochDay d + 719468 in
  let era := z / 146097 in
  let doe := z - era * 146097 in
  let yoe := (doe - doe / 1460 + doe / 36524 - doe / 146096) / 365 in
  let doy := doe - (365 * yoe + yoe / 4 - yoe / 100) in
  let mp := (5 * doy + 2) / 153 in
  let day := doy - (153 * mp + 2) / 5 + 1 in
  let m := if mp <? 10 then mp + 3 else mp - 9 in
  let y := yoe + era * 400 + (if m <=? 2 then 1 else 0) in
  (y, m, day).

Definition getFullYear (d : JsDate) : Z := fst (fst (civil d)).
(** Months count from zero. *)
Definition getMonth (d : JsDate) : Z := snd (fst (civil d)) - 1.
Definition getDate (d : JsDate) : Z := snd (civil d).

(** [a - b] on two dates, then [Math.floor(_ / 1000)]. *)
Definition secondsBetween (endT startT : JsDate) : Z :=
  (getTime endT - getTime startT) / 1000.

(** The double nearest to an integer, ties to even: what a JavaScript
    Number holds after an operation whose exact result is that integer.
    Integers below 2^53 in magnitude are exact; above, a double keeps 53
    significant bits. *)
Definition toNumber (z : Z) : Z :=
  let a := Z.abs z in
  if a <? 2 ^ 53 then z
  else
    let e := Z.log2 a - 52 in
    let q := a / 2 ^ e in
    let r := a mod 2 ^ e in
    let half := 2 ^ (e - 1) in
    let q' := if r <? half then q
              else if half <? r then q + 1
              else if Z.even q then q else q + 1 in
    Z.sgn z * (q' * 2 ^ e).

(** JavaScript [a + b] and [a * b] on Numbers that hold integers. *)
Definition js_add (a b : Z) : Z := toNumber (a + b).
Definition js_mul (a b : Z) : Z := toNumber (a * b).

(** The time value of [new Date(t)]: a time beyond 8.64e15 ms is an
    Invalid Date. *)
Definition timeClip (t : Z) : option JsDate :=
  if Z.abs t <=? 8640000000000000 then Some t else None.

Inductive Result (A : Type) : Type :=
| Ok (a : A)
| Throw (msg : string).
Arguments Ok {A} a.
Arguments Throw {A} msg.

Definition bind {A B : Type} (r : Result A) (k : A -> Result B) : Result B :=
  match r with
  | Ok a => k a
  | Throw msg => Throw msg
  end.

Notation "'let*' x ':=' r 'in' k" := (bind r (fun x => k))
  (at level 10, x name, r at level 200, k at level 200).

(** JavaScript [===] on two strings. *)
Notation "a === b" := (String.eqb a b) (at level 70, no associativity).

(** A required String path of a Mongoose schema: set and not empty. *)
Definition requiredString (v : option string) : bool :=
  match v with
  | Some s => negb (s === "")
  | None => false
  end.

(** An HTTP reply of a route: [res.status(code).json({success, message})],
    or the error handed to [next(error)]. *)
Inductive Response : Type :=
| Json (statusCode : Z) (success : bool) (message : string)
| NextError (msg : string).

Module HTTP_STATUS.
Definition OK := 200.
Definition CREATED := 201.
Definition BAD_REQUEST := 400.
Definition FORBIDDEN := 403.
Definition NOT_FOUND := 404.
Definition CONFLICT := 409.
End HTTP_STATUS.

(** ** Quota ledger: models/Subscription.js and services/rateLimitService.js *)

Module Subscription.

Inductive Plan := free | premium | platinum.

Record Features := mkFeatures {
  videoCallsPerDay : Z;
  voiceCallsPerDay : Z;
  likesPerDay : Z;
  superLikesPerDay : Z
}.

(** SUBSCRIPTION_CONSTANTS.FEATURES *)
Definition FEATURES (p : Plan) : Features :=
  match p with
  | free => mkFeatures 2 5 20 1
  | premium => mkFeatures 10 20 50 5
  | platinum => mkFeatures (-1) (-1) (-1) 10
  end.

Record Usage := mkUsage {
  videoCallsToday : Z;
  voiceCallsToday : Z;
  likesToday : Z;
  superLikesToday : Z;
  lastResetDate : JsDate
}.

Record t := mk {
  userId : ObjectId;
  plan : Plan;
  features : Features;
  usage : Usage
}.

(** [this.features[key]]: [undefined] for a key the schema does not have. *)
Definition features_get (f : Features) (key : string) : option Z :=
  if key === "videoCallsPerDay" then Some (videoCallsPerDay f)
  else if key === "voiceCallsPerDay" then Some (voiceCallsPerDay f)
  else if key === "likesPerDay" then Some (likesPerDay f)
  else if key === "superLikesPerDay" then Some (superLikesPerDay f)
  else None.

(** [this.usage[key]] for the numeric counters. *)
Definition usage_get (u : Usage) (key : string) : option Z :=
  if key === "videoCallsToday" then Some (videoCallsToday u)
  else if key === "voiceCallsToday" then Some (voiceCallsToday u)
  else if key === "likesToday" then Some (likesToday u)
  else if key === "superLikesToday" then Some (superLikesToday u)
  else None.

(** [this.usage[key] = v]; a key outside the schema is not a document path
    and leaves the document as it was. *)
Definition usage_set (u : Usage) (key : string) (v : Z) : Usage :=
  if key === "videoCallsToday" then
    mkUsage v (voiceCallsToday u) (likesToday u) (superLikesToday u) (lastResetDate u)
  else if key === "voiceCallsToday" then
    mkUsage (videoCallsToday u) v (likesToday u) (superLikesToday u) (lastResetDate u)
  else if key === "likesToday" then
    mkUsage (videoCallsToday u) (voiceCallsToday u) v (superLikesToday u) (lastResetDate u)
  else if key === "superLikesToday" then
    mkUsage (videoCallsToday u) (voiceCallsToday u) (likesToday u) v (lastResetDate u)
  else u.

(** [limit === -1] on a possibly undefined value. *)
Definition isUnlimited (limit : option Z) : bool :=
  match limit with
  | Some l => l =? -1
  | None => false
  end.

(** JavaScript [a < b] on possibly undefined Numbers: an [undefined]
    operand converts to NaN and the comparison is false. *)
Definition js_lt (a b : option Z) : bool :=
  match a, b with
  | Some x, Some y => x <? y
  | _, _ => false
  end.

(** The new-day test of resetDailyUsageIfNeeded. *)
Definition isNewDay (now lastReset : JsDate) : bool :=
  negb (getDate now =? getDate lastReset)
  || negb (getMonth now =? getMonth lastReset)
  || negb (getFullYear now =? getFullYear lastReset).

Definition resetDailyUsageIfNeeded (now : JsDate) (s : t) : t :=
  if isNewDay now (lastResetDate (usage s)) then
    mk (userId s) (plan s) (features s) (mkUsage 0 0 0 0 now)
  else s.

(** Returns the answer together with the document as the method left it. *)
Definition canPerformAction (now : JsDate) (s : t) (actionType : string)
  : bool * t :=
  let s1 := resetDailyUsageIfNeeded now s in
  let featureKey := actionType ++ "PerDay" in
  let usageKey := actionType ++ "Today" in
  let limit := features_get (features s1) featureKey in
  let currentUsage := usage_get (usage s1) usageKey in
  if isUnlimited limit then (true, s1)
  else (js_lt currentUsage limit, s1).

(** The document handed to [this.save()]. *)
Definition incrementUsage (now : JsDate) (s : t) (actionType : string) : t :=
  let s1 := resetDailyUsageIfNeeded now s in
  let usageKey := actionType ++ "Today" in
  match usage_get (usage s1) usageKey with
  | Some v => mk (userId s1) (plan s1) (features s1)
                 (usage_set (usage s1) usageKey (js_add v 1))
  | None => s1
  end.

End Subscription.

Module RateLimitService.

Definition Store := list Subscription.t.

(** [Subscription.findOne({ userId })] *)
Definition findOne (store : Store) (uid : ObjectId) : option Subscription.t :=
  find (fun s => Subscription.userId s === uid) store.

(** [save()] of a loaded subscription: [userId] is the unique key. *)
Definition save (s : Subscription.t) (store : Store) : Store :=
  map (fun x => if Subscription.userId x === Subscription.userId s then s else x)
      store.

(** A missing subscription throws inside the [try]; the [catch] answers
    [false].  The loaded document is not saved. *)
Definition checkFeatureLimit (now : JsDate) (store : Store) (uid : ObjectId)
           (featureType : string) : bool :=
  match findOne store uid with
  | None => false
  | Some s => fst (Subscription.canPerformAction now s featureType)
  end.

Definition checkVideoCallLimit now store uid := checkFeatureLimit now store uid "videoCalls".
Definition checkVoiceCallLimit now store uid := checkFeatureLimit now store uid "voiceCalls".
Definition checkLikeLimit now store uid := checkFeatureLimit now store uid "likes".
Definition checkSuperLikeLimit now store uid := checkFeatureLimit now store uid "superLikes".
Definition checkMessageLimit now store uid := checkFeatureLimit now store uid "messages".

(** The Redis client is [null] (initRedis), so only the document changes. *)
Definition incrementUsage (now : JsDate) (store : Store) (uid : ObjectId)
           (featureType : string) : Store * bool :=
  match findOne store uid with
  | None => (store, false)
  | Some s => (save (Subscription.incrementUsage now s featureType) store, true)
  end.


(** The features that have a daily counter in the schema. *)
Definition countedFeatureTypes : list string :=
  ["videoCalls"; "voiceCalls"; "likes"; "superLikes"].

(** Today's usage as the contract words it: the stored counter while
    [lastResetDate] is still today, zero once the day has changed. *)
Definition usedToday (now : JsDate) (s : Subscription.t) (featureType : string)
  : option Z :=
  match Subscription.usage_get (Subscription.usage s) (featureType ++ "Today") with
  | Some v =>
      if Subscription.isNewDay now (Subscription.lastResetDate (Subscription.usage s))
      then Some 0 else Some v
  | None => None
  end.


Definition sameDay (d1 d2 : JsDate) : Prop :=
  getFullYear d1 = getFullYear d2 /\ getMonth d1 = getMonth d2
  /\ getDate d1 = getDate d2.

End RateLimitService.

(** constants/rateLimitConstants.js, [RATE_LIMIT_CONSTANTS.FEATURES.MESSAGES]:
    the message allowance of each plan, per window of one hour.  No code
    reads it. *)
Module RATE_LIMIT_CONSTANTS.

Definition MESSAGES_max (p : Subscription.Plan) : Z :=
  match p with
  | Subscription.free => 100
  | Subscription.premium => 200
  | Subscription.platinum => 500
  end.

Definition MESSAGES_window : Z := 60 * 60 * 1000.

End RATE_LIMIT_CONSTANTS.

(** ** Documents *)

(** models/User.js, the paths the core reads and writes. *)
Module User.

Record t := mk {
  _id : ObjectId;
  name : string;
  subscriptionPlan : string;
  isOnline : bool;
  lastSeen : JsDate
}.

Definition findById (users : list t) (id : ObjectId) : option t :=
  find (fun u => _id u === id) users.

(** [User.findByIdAndUpdate(id, { isOnline, lastSeen })]: no document with
    that id leaves the collection as it is. *)
Definition findByIdAndUpdate (users : list t) (id : ObjectId)
           (online : bool) (seen : JsDate) : list t :=
  map (fun u => if _id u === id
                then mk (_id u) (name u) (subscriptionPlan u) online seen
                else u) users.

End User.

(** models/Notification.js *)
Module Notification.

Definition TYPES : list string :=
  ["match"; "message"; "like"; "view"; "video_call"].

(** [type], [title] and [message] are required paths: a document under
    construction may lack them, a stored one passed [validate]. *)
Record t := mk {
  _id : ObjectId;
  userId : ObjectId;
  type : option string;
  title : option string;
  message : option string;
  fromUserId : option ObjectId;
  isRead : bool;
  readAt : option JsDate
}.

Definition maxlength (n : nat) (v : option string) : bool :=
  match v with
  | Some s => Nat.leb (String.length s) n
  | None => true
  end.

Definition validate (n : t) : bool :=
  requiredString (type n)
  && match type n with
     | Some ty => existsb (fun x => x === ty) TYPES
     | None => false
     end
  && requiredString (title n) && maxlength 100 (title n)
  && requiredString (message n) && maxlength 500 (message n).

(** [notification.save()] of a new document. *)
Definition save (n : t) (store : list t) : Result (list t) :=
  if validate n then Ok (store ++ [n])%list
  else Throw "Notification validation failed".

(** [save()] of a loaded document: replaces the stored copy. *)
Definition update (n : t) (store : list t) : Result (list t) :=
  if validate n
  then Ok (map (fun x => if _id x === _id n then n else x) store)
  else Throw "Notification validation failed".

Definition markAsRead (now : JsDate) (n : t) (store : list t)
  : Result (t * list t) :=
  if negb (isRead n) then
    let n' := mk (_id n) (userId n) (type n) (title n) (message n)
                 (fromUserId n) true (Some now) in
    let* store' := update n' store in Ok (n', store')
  else Ok (n, store).

(** [Notification.findOne({ _id, userId })] *)
Definition findOne (store : list t) (id uid : ObjectId) : option t :=
  find (fun n => (_id n === id) && (userId n === uid)) store.

End Notification.

(** models/Match.js *)
Module Match.

Inductive Action := like | pass | super_like | pending.

Definition Action_eqb (a b : Action) : bool :=
  match a, b with
  | like, like | pass, pass | super_like, super_like | pending, pending => true
  | _, _ => false
  end.

Record t := mk {
  _id : ObjectId;
  user1Id : ObjectId;
  user2Id : ObjectId;
  user1Action : Action;
  user2Action : Action;
  isMatch : bool;
  matchedAt : option JsDate;
  compatibility : Z;
  createdAt : JsDate
}.

(** The [min]/[max] validators of [compatibility]. *)
Definition validate (m : t) : bool :=
  (0 <=? compatibility m) && (compatibility m <=? 100).

(** First pre-save hook. *)
Definition preSaveSelf (m : t) : Result t :=
  if user1Id m === user2Id m
  then Throw "Users cannot match with themselves"
  else Ok m.

(** Second pre-save hook: check for match when both users have acted. *)
Definition preSaveMatch (now : JsDate) (m : t) : t :=
  if Action_eqb (user1Action m) like && Action_eqb (user2Action m) like then
    mk (_id m) (user1Id m) (user2Id m) (user1Action m) (user2Action m)
       true
       (match matchedAt m with Some d => Some d | None => Some now end)
       (compatibility m) (createdAt m)
  else
    mk (_id m) (user1Id m) (user2Id m) (user1Action m) (user2Action m)
       false None (compatibility m) (createdAt m).

(** [true] when the query [{ user1Id: a, user2Id: b }] selects [m]. *)
Definition isPair (a b : ObjectId) (m : t) : bool :=
  (user1Id m === a) && (user2Id m === b).

(** [findExistingMatch]: the [$or] of the two orientations. *)
Definition findExistingMatch (store : list t) (a b : ObjectId) : option t :=
  find (fun m => isPair a b m || isPair b a m) store.

Definition findById (store : list t) (id : ObjectId) : option t :=
  find (fun m => _id m === id) store.

(** Validation, the two hooks, then the write: a stored document is
    replaced; a new one is inserted with [createdAt] stamped, unless the
    unique index on (user1Id, user2Id) already holds its pair. *)
Definition save (now : JsDate) (m : t) (store : list t) : Result (t * list t) :=
  if negb (validate m) then Throw "Match validation failed"
  else
    let* m1 := preSaveSelf m in
    let m2 := preSaveMatch now m1 in
    match findById store (_id m2) with
    | Some _ =>
        Ok (m2, map (fun x => if _id x === _id m2 then m2 else x) store)
    | None =>
        if existsb (isPair (user1Id m2) (user2Id m2)) store
        then Throw "E11000 duplicate key error"
        else
          let m3 := mk (_id m2) (user1Id m2) (user2Id m2) (user1Action m2)
                       (user2Action m2) (isMatch m2) (matchedAt m2)
                       (compatibility m2) now in
          Ok (m3, (store ++ [m3])%list)
    end.

(** [Match.findByIdAndDelete(id)] removes the first document with the id. *)
Fixpoint findByIdAndDelete (store : list t) (id : ObjectId) : list t :=
  match store with
  | [] => []
  | m :: rest =>
      if _id m === id then rest else m :: findByIdAndDelete rest id
  end.

(** The derivation rule as the data model words it: both slots [like], or
    one slot [like] and the other [super_like]. *)
Definition sustainsMatch (a1 a2 : Action) : bool :=
  match a1, a2 with
  | like, like => true
  | like, super_like => true
  | super_like, like => true
  | _, _ => false
  end.

End Match.

(** models/VideoCall.js *)
Module VideoCall.

Inductive Status := pending | active | ended | declined.

Definition Status_eqb (a b : Status) : bool :=
  match a, b with
  | pending, pending | active, active | ended, ended | declined, declined => true
  | _, _ => false
  end.

Definition statusName (s : Status) : string :=
  match s with
  | pending => "pending"
  | active => "active"
  | ended => "ended"
  | declined => "declined"
  end.

Record t := mk {
  _id : ObjectId;
  callId : string;
  participants : list ObjectId;
  initiatorId : ObjectId;
  status : Status;
  startTime : option JsDate;
  endTime : option JsDate;
  duration : Z;
  dailyRoomUrl : option string;
  dailyRoomName : option string
}.

Definition setStatus (v : t) (s : Status) : t :=
  mk (_id v) (callId v) (participants v) (initiatorId v) s (startTime v)
     (endTime v) (duration v) (dailyRoomUrl v) (dailyRoomName v).

Definition setStartTime (v : t) (d : JsDate) : t :=
  mk (_id v) (callId v) (participants v) (initiatorId v) (status v) (Some d)
     (endTime v) (duration v) (dailyRoomUrl v) (dailyRoomName v).

Definition setEndTime (v : t) (d : JsDate) : t :=
  mk (_id v) (callId v) (participants v) (initiatorId v) (status v)
     (startTime v) (Some d) (duration v) (dailyRoomUrl v) (dailyRoomName v).

Definition setDuration (v : t) (n : Z) : t :=
  mk (_id v) (callId v) (participants v) (initiatorId v) (status v)
     (startTime v) (endTime v) n (dailyRoomUrl v) (dailyRoomName v).

(** The required String paths of the schema. *)
Definition validate (v : t) : bool :=
  requiredString (Some (callId v))
  && requiredString (dailyRoomUrl v)
  && requiredString (dailyRoomName v).

(** First pre-save hook: validate participants. *)
Definition preSaveParticipants (v : t) : Result t :=
  match participants v with
  | [p0; p1] =>
      if p0 === p1 then Throw "Participants must be different users"
      else if negb (existsb (fun p => p === initiatorId v) (participants v))
      then Throw "Initiator must be one of the participants"
      else Ok v
  | _ => Throw "Video call must have exactly 2 participants"
  end.

(** Second pre-save hook: calculate duration when call ends. *)
Definition preSaveDuration (v : t) : t :=
  match status v, startTime v, endTime v with
  | ended, Some st, Some en =>
      if duration v =? 0 then setDuration v (secondsBetween en st) else v
  | _, _, _ => v
  end.

Definition findById (store : list t) (id : ObjectId) : option t :=
  find (fun v => _id v === id) store.

(** Validation, the hooks, then the write; [callId] carries a unique
    index, checked when a new document is inserted. *)
Definition save (v : t) (store : list t) : Result (t * list t) :=
  if negb (validate v) then Throw "VideoCall validation failed"
  else
    let* v1 := preSaveParticipants v in
    let v2 := preSaveDuration v1 in
    match findById store (_id v2) with
    | Some _ =>
        Ok (v2, map (fun x => if _id x === _id v2 then v2 else x) store)
    | None =>
        if existsb (fun x => callId x === callId v2) store
        then Throw "E11000 duplicate key error"
        else Ok (v2, (store ++ [v2])%list)
    end.

Definition startCall (now : JsDate) (v : t) (store : list t) :=
  save (setStartTime (setStatus v active) now) store.

Definition endCall (now : JsDate) (v : t) (store : list t) :=
  let v1 := setEndTime (setStatus v ended) now in
  let v2 := match startTime v1 with
            | Some st => setDuration v1 (secondsBetween now st)
            | None => v1
            end in
  save v2 store.

Definition declineCall (v : t) (store : list t) :=
  save (setStatus v declined) store.

(** [participants.includes(userId)] *)
Definition includes (v : t) (uid : ObjectId) : bool :=
  existsb (fun p => p === uid) (participants v).

(** [participants.find(id => id.toString() !== userId)] *)
Definition otherParticipant (v : t) (uid : ObjectId) : option ObjectId :=
  find (fun p => negb (p === uid)) (participants v).

(** [findOne({ participants: { $all: [a, b] },
               status: { $in: ['pending', 'active'] } })] *)
Definition findOpenCall (store : list t) (a b : ObjectId) : option t :=
  find (fun v => includes v a && includes v b
                 && (Status_eqb (status v) pending
                     || Status_eqb (status v) active)) store.

End VideoCall.

(** models/Conversation.js *)
Module Conversation.

Record t := mk {
  _id : ObjectId;
  participants : list ObjectId;
  lastMessage : option ObjectId;
  lastMessageAt : JsDate;
  isActive : bool
}.

Definition findById (store : list t) (id : ObjectId) : option t :=
  find (fun c => _id c === id) store.

Definition includes (c : t) (uid : ObjectId) : bool :=
  existsb (fun p => p === uid) (participants c).

(** Pre-save hook: validate exactly 2 different participants. *)
Definition preSave (c : t) : Result t :=
  match participants c with
  | [p0; p1] =>
      if p0 === p1 then Throw "Participants must be different users" else Ok c
  | _ => Throw "Conversation must have exactly 2 participants"
  end.

(** [save()] of a loaded conversation: the hook, then the stored copy is
    replaced. *)
Definition save (c : t) (store : list t) : Result (list t) :=
  let* c1 := preSave c in
  Ok (map (fun x => if _id x === _id c1 then c1 else x) store).

(** [save()] of a new conversation. *)
Definition insert (c : t) (store : list t) : Result (t * list t) :=
  let* c1 := preSave c in
  Ok (c1, (store ++ [c1])%list).

End Conversation.

(** models/Message.js *)
Module Message.

Inductive Kind := text | image | file.

Record t := mk {
  _id : ObjectId;
  conversationId : ObjectId;
  senderId : ObjectId;
  content : option string;
  type : Kind;
  fileName : option string;
  fileUrl : option string;
  isDisappearing : bool;
  disappearTime : Z;
  isRead : bool;
  readAt : option JsDate;
  expiresAt : option JsDate
}.

Definition setRead (m : t) (now : JsDate) : t :=
  mk (_id m) (conversationId m) (senderId m) (content m) (type m)
     (fileName m) (fileUrl m) (isDisappearing m) (disappearTime m)
     true (Some now) (expiresAt m).

Definition validate (m : t) : bool :=
  match type m with
  | text => requiredString (content m)
  | image => requiredString (fileUrl m)
  | file => requiredString (fileName m) && requiredString (fileUrl m)
  end
  && match content m with
     | Some c => Nat.leb (String.length c) 1000
     | None => true
     end.

(** Pre-save hook: expiry of a disappearing message, [disappearTime] hours
    after the save that first finds [expiresAt] unset. *)
Definition preSaveExpiry (now : JsDate) (m : t) : t :=
  if isDisappearing m then
    match expiresAt m with
    | Some _ => m
    | None =>
        mk (_id m) (conversationId m) (senderId m) (content m) (type m)
           (fileName m) (fileUrl m) (isDisappearing m) (disappearTime m)
           (isRead m) (readAt m) (Some (now + disappearTime m * 3600000))
    end
  else m.

Definition findById (store : list t) (id : ObjectId) : option t :=
  find (fun m => _id m === id) store.

(** [save()] of a loaded message. *)
Definition save (now : JsDate) (m : t) (store : list t) : Result (t * list t) :=
  if negb (validate m) then Throw "Message validation failed"
  else
    let m1 := preSaveExpiry now m in
    Ok (m1, map (fun x => if _id x === _id m1 then m1 else x) store).

Definition markAsRead (now : JsDate) (m : t) (store : list t)
  : Result (t * list t) :=
  if negb (isRead m) then save now (setRead m now) store
  else Ok (m, store).

(** [updateMany] with the filter of markConversationAsRead. *)
Definition markConversationAsRead (now : JsDate) (store : list t)
           (conv uid : ObjectId) : list t :=
  map (fun m => if (conversationId m === conv) && negb (senderId m === uid)
                   && negb (isRead m)
                then setRead m now else m) store.

End Message.

(** The persistent store. *)
Record Db := mkDb {
  users : list User.t;
  matches : list Match.t;
  videoCalls : list VideoCall.t;
  notifications : list Notification.t;
  conversations : list Conversation.t;
  messages : list Message.t
}.

Definition withUsers (db : Db) (x : list User.t) : Db :=
  mkDb x (matches db) (videoCalls db) (notifications db) (conversations db) (messages db).
Definition withMatches (db : Db) (x : list Match.t) : Db :=
  mkDb (users db) x (videoCalls db) (notifications db) (conversations db) (messages db).
Definition withVideoCalls (db : Db) (x : list VideoCall.t) : Db :=
  mkDb (users db) (matches db) x (notifications db) (conversations db) (messages db).
Definition withNotifications (db : Db) (x : list Notification.t) : Db :=
  mkDb (users db) (matches db) (videoCalls db) x (conversations db) (messages db).
Definition withMessages (db : Db) (x : list Message.t) : Db :=
  mkDb (users db) (matches db) (videoCalls db) (notifications db) (conversations db) x.
Definition withConversations (db : Db) (x : list Conversation.t) : Db :=
  mkDb (users db) (matches db) (videoCalls db) (notifications db) x (messages db).

(** The authenticated caller: [req.user] of a route, [socket.user] and
    [socket.userId] of a connection. *)
Record Caller := mkCaller {
  callerId : ObjectId;
  callerName : string;
  callerPlan : string
}.

(** ** Services *)

(** services/dailyService.js.  The Daily.co API is outside the repository:
    what it answered to the requests of one operation is an argument. *)
Module DailyService.

Inductive DeleteReply := Deleted | Status404 | DeleteFailed.

Record Api := mkApi {
  (** [response.data.name] and [response.data.url] of POST /rooms *)
  roomsPost : option (string * string);
  roomsDelete : DeleteReply;
  (** [response.data.token] of POST /meeting-tokens *)
  tokensPost : option string
}.

(** The object [createRoom] returns, [{ roomName, roomUrl, config }]. *)
Record RoomData := mkRoomData {
  roomName : string;
  roomUrl : string
}.

(** Reading a property of that object by name. *)
Definition prop (r : RoomData) (key : string) : option string :=
  if key === "roomName" then Some (roomName r)
  else if key === "roomUrl" then Some (roomUrl r)
  else None.

Definition createRoom (api : Api) (callId : string)
           (participants : list ObjectId) : Result RoomData :=
  match roomsPost api with
  | Some (n, u) => Ok (mkRoomData n u)
  | None => Throw "Failed to create Daily.co room"
  end.

Definition deleteRoom (api : Api) (roomName : string) : Result bool :=
  match roomsDelete api with
  | Deleted => Ok true
  | Status404 => Ok true
  | DeleteFailed => Throw "Failed to delete Daily.co room"
  end.

Definition generateRoomToken (api : Api) (roomName : string)
           (userId : ObjectId) : Result string :=
  match tokensPost api with
  | Some tok => Ok tok
  | None => Throw "Failed to generate room token"
  end.

End DailyService.

(** services/notificationService.js *)
Module NotificationService.

(** An object literal with the properties the service reads. *)
Record NotificationData := mkData {
  type : option string;
  title : option string;
  message : option string;
  fromUserId : option ObjectId
}.

(** A value passed to the service: a string or such an object. *)
Inductive Arg :=
| Str (s : string)
| Obj (d : NotificationData).

(** Property reads; a string primitive has none of these properties. *)
Definition typeOf (a : Arg) : option string :=
  match a with Obj d => type d | Str _ => None end.
Definition titleOf (a : Arg) : option string :=
  match a with Obj d => title d | Str _ => None end.
Definition messageOf (a : Arg) : option string :=
  match a with Obj d => message d | Str _ => None end.
Definition fromUserIdOf (a : Arg) : option ObjectId :=
  match a with Obj d => fromUserId d | Str _ => None end.

(** [static async createNotification(userId, notificationData)].  [args]
    are the arguments of a call after [userId]: the first binds
    [notificationData], any further one binds nothing.  [userId] is a
    required path, so an undefined recipient fails validation too. *)
Definition createNotification (store : list Notification.t) (newId : ObjectId)
           (userId : option ObjectId) (args : list Arg)
  : Result (Notification.t * list Notification.t) :=
  match args with
  | [] => Throw "Failed to create notification: cannot read properties of undefined"
  | notificationData :: _ =>
      match userId with
      | None => Throw "Failed to create notification: Notification validation failed"
      | Some uid =>
          let notification :=
            Notification.mk newId uid (typeOf notificationData)
              (titleOf notificationData) (messageOf notificationData)
              (fromUserIdOf notificationData) false None in
          match Notification.save notification store with
          | Ok store' => Ok (notification, store')
          | Throw e => Throw ("Failed to create notification: " ++ e)
          end
      end
  end.

Definition markAsRead (now : JsDate) (store : list Notification.t)
           (notificationId userId : ObjectId)
  : Result (Notification.t * list Notification.t) :=
  match Notification.findOne store notificationId userId with
  | None => Throw "Failed to mark notification as read: Notification not found"
  | Some notification =>
      match Notification.markAsRead now notification store with
      | Ok r => Ok r
      | Throw e => Throw ("Failed to mark notification as read: " ++ e)
      end
  end.

End NotificationService.

(** services/matchingService.js *)
Module MatchingService.

Definition setUser1Action (m : Match.t) (a : Match.Action) : Match.t :=
  Match.mk (Match._id m) (Match.user1Id m) (Match.user2Id m) a
           (Match.user2Action m) (Match.isMatch m) (Match.matchedAt m)
           (Match.compatibility m) (Match.createdAt m).

Definition setUser2Action (m : Match.t) (a : Match.Action) : Match.t :=
  Match.mk (Match._id m) (Match.user1Id m) (Match.user2Id m)
           (Match.user1Action m) a (Match.isMatch m) (Match.matchedAt m)
           (Match.compatibility m) (Match.createdAt m).

(** [compat] is the score of calculateCompatibility when both profiles
    exist, [None] otherwise (the schema default 0 stays). *)
Definition processSwipe (now : JsDate) (newId : ObjectId) (compat : option Z)
           (userId targetUserId : ObjectId) (action : Match.Action)
           (store : list Match.t) : Result (Match.t * list Match.t) :=
  let body :=
    match Match.findExistingMatch store userId targetUserId with
    | Some existingMatch =>
        if Match.user1Id existingMatch === userId then
          if Match.Action_eqb (Match.user1Action existingMatch) Match.pending
          then Match.save now (setUser1Action existingMatch action) store
          else Throw "User has already swiped on this profile"
        else
          if Match.Action_eqb (Match.user2Action existingMatch) Match.pending
          then Match.save now (setUser2Action existingMatch action) store
          else Throw "User has already swiped on this profile"
    | None =>
        let newMatch :=
          Match.mk newId userId targetUserId action Match.pending false None
                   (match compat with Some c => c | None => 0 end) now in
        Match.save now newMatch store
    end in
  match body with
  | Ok r => Ok r
  | Throw e => Throw ("Failed to process swipe: " ++ e)
  end.

Definition checkForMatch (store : list Match.t) (userId targetUserId : ObjectId)
  : bool :=
  match Match.findExistingMatch store userId targetUserId with
  | Some m => Match.isMatch m
  | None => false
  end.

End MatchingService.

(** ** Routes *)

(** The discovery routes: POST /api/discovery/swipe and /undo. *)
Module Discovery.

Import NotificationService.

(** The notification store after a call that may have thrown. *)
Definition storeAfter (r : Result (Notification.t * list Notification.t))
           (before : list Notification.t) : list Notification.t :=
  match r with
  | Ok (_, ns) => ns
  | Throw _ => before
  end.

Definition swipe (now : JsDate) (matchId notifId1 notifId2 : ObjectId)
           (compat : option Z) (user : Caller) (targetUserId : ObjectId)
           (action : Match.Action) (db : Db) : Response * Db :=
  let userId := callerId user in
  match User.findById (users db) targetUserId with
  | None => (Json HTTP_STATUS.NOT_FOUND false "Target user not found", db)
  | Some targetUser =>
      if userId === targetUserId then
        (Json HTTP_STATUS.BAD_REQUEST false "Cannot swipe on yourself", db)
      else
        match Match.findExistingMatch (matches db) userId targetUserId with
        | Some _ =>
            (Json HTTP_STATUS.CONFLICT false
                  "You have already swiped on this user", db)
        | None =>
            match MatchingService.processSwipe now matchId compat userId
                    targetUserId action (matches db) with
            | Throw e => (NextError e, db)
            | Ok (result, ms) =>
                let db1 := withMatches db ms in
                if Match.isMatch result then
                  (* Promise.all: both calls are started *)
                  let r1 :=
                    createNotification (notifications db1) notifId1 (Some userId)
                      [Str "match";
                       Obj (mkData None (Some "New Match!")
                              (Some ("You and " ++ User.name targetUser
                                     ++ " liked each other!"))
                              (Some targetUserId))] in
                  let ns1 := storeAfter r1 (notifications db1) in
                  let r2 :=
                    createNotification ns1 notifId2 (Some targetUserId)
                      [Str "match";
                       Obj (mkData None (Some "New Match!")
                              (Some ("You and " ++ callerName user
                                     ++ " liked each other!"))
                              (Some userId))] in
                  let db2 := withNotifications db1 (storeAfter r2 ns1) in
                  match r1, r2 with
                  | Ok _, Ok _ => (Json HTTP_STATUS.OK true "It's a match!", db2)
                  | Throw e, _ => (NextError e, db2)
                  | _, Throw e => (NextError e, db2)
                  end
                else if Match.Action_eqb action Match.like
                        || Match.Action_eqb action Match.super_like then
                  let super := Match.Action_eqb action Match.super_like in
                  match createNotification (notifications db1) notifId1
                          (Some targetUserId)
                          [Str "like";
                           Obj (mkData None
                                  (Some (if super then "Super Like!" else "New Like!"))
                                  (Some (callerName user ++ " "
                                         ++ (if super then "super " else "")
                                         ++ "liked you!"))
                                  (Some userId))] with
                  | Throw e => (NextError e, db1)
                  | Ok (_, ns) =>
                      (Json HTTP_STATUS.OK true "Swipe recorded successfully",
                       withNotifications db1 ns)
                  end
                else
                  (Json HTTP_STATUS.OK true "Swipe recorded successfully", db1)
            end
        end
  end.

(** The first document with the greatest [createdAt]:
    [.sort({ createdAt: -1 })] followed by [findOne]. *)
Fixpoint newest (l : list Match.t) : option Match.t :=
  match l with
  | [] => None
  | m :: rest =>
      match newest rest with
      | Some r => if Match.createdAt r >? Match.createdAt m then Some r else Some m
      | None => Some m
      end
  end.

(** [Match.findOne({ user1Id: userId,
                     createdAt: { $gte: new Date(Date.now() - 5 * 60 * 1000) } })
         .sort({ createdAt: -1 })] *)
Definition lastSwipe (store : list Match.t) (userId : ObjectId) (now : JsDate)
  : option Match.t :=
  newest (filter (fun m => (Match.user1Id m === userId)
                           && (Match.createdAt m >=? now - 5 * 60 * 1000))
                 store).

Definition undo (now : JsDate) (user : Caller) (db : Db) : Response * Db :=
  if callerPlan user === "free" then
    (Json HTTP_STATUS.FORBIDDEN false
          "Undo feature requires premium subscription", db)
  else
    match lastSwipe (matches db) (callerId user) now with
    | None =>
        (Json HTTP_STATUS.NOT_FOUND false "No recent swipe found to undo", db)
    | Some lastMatch =>
        (Json HTTP_STATUS.OK true "Last swipe undone successfully",
         withMatches db (Match.findByIdAndDelete (matches db) (Match._id lastMatch)))
    end.

End Discovery.

(** routes/videocall.js *)
Module VideoCallRoutes.

Import NotificationService.

Definition showDate (d : JsDate) : string := NilZero.string_of_int (Z.to_int d).

Definition callNotification (title message : string) (from : ObjectId)
  : list Arg :=
  [Str "video_call"; Obj (mkData None (Some title) (Some message) (Some from))].

(** POST /initiate, the handler after the authentication, quota and
    validation middleware. *)
Definition initiate (daily : DailyService.Api) (now : JsDate)
           (docId notifId : ObjectId) (user : Caller)
           (recipientUserId : ObjectId) (db : Db) : Response * Db :=
  let initiatorId := callerId user in
  match User.findById (users db) recipientUserId with
  | None => (Json HTTP_STATUS.NOT_FOUND false "Recipient not found", db)
  | Some recipient =>
      match find (fun m => (Match.isPair initiatorId recipientUserId m
                            || Match.isPair recipientUserId initiatorId m)
                           && Match.isMatch m) (matches db) with
      | None =>
          (Json HTTP_STATUS.FORBIDDEN false
                "Users are not matched. Cannot initiate video call.", db)
      | Some _ =>
          match VideoCall.findOpenCall (videoCalls db) initiatorId
                  recipientUserId with
          | Some _ =>
              (Json HTTP_STATUS.CONFLICT false
                    "There is already an active call between these users", db)
          | None =>
              let callId := "call_" ++ initiatorId ++ "_" ++ recipientUserId
                            ++ "_" ++ showDate now in
              match DailyService.createRoom daily callId
                      [initiatorId; recipientUserId] with
              | Throw e => (NextError e, db)
              | Ok roomData =>
                  let videoCall :=
                    VideoCall.mk docId callId [initiatorId; recipientUserId]
                      initiatorId VideoCall.pending (Some now) None 0
                      (DailyService.prop roomData "url") None in
                  match VideoCall.save videoCall (videoCalls db) with
                  | Throw e => (NextError e, db)
                  | Ok (_, calls) =>
                      let db1 := withVideoCalls db calls in
                      match createNotification (notifications db1) notifId
                              (Some recipientUserId)
                              (callNotification "Incoming Video Call"
                                 (callerName user ++ " is calling you")
                                 initiatorId) with
                      | Throw e => (NextError e, db1)
                      | Ok (_, ns) =>
                          (Json HTTP_STATUS.CREATED true
                                "Video call initiated successfully",
                           withNotifications db1 ns)
                      end
                  end
              end
          end
      end
  end.

(** PUT /:callId/accept *)
Definition accept (daily : DailyService.Api) (now : JsDate) (notifId : ObjectId)
           (user : Caller) (callId : ObjectId) (db : Db) : Response * Db :=
  let userId := callerId user in
  match VideoCall.findById (videoCalls db) callId with
  | None => (Json HTTP_STATUS.NOT_FOUND false "Video call not found", db)
  | Some videoCall =>
      if negb (VideoCall.includes videoCall userId) then
        (Json HTTP_STATUS.FORBIDDEN false "Access denied to this video call", db)
      else if negb (VideoCall.Status_eqb (VideoCall.status videoCall)
                                         VideoCall.pending) then
        (Json HTTP_STATUS.BAD_REQUEST false
              ("Call is already "
               ++ VideoCall.statusName (VideoCall.status videoCall)), db)
      else
        match VideoCall.save
                (VideoCall.setStartTime
                   (VideoCall.setStatus videoCall VideoCall.active) now)
                (videoCalls db) with
        | Throw e => (NextError e, db)
        | Ok (saved, calls) =>
            let db1 := withVideoCalls db calls in
            match DailyService.generateRoomToken daily (VideoCall.callId saved)
                    userId with
            | Throw e => (NextError e, db1)
            | Ok roomToken =>
                match createNotification (notifications db1) notifId
                        (VideoCall.otherParticipant saved userId)
                        (callNotification "Call Accepted"
                           (callerName user ++ " accepted your video call")
                           userId) with
                | Throw e => (NextError e, db1)
                | Ok (_, ns) =>
                    (Json HTTP_STATUS.OK true "Video call accepted successfully",
                     withNotifications db1 ns)
                end
            end
        end
  end.

(** PUT /:callId/decline *)
Definition decline (daily : DailyService.Api) (now : JsDate) (notifId : ObjectId)
           (user : Caller) (callId : ObjectId) (db : Db) : Response * Db :=
  let userId := callerId user in
  match VideoCall.findById (videoCalls db) callId with
  | None => (Json HTTP_STATUS.NOT_FOUND false "Video call not found", db)
  | Some videoCall =>
      if negb (VideoCall.includes videoCall userId) then
        (Json HTTP_STATUS.FORBIDDEN false "Access denied to this video call", db)
      else if negb (VideoCall.Status_eqb (VideoCall.status videoCall)
                                         VideoCall.pending) then
        (Json HTTP_STATUS.BAD_REQUEST false
              ("Call is already "
               ++ VideoCall.statusName (VideoCall.status videoCall)), db)
      else
        match VideoCall.save
                (VideoCall.setEndTime
                   (VideoCall.setStatus videoCall VideoCall.declined) now)
                (videoCalls db) with
        | Throw e => (NextError e, db)
        | Ok (saved, calls) =>
            let db1 := withVideoCalls db calls in
            match DailyService.deleteRoom daily (VideoCall.callId saved) with
            | Throw e => (NextError e, db1)
            | Ok _ =>
                match createNotification (notifications db1) notifId
                        (VideoCall.otherParticipant saved userId)
                        (callNotification "Call Declined"
                           (callerName user ++ " declined your video call")
                           userId) with
                | Throw e => (NextError e, db1)
                | Ok (_, ns) =>
                    (Json HTTP_STATUS.OK true "Video call declined successfully",
                     withNotifications db1 ns)
                end
            end
        end
  end.

(** [Math.floor((endTime - videoCall.startTime) / 1000)]; an unset
    [startTime] makes the difference NaN, which the Number path refuses. *)
Definition durationSince (endTime : JsDate) (startTime : option JsDate)
  : Result Z :=
  match startTime with
  | Some st => Ok (secondsBetween endTime st)
  | None => Throw "VideoCall validation failed: duration"
  end.

(** PUT /:callId/end *)
Definition endCall (daily : DailyService.Api) (now : JsDate) (notifId : ObjectId)
           (user : Caller) (callId : ObjectId) (db : Db) : Response * Db :=
  let userId := callerId user in
  match VideoCall.findById (videoCalls db) callId with
  | None => (Json HTTP_STATUS.NOT_FOUND false "Video call not found", db)
  | Some videoCall =>
      if negb (VideoCall.includes videoCall userId) then
        (Json HTTP_STATUS.FORBIDDEN false "Access denied to this video call", db)
      else if negb (VideoCall.Status_eqb (VideoCall.status videoCall)
                                         VideoCall.active) then
        (Json HTTP_STATUS.BAD_REQUEST false "Call is not active", db)
      else
        let endTime := now in
        match (let* duration := durationSince endTime (VideoCall.startTime videoCall) in
               VideoCall.save
                 (VideoCall.setDuration
                    (VideoCall.setEndTime
                       (VideoCall.setStatus videoCall VideoCall.ended) endTime)
                    duration)
                 (videoCalls db)) with
        | Throw e => (NextError e, db)
        | Ok (saved, calls) =>
            let db1 := withVideoCalls db calls in
            match DailyService.deleteRoom daily (VideoCall.callId saved) with
            | Throw e => (NextError e, db1)
            | Ok _ =>
                match createNotification (notifications db1) notifId
                        (VideoCall.otherParticipant saved userId)
                        (callNotification "Call Ended"
                           (callerName user ++ " ended the video call")
                           userId) with
                | Throw e => (NextError e, db1)
                | Ok (_, ns) =>
                    (Json HTTP_STATUS.OK true "Video call ended successfully",
                     withNotifications db1 ns)
                end
            end
        end
  end.

End VideoCallRoutes.

(** ** Real-time handlers *)

(** What a socket handler sends or does on the channel. *)
Inductive Effect : Type :=
| Emit (event : string) (code : string)
| EmitTo (room : string) (event : string)
| BroadcastEmit (event : string) (userId : ObjectId)
| Join (room : string)
| Leave (room : string).

(** The live connections the transport holds: socket id and bound user. *)
Definition Connections := list (string * ObjectId).

Module SOCKET_EVENTS.
Definition MESSAGE_READ := "message_read".
Definition CALL_INITIATE := "call_initiate".
Definition CALL_ACCEPT := "call_accept".
Definition CALL_DECLINE := "call_decline".
Definition CALL_END := "call_end".
Definition USER_ONLINE := "user_online".
Definition USER_OFFLINE := "user_offline".
End SOCKET_EVENTS.

(** sockets/videocall.js: every handler body runs in a [try] whose [catch]
    emits [call_error] with the handler's failure code. *)
Module VideoCallSocket.

Import NotificationService.

Definition callError (code : string) : Effect := Emit "call_error" code.

(** [io.in(`user_${id}`).fetchSockets()] *)
Definition fetchSockets (io : Connections) (userId : ObjectId) : Connections :=
  filter (fun c => snd c === userId) io.

(** [generatedCallId] is the value of DailyService.generateCallId(). *)
Definition onCallInitiate (daily : DailyService.Api) (io : Connections)
           (now : JsDate) (generatedCallId : string) (docId notifId : ObjectId)
           (socket : Caller) (recipientUserId : ObjectId) (db : Db)
  : list Effect * Db :=
  let initiatorId := callerId socket in
  match fetchSockets io recipientUserId with
  | [] => ([callError "RECIPIENT_OFFLINE"], db)
  | _ :: _ =>
      match VideoCall.findOpenCall (videoCalls db) initiatorId recipientUserId with
      | Some _ => ([callError "CALL_EXISTS"], db)
      | None =>
          match DailyService.createRoom daily generatedCallId
                  [initiatorId; recipientUserId] with
          | Throw _ => ([callError "INITIATION_FAILED"], db)
          | Ok roomData =>
              let videoCall :=
                VideoCall.mk docId generatedCallId [initiatorId; recipientUserId]
                  initiatorId VideoCall.pending (Some now) None 0
                  (DailyService.prop roomData "roomUrl") None in
              match VideoCall.save videoCall (videoCalls db) with
              | Throw _ => ([callError "INITIATION_FAILED"], db)
              | Ok (saved, calls) =>
                  let db1 := withVideoCalls db calls in
                  let sent := [Join ("call_" ++ VideoCall._id saved);
                               EmitTo ("user_" ++ recipientUserId)
                                      SOCKET_EVENTS.CALL_INITIATE] in
                  match createNotification (notifications db1) notifId
                          (Some recipientUserId)
                          [Str "video_call";
                           Obj (mkData None (Some "Incoming Video Call")
                                  (Some (callerName socket ++ " is calling you"))
                                  (Some initiatorId))] with
                  | Throw _ => ((sent ++ [callError "INITIATION_FAILED"])%list, db1)
                  | Ok (_, ns) =>
                      ((sent ++ [Emit "call_initiated" "pending"])%list,
                       withNotifications db1 ns)
                  end
              end
          end
      end
  end.

Definition onCallAccept (daily : DailyService.Api) (now : JsDate)
           (notifId : ObjectId) (socket : Caller) (callId : ObjectId) (db : Db)
  : list Effect * Db :=
  let userId := callerId socket in
  match VideoCall.findById (videoCalls db) callId with
  | None => ([callError "CALL_NOT_FOUND"], db)
  | Some videoCall =>
      if negb (VideoCall.includes videoCall userId) then
        ([callError "ACCESS_DENIED"], db)
      else if negb (VideoCall.Status_eqb (VideoCall.status videoCall)
                                         VideoCall.pending) then
        ([callError "INVALID_STATUS"], db)
      else
        match VideoCall.save
                (VideoCall.setStartTime
                   (VideoCall.setStatus videoCall VideoCall.active) now)
                (videoCalls db) with
        | Throw _ => ([callError "ACCEPT_FAILED"], db)
        | Ok (saved, calls) =>
            let db1 := withVideoCalls db calls in
            let room := "call_" ++ VideoCall._id saved in
            match DailyService.generateRoomToken daily (VideoCall.callId saved)
                    userId with
            | Throw _ => ([Join room; callError "ACCEPT_FAILED"], db1)
            | Ok roomToken =>
                let sent := [Join room; EmitTo room SOCKET_EVENTS.CALL_ACCEPT] in
                match createNotification (notifications db1) notifId
                        (VideoCall.otherParticipant saved userId)
                        [Str "video_call";
                         Obj (mkData None (Some "Call Accepted")
                                (Some (callerName socket
                                       ++ " accepted your video call"))
                                (Some userId))] with
                | Throw _ => ((sent ++ [callError "ACCEPT_FAILED"])%list, db1)
                | Ok (_, ns) => (sent, withNotifications db1 ns)
                end
            end
        end
  end.

Definition onCallDecline (daily : DailyService.Api) (now : JsDate)
           (notifId : ObjectId) (socket : Caller) (callId : ObjectId) (db : Db)
  : list Effect * Db :=
  let userId := callerId socket in
  match VideoCall.findById (videoCalls db) callId with
  | None => ([callError "CALL_NOT_FOUND"], db)
  | Some videoCall =>
      if negb (VideoCall.includes videoCall userId) then
        ([callError "ACCESS_DENIED"], db)
      else if negb (VideoCall.Status_eqb (VideoCall.status videoCall)
                                         VideoCall.pending) then
        ([callError "INVALID_STATUS"], db)
      else
        match VideoCall.save
                (VideoCall.setEndTime
                   (VideoCall.setStatus videoCall VideoCall.declined) now)
                (videoCalls db) with
        | Throw _ => ([callError "DECLINE_FAILED"], db)
        | Ok (saved, calls) =>
            let db1 := withVideoCalls db calls in
            match DailyService.deleteRoom daily (VideoCall.callId saved) with
            | Throw _ => ([callError "DECLINE_FAILED"], db1)
            | Ok _ =>
                let sent := [EmitTo ("call_" ++ VideoCall._id saved)
                                    SOCKET_EVENTS.CALL_DECLINE] in
                match createNotification (notifications db1) notifId
                        (VideoCall.otherParticipant saved userId)
                        [Str "video_call";
                         Obj (mkData None (Some "Call Declined")
                                (Some (callerName socket
                                       ++ " declined your video call"))
                                (Some userId))] with
                | Throw _ => ((sent ++ [callError "DECLINE_FAILED"])%list, db1)
                | Ok (_, ns) => (sent, withNotifications db1 ns)
                end
            end
        end
  end.

(** The handler tests membership only: the duration is computed when the
    call was active, and the status is set to [ended] whatever it was. *)
Definition onCallEnd (daily : DailyService.Api) (now : JsDate)
           (notifId : ObjectId) (socket : Caller) (callId : ObjectId) (db : Db)
  : list Effect * Db :=
  let userId := callerId socket in
  match VideoCall.findById (videoCalls db) callId with
  | None => ([callError "CALL_NOT_FOUND"], db)
  | Some videoCall =>
      if negb (VideoCall.includes videoCall userId) then
        ([callError "ACCESS_DENIED"], db)
      else
        let timed :=
          match VideoCall.status videoCall, VideoCall.startTime videoCall with
          | VideoCall.active, Some st =>
              let endTime := now in
              VideoCall.setDuration (VideoCall.setEndTime videoCall endTime)
                                    (secondsBetween endTime st)
          | _, _ => videoCall
          end in
        match VideoCall.save (VideoCall.setStatus timed VideoCall.ended)
                (videoCalls db) with
        | Throw _ => ([callError "END_FAILED"], db)
        | Ok (saved, calls) =>
            let db1 := withVideoCalls db calls in
            match DailyService.deleteRoom daily (VideoCall.callId saved) with
            | Throw _ => ([callError "END_FAILED"], db1)
            | Ok _ =>
                let room := "call_" ++ VideoCall._id saved in
                let sent := [EmitTo room SOCKET_EVENTS.CALL_END; Leave room] in
                match VideoCall.otherParticipant saved userId with
                | None => (sent, db1)
                | Some otherParticipantId =>
                    match createNotification (notifications db1) notifId
                            (Some otherParticipantId)
                            [Str "video_call";
                             Obj (mkData None (Some "Call Ended")
                                    (Some (callerName socket
                                           ++ " ended the video call"))
                                    (Some userId))] with
                    | Throw _ => ((sent ++ [callError "END_FAILED"])%list, db1)
                    | Ok (_, ns) => (sent, withNotifications db1 ns)
                    end
                end
            end
        end
  end.

End VideoCallSocket.

(** sockets/index.js: connection, disconnect and manual status updates. *)
Module Presence.

Record State := mkState {
  userStore : list User.t;
  live : Connections
}.

Inductive Event : Type :=
| Connect (socketId : string) (userId : ObjectId)
| Disconnect (socketId : string) (userId : ObjectId)
| OnlineStatus (socketId : string) (userId : ObjectId) (isOnline : bool).

(** [io.on('connection')]: the transport has registered the socket. *)
Definition onConnection (now : JsDate) (socketId : string) (userId : ObjectId)
           (st : State) : list Effect * State :=
  ([Join ("user_" ++ userId);
    BroadcastEmit SOCKET_EVENTS.USER_ONLINE userId],
   mkState (User.findByIdAndUpdate (userStore st) userId true now)
           ((socketId, userId) :: live st)).

(** [socket.on('disconnect')]: the transport has dropped the socket. *)
Definition onDisconnect (now : JsDate) (socketId : string) (userId : ObjectId)
           (st : State) : list Effect * State :=
  ([BroadcastEmit SOCKET_EVENTS.USER_OFFLINE userId],
   mkState (User.findByIdAndUpdate (userStore st) userId false now)
           (filter (fun c => negb (fst c === socketId)) (live st))).

(** [socket.on('online_status')] *)
Definition onOnlineStatus (now : JsDate) (userId : ObjectId) (isOnline : bool)
           (st : State) : list Effect * State :=
  ([BroadcastEmit (if isOnline then SOCKET_EVENTS.USER_ONLINE
                   else SOCKET_EVENTS.USER_OFFLINE) userId],
   mkState (User.findByIdAndUpdate (userStore st) userId isOnline now)
           (live st)).

Definition step (now : JsDate) (e : Event) (st : State) : list Effect * State :=
  match e with
  | Connect sid uid => onConnection now sid uid st
  | Disconnect sid uid => onDisconnect now sid uid st
  | OnlineStatus _ uid b => onOnlineStatus now uid b st
  end.

(** A run of timed events, with everything sent along the way. *)
Fixpoint run (evs : list (JsDate * Event)) (st : State) : list Effect * State :=
  match evs with
  | [] => ([], st)
  | (now, e) :: rest =>
      let (sent, st1) := step now e st in
      let (sent', st2) := run rest st1 in
      ((sent ++ sent')%list, st2)
  end.

(** The number of live connections of a user. *)
Definition connectionCount (st : State) (userId : ObjectId) : nat :=
  List.length (filter (fun c => snd c === userId) (live st)).

Definition isOnline (st : State) (userId : ObjectId) : bool :=
  match User.findById (userStore st) userId with
  | Some u => User.isOnline u
  | None => false
  end.

(** The status-change broadcasts about a user among what was sent. *)
Definition statusBroadcasts (sent : list Effect) (userId : ObjectId) : list string :=
  flat_map (fun e => match e with
                     | BroadcastEmit ev uid => if uid === userId then [ev] else []
                     | _ => []
                     end) sent.

End Presence.

(** sockets/chat.js: the read-receipt handler. *)
Module ChatSocket.

Definition onMessageRead (now : JsDate) (socket : Caller)
           (messageId conversationId : ObjectId) (db : Db) : list Effect * Db :=
  match Conversation.findById (conversations db) conversationId with
  | None => ([], db)
  | Some conversation =>
      if negb (Conversation.includes conversation (callerId socket)) then ([], db)
      else
        match Message.findById (messages db) messageId with
        | None => ([], db)
        | Some message =>
            if negb (Message.senderId message === callerId socket) then
              match Message.save now (Message.setRead message now) (messages db) with
              | Throw _ => ([], db)
              | Ok (_, ms) =>
                  ([EmitTo ("conversation_" ++ conversationId)
                           SOCKET_EVENTS.MESSAGE_READ],
                   withMessages db ms)
              end
            else ([], db)
        end
  end.

(** [socket.on('mark_conversation_read')] *)
Definition onMarkConversationRead (now : JsDate) (socket : Caller)
           (conversationId : ObjectId) (db : Db) : list Effect * Db :=
  match Conversation.findById (conversations db) conversationId with
  | None => ([], db)
  | Some conversation =>
      if negb (Conversation.includes conversation (callerId socket)) then ([], db)
      else
        ([EmitTo ("conversation_" ++ conversationId) "conversation_read"],
         withMessages db
           (Message.markConversationAsRead now (messages db) conversationId
                                           (callerId socket)))
  end.

End ChatSocket.

(** The single-notification read paths: PUT /api/notifications/:id/read and
    the socket's [notification_read]. *)
Module NotificationRead.

Definition setIsRead (n : Notification.t) : Notification.t :=
  Notification.mk (Notification._id n) (Notification.userId n)
                  (Notification.type n) (Notification.title n)
                  (Notification.message n) (Notification.fromUserId n)
                  true (Notification.readAt n).

Definition route (user : Caller) (notificationId : ObjectId) (db : Db)
  : Response * Db :=
  match Notification.findOne (notifications db) notificationId (callerId user) with
  | None => (Json HTTP_STATUS.NOT_FOUND false "Notification not found", db)
  | Some notification =>
      if Notification.isRead notification then
        (Json HTTP_STATUS.BAD_REQUEST false "Notification is already read", db)
      else
        match Notification.update (setIsRead notification) (notifications db) with
        | Throw e => (NextError e, db)
        | Ok ns =>
            (Json HTTP_STATUS.OK true "Notification marked as read",
             withNotifications db ns)
        end
  end.

Definition onNotificationRead (socket : Caller) (notificationId : ObjectId)
           (db : Db) : list Effect * Db :=
  match Notification.findOne (notifications db) notificationId (callerId socket) with
  | None => ([Emit "error" "Notification not found"], db)
  | Some notification =>
      if Notification.isRead notification then
        ([Emit "error" "Notification is already read"], db)
      else
        match Notification.update (setIsRead notification) (notifications db) with
        | Throw _ => ([Emit "error" "Failed to mark notification as read"], db)
        | Ok ns =>
            ([Emit "notification_read_confirmed" notificationId;
              Emit "unread_count_updated" ""],
             withNotifications db ns)
        end
  end.

End NotificationRead.

(** ** Quota reporting and the quota middleware *)

(** services/rateLimitService.js: the remaining allowance.  A JavaScript
    Number that may be NaN is an [option Z], [None] standing for NaN. *)
Module RateLimitReport.

(** [Math.max(0, limit - used)] on possibly undefined operands. *)
Definition remainingOf (limit used : option Z) : option Z :=
match limit, used with
| Some l, Some u => Some (Z.max 0 (l - u))
| _, _ => None
end.

(** A missing subscription answers 0. *)
Definition getRemainingLimit (now : JsDate) (store : RateLimitService.Store)
           (uid : ObjectId) (featureType : string) : option Z :=
match RateLimitService.findOne store uid with
| None => Some 0
| Some subscription =>
    let s1 := Subscription.resetDailyUsageIfNeeded now subscription in
    let limit := Subscription.features_get (Subscription.features s1)
                                           (featureType ++ "PerDay") in
    let used := Subscription.usage_get (Subscription.usage s1)
                                       (featureType ++ "Today") in
    if Subscription.isUnlimited limit then Some (-1)
    else remainingOf limit used
end.

Definition calculateRemaining (limit used : Z) : Z :=
if limit =? -1 then -1 else Z.max 0 (limit - used).

End RateLimitReport.

(** middleware/rateLimit.js: the feature gates and the usage interceptor. *)
Module RateLimitMiddleware.

(** A gate calls [next()] or answers 403 with the remaining allowance and a
    reset hint. *)
Inductive Gate : Type :=
| CallNext
| LimitReached (statusCode : Z) (message : string) (remaining : option Z)
               (resetTime : string).

(** A gate awaits two service calls, and each call loads the subscription
    and reads the clock itself: [now] and [store] are what the check finds,
    [now'] and [store'] what getRemainingLimit finds after it. *)
Definition videoCallRateLimit (now : JsDate) (store : RateLimitService.Store)
           (now' : JsDate) (store' : RateLimitService.Store)
           (user : Caller) : Gate :=
if RateLimitService.checkVideoCallLimit now store (callerId user) then CallNext
else LimitReached HTTP_STATUS.FORBIDDEN "Daily video call limit reached"
       (RateLimitReport.getRemainingLimit now' store' (callerId user) "videoCalls")
       "tomorrow".

Definition voiceCallRateLimit (now : JsDate) (store : RateLimitService.Store)
           (now' : JsDate) (store' : RateLimitService.Store)
           (user : Caller) : Gate :=
if RateLimitService.checkVoiceCallLimit now store (callerId user) then CallNext
else LimitReached HTTP_STATUS.FORBIDDEN "Daily voice call limit reached"
       (RateLimitReport.getRemainingLimit now' store' (callerId user) "voiceCalls")
       "tomorrow".

Definition likeRateLimit (now : JsDate) (store : RateLimitService.Store)
           (now' : JsDate) (store' : RateLimitService.Store)
           (user : Caller) : Gate :=
if RateLimitService.checkLikeLimit now store (callerId user) then CallNext
else LimitReached HTTP_STATUS.FORBIDDEN "Daily like limit reached"
       (RateLimitReport.getRemainingLimit now' store' (callerId user) "likes")
       "tomorrow".

Definition superLikeRateLimit (now : JsDate) (store : RateLimitService.Store)
           (now' : JsDate) (store' : RateLimitService.Store)
           (user : Caller) : Gate :=
if RateLimitService.checkSuperLikeLimit now store (callerId user) then CallNext
else LimitReached HTTP_STATUS.FORBIDDEN "Daily super like limit reached"
       (RateLimitReport.getRemainingLimit now' store' (callerId user) "superLikes")
       "tomorrow".

Definition messageRateLimit (now : JsDate) (store : RateLimitService.Store)
           (now' : JsDate) (store' : RateLimitService.Store)
           (user : Caller) : Gate :=
if RateLimitService.checkMessageLimit now store (callerId user) then CallNext
else LimitReached HTTP_STATUS.FORBIDDEN "Hourly message limit reached"
       (RateLimitReport.getRemainingLimit now' store' (callerId user) "messages")
       "next hour".

(** [incrementUsage(actionType)] replaces [res.json]: when the handler (or
    the error handler, whose body has [success: false]) answers, the usage is
    incremented if the body does not say [success: false] and the status is
    below 400.  The result is the subscription store after the answer. *)
Definition incrementUsage (actionType : string) (now : JsDate)
           (store : RateLimitService.Store) (user : Caller) (answer : Response)
  : RateLimitService.Store :=
match answer with
| Json statusCode success _ =>
    if success && (statusCode <? 400)
    then fst (RateLimitService.incrementUsage now store (callerId user) actionType)
    else store
| NextError _ => store
end.

(** POST /api/videocall/initiate through its quota middleware, the request
    running alone (every load finds the same [store]): the gate with its two
    clock reads [now] and [now'], then the handler at [handled] under the
    interceptor, whose increment reads the clock at [answered]. *)
Definition initiateRequest (daily : DailyService.Api)
           (now now' handled answered : JsDate)
           (docId notifId : ObjectId) (user : Caller) (recipientUserId : ObjectId)
           (store : RateLimitService.Store) (db : Db)
  : (Gate + Response) * RateLimitService.Store * Db :=
match videoCallRateLimit now store now' store user with
| CallNext =>
    let (answer, db') :=
      VideoCallRoutes.initiate daily handled docId notifId user recipientUserId
                               db in
    (inr answer, incrementUsage "videoCalls" answered store user answer, db')
| rejected => (inl rejected, store, db)
end.

(** [n] successful actions of one feature on the times [times], each one
    followed by its increment. *)
Fixpoint incrementEach (times : list JsDate) (store : RateLimitService.Store)
         (uid : ObjectId) (featureType : string) : RateLimitService.Store :=
match times with
| [] => store
| now :: rest =>
    incrementEach rest
      (fst (RateLimitService.incrementUsage now store uid featureType))
      uid featureType
end.

End RateLimitMiddleware.

(** ** Invariants of the Match collection *)

Module MatchStore.

(** Two records are about the same unordered pair of users. *)
Definition samePair (a b : Match.t) : Prop :=
(Match.user1Id a = Match.user1Id b /\ Match.user2Id a = Match.user2Id b)
\/ (Match.user1Id a = Match.user2Id b /\ Match.user2Id a = Match.user1Id b).

(** No two records of the collection are about the same unordered pair. *)
Fixpoint pairUnique (store : list Match.t) : Prop :=
match store with
| [] => True
| m :: rest => (forall x, In x rest -> ~ samePair m x) /\ pairUnique rest
end.

(** The collection as the database keeps it: document ids are unique, and
    so are the unordered pairs. *)
Definition consistent (store : list Match.t) : Prop :=
NoDup (map Match._id store) /\ pairUnique store.

End MatchStore.

(** ** Invariant of the VideoCall collection *)

Module VideoCallStore.

(** What the schema and the first pre-save hook demand of a call: two
    different participants, the initiator one of them, and the call id and
    the room's URL and name set. *)
Definition wellFormed (v : VideoCall.t) : Prop :=
(exists p0 p1, VideoCall.participants v = [p0; p1] /\ p0 <> p1
               /\ (VideoCall.initiatorId v = p0 \/ VideoCall.initiatorId v = p1))
/\ VideoCall.callId v <> ""
/\ (exists u, VideoCall.dailyRoomUrl v = Some u /\ u <> "")
/\ (exists n, VideoCall.dailyRoomName v = Some n /\ n <> "").

(** A handler left the calls alone or ran one successful save on them. *)
Definition savedOnce (db db' : Db) : Prop :=
videoCalls db' = videoCalls db
\/ exists v saved, VideoCall.save v (videoCalls db) = Ok (saved, videoCalls db').

End VideoCallStore.

(** ** Inboxes: unread counts, bulk reads, deletion, sending *)

(** models/Message.js: the unread counter of a conversation. *)
Module MessageInbox.

(** The filter [{ conversationId, senderId: { $ne: userId }, isRead: false }]
    shared by markConversationAsRead and countUnreadInConversation. *)
Definition unreadFor (conv uid : ObjectId) (m : Message.t) : bool :=
(Message.conversationId m === conv) && negb (Message.senderId m === uid)
&& negb (Message.isRead m).

Definition countUnreadInConversation (store : list Message.t)
           (conv uid : ObjectId) : nat :=
List.length (filter (unreadFor conv uid) store).

End MessageInbox.

(** models/Notification.js statics, routes/notifications.js and
    sockets/notifications.js. *)
Module NotificationInbox.

(** The filter [{ userId, isRead: false }]. *)
Definition unread (uid : ObjectId) (n : Notification.t) : bool :=
(Notification.userId n === uid) && negb (Notification.isRead n).

(** [Notification.countUnread] and the routes' [countDocuments]. *)
Definition countUnread (store : list Notification.t) (uid : ObjectId) : nat :=
List.length (filter (unread uid) store).

(** [countDocuments({ userId })] *)
Definition countAll (store : list Notification.t) (uid : ObjectId) : nat :=
List.length (filter (fun n => Notification.userId n === uid) store).

(** The model's static [markAllAsRead]: sets [isRead] and [readAt]. *)
Definition markAllAsRead (now : JsDate) (store : list Notification.t)
           (uid : ObjectId) : list Notification.t :=
map (fun n => if unread uid n
              then Notification.mk (Notification._id n) (Notification.userId n)
                     (Notification.type n) (Notification.title n)
                     (Notification.message n) (Notification.fromUserId n)
                     true (Some now)
              else n) store.

(** [updateMany({ userId, isRead: false }, { isRead: true })] of the route
    and of the socket handler, with its [modifiedCount]. *)
Definition updateManyRead (store : list Notification.t) (uid : ObjectId)
  : nat * list Notification.t :=
(List.length (filter (unread uid) store),
 map (fun n => if unread uid n then NotificationRead.setIsRead n else n) store).

(** PUT /api/notifications/mark-all-read: the answer, [markedCount] and
    the store. *)
Definition markAllReadRoute (user : Caller) (db : Db) : (Response * nat) * Db :=
let (markedCount, ns) := updateManyRead (notifications db) (callerId user) in
((Json HTTP_STATUS.OK true "All notifications marked as read", markedCount),
 withNotifications db ns).

(** The counts the notification socket sends. *)
Inductive CountEvent : Type :=
| AllNotificationsRead (markedCount : nat)
| UnreadCountUpdated (unreadCount : nat)
| UnreadCount (unreadCount : nat).

(** [socket.on('mark_all_notifications_read')]: the unread count it sends
    is the literal 0. *)
Definition onMarkAllNotificationsRead (socket : Caller) (db : Db)
  : list CountEvent * Db :=
let (markedCount, ns) := updateManyRead (notifications db) (callerId socket) in
([AllNotificationsRead markedCount; UnreadCountUpdated 0],
 withNotifications db ns).

(** [socket.on('get_unread_count')] *)
Definition onGetUnreadCount (socket : Caller) (db : Db) : list CountEvent :=
[UnreadCount (countUnread (notifications db) (callerId socket))].

(** [Notification.findByIdAndDelete(id)] *)
Fixpoint findByIdAndDelete (store : list Notification.t) (id : ObjectId)
  : list Notification.t :=
match store with
| [] => []
| n :: rest =>
    if Notification._id n === id then rest
    else n :: findByIdAndDelete rest id
end.

(** DELETE /api/notifications/:notificationId *)
Definition deleteRoute (user : Caller) (notificationId : ObjectId) (db : Db)
  : Response * Db :=
match Notification.findOne (notifications db) notificationId (callerId user) with
| None => (Json HTTP_STATUS.NOT_FOUND false "Notification not found", db)
| Some _ =>
    (Json HTTP_STATUS.OK true "Notification deleted successfully",
     withNotifications db (findByIdAndDelete (notifications db) notificationId))
end.

(** The payload of [new_notification]. *)
Record NewNotification := mkNew {
  recipientId : ObjectId;
  newType : option string;
  newTitle : option string;
  newMessage : option string;
  newFromUserId : option ObjectId
}.

(** [fromUserId || socket.userId] *)
Definition orElse (v : option ObjectId) (fallback : ObjectId) : ObjectId :=
match v with
| Some f => if f === "" then fallback else f
| None => fallback
end.

(** [socket.on(NEW_NOTIFICATION)]; [role] is [socket.user.role]. *)
Definition onNewNotification (role : string) (socket : Caller)
           (data : NewNotification) (newId : ObjectId) (db : Db)
  : list Effect * Db :=
if negb (role === "admin") && negb (recipientId data === callerId socket) then
  ([Emit "error" "Unauthorized to send notifications to other users"], db)
else
  let notification :=
    Notification.mk newId (recipientId data) (newType data) (newTitle data)
      (newMessage data) (Some (orElse (newFromUserId data) (callerId socket)))
      false None in
  match Notification.save notification (notifications db) with
  | Throw _ => ([Emit "error" "Failed to send notification"], db)
  | Ok ns =>
      ([EmitTo ("user_" ++ recipientId data) "new_notification";
        Emit "notification_sent" newId],
       withNotifications db ns)
  end.

End NotificationInbox.

(** sockets/chat.js: [socket.on(SEND_MESSAGE)]. *)
Module ChatSend.

(** The payload, a missing property being [None]. *)
Record SendMessage := mkSend {
  conversationId : ObjectId;
  content : option string;
  type : option string;
  isDisappearing : option bool;
  disappearTime : option Z
}.

(** The enum of the [type] path. *)
Definition kindOf (s : string) : option Message.Kind :=
if s === "text" then Some Message.text
else if s === "image" then Some Message.image
else if s === "file" then Some Message.file
else None.

(** [save()] of a new message: validation, the expiry hook, the insert. *)
Definition create (now : JsDate) (m : Message.t) (store : list Message.t)
  : Result (Message.t * list Message.t) :=
if negb (Message.validate m) then Throw "Message validation failed"
else
  let m1 := Message.preSaveExpiry now m in
  Ok (m1, (store ++ [m1])%list).

(** The payload's properties with the defaults of the destructuring. *)
Definition typeOf (data : SendMessage) : string :=
match type data with Some t => t | None => "text" end.

Definition isDisappearingOf (data : SendMessage) : bool :=
match isDisappearing data with Some b => b | None => false end.

Definition disappearTimeOf (data : SendMessage) : Z :=
match disappearTime data with Some h => h | None => 24 end.

(** [new Date(Date.now() + disappearTime * 60 * 60 * 1000)] of a
    disappearing message, as the Date path of the schema takes it: a time
    out of the range of a Date is an Invalid Date, which fails the cast and
    with it the save. *)
Definition expiryOf (now : JsDate) (isDisappearing : bool) (disappearTime : Z)
  : Result (option JsDate) :=
if isDisappearing then
  match timeClip (js_add now
                    (js_mul (js_mul (js_mul disappearTime 60) 60) 1000)) with
  | Some t => Ok (Some t)
  | None => Throw "Message validation failed: expiresAt: Cast to date failed"
  end
else Ok None.

(** [conversation.lastMessage = message._id;
     conversation.lastMessageAt = new Date()] *)
Definition stamp (c : Conversation.t) (messageId : ObjectId) (later : JsDate)
  : Conversation.t :=
Conversation.mk (Conversation._id c) (Conversation.participants c)
                (Some messageId) later (Conversation.isActive c).

Record Outcome := mkOutcome {
  sent : list Effect;
  after : Db
}.

Definition failed : Effect := Emit "error" "Failed to send message".

(** [now] is the clock when the message is built and saved, [later] when
    the conversation is stamped.  After the two saves the handler populates
    the sender and reads [message.senderId._id], which throws when the
    sender's user document is gone. *)
Definition onSendMessage (io : Connections) (now later : JsDate)
           (newId notifId : ObjectId) (socket : Caller) (data : SendMessage)
           (db : Db) : Outcome :=
match Conversation.findById (conversations db) (conversationId data) with
| None => mkOutcome [Emit "error" "Access denied to conversation"] db
| Some conversation =>
    if negb (Conversation.includes conversation (callerId socket)) then
      mkOutcome [Emit "error" "Access denied to conversation"] db
    else
      match kindOf (typeOf data),
            expiryOf now (isDisappearingOf data) (disappearTimeOf data) with
      | None, _ | _, Throw _ => mkOutcome [failed] db
      | Some kind, Ok expiresAt =>
          let message :=
            Message.mk newId (conversationId data) (callerId socket)
              (content data) kind None None (isDisappearingOf data)
              (if isDisappearingOf data then disappearTimeOf data else 24)
              false None expiresAt in
          match create now message (messages db) with
          | Throw _ => mkOutcome [failed] db
          | Ok (saved, ms) =>
              let db1 := withMessages db ms in
              match Conversation.save
                      (stamp conversation (Message._id saved) later)
                      (conversations db1) with
              | Throw _ => mkOutcome [failed] db1
              | Ok cs =>
                  let db2 := withConversations db1 cs in
                  match User.findById (users db2) (callerId socket) with
                  | None => mkOutcome [failed] db2
                  | Some _ =>
                      let received :=
                        EmitTo ("conversation_" ++ conversationId data)
                               "message_received" in
                      match find (fun id => negb (id === callerId socket))
                                 (Conversation.participants conversation) with
                      | None => mkOutcome [received] db2
                      | Some otherParticipantId =>
                          match VideoCallSocket.fetchSockets io
                                  otherParticipantId with
                          | _ :: _ => mkOutcome [received] db2
                          | [] =>
                              match NotificationService.createNotification
                                      (notifications db2) notifId
                                      (Some otherParticipantId)
                                      [NotificationService.Str "message";
                                       NotificationService.Obj
                                         (NotificationService.mkData None
                                            (Some "New Message")
                                            (Some (callerName socket
                                                   ++ " sent you a message"))
                                            (Some (callerId socket)))] with
                              | Throw _ => mkOutcome [received; failed] db2
                              | Ok (_, ns) =>
                                  mkOutcome [received]
                                            (withNotifications db2 ns)
                              end
                          end
                      end
                  end
              end
          end
      end
end.

(** What a message the handler stored looks like: [m] in conversation [c]. *)
Definition sentBy (socket : Caller) (data : SendMessage) (newId : ObjectId)
           (now : JsDate) (db : Db) (m : Message.t) (c : Conversation.t)
  : Prop :=
Message._id m = newId
/\ Message.type m = Message.text
/\ Message.senderId m = callerId socket
/\ Message.conversationId m = conversationId data
/\ Message.isRead m = false
/\ Message.readAt m = None
/\ expiryOf now (isDisappearingOf data) (disappearTimeOf data)
     = Ok (Message.expiresAt m)
/\ match Message.expiresAt m with
   | Some t => isDisappearingOf data = true /\ Z.abs t <= 8640000000000000
   | None => isDisappearingOf data = false
   end
/\ Conversation.findById (conversations db) (conversationId data) = Some c
/\ Conversation.includes c (callerId socket) = true
/\ exists s, Message.content m = Some s /\ s <> ""
               /\ (String.length s <= 1000)%nat.

End ChatSend.

(** routes/chat.js: the conversation and read routes. *)
Module ChatRoutes.

(** [Conversation.findOne({ participants: { $all: [a, b] } })] *)
Definition findBetween (store : list Conversation.t) (a b : ObjectId)
  : option Conversation.t :=
find (fun c => Conversation.includes c a && Conversation.includes c b) store.

(** [Match.findOne({ $or: [{ user1Id: a, user2Id: b },
                           { user1Id: b, user2Id: a }], isMatch: true })] *)
Definition findMatch (store : list Match.t) (a b : ObjectId) : option Match.t :=
find (fun m => (Match.isPair a b m || Match.isPair b a m) && Match.isMatch m)
     store.

(** POST /api/chat/conversation: the answer, the conversation it carries
    and the store.  The 200 answer has no message.  A new conversation has
    no last message, [lastMessageAt] at its default [Date.now] and is
    active. *)
Definition conversation (now : JsDate) (newId : ObjectId) (user : Caller)
           (otherUserId : option ObjectId) (db : Db)
  : (Response * option Conversation.t) * Db :=
let userId := callerId user in
match otherUserId with
| None =>
    ((Json HTTP_STATUS.BAD_REQUEST false "Other user ID is required", None), db)
| Some other =>
    if other === EmptyString then
      ((Json HTTP_STATUS.BAD_REQUEST false "Other user ID is required", None), db)
    else
      match findMatch (matches db) userId other with
      | None =>
          ((Json HTTP_STATUS.FORBIDDEN false
                 "Users are not matched. Cannot create conversation.", None), db)
      | Some _ =>
          match findBetween (conversations db) userId other with
          | Some found => ((Json HTTP_STATUS.OK true EmptyString, Some found), db)
          | None =>
              match Conversation.insert
                      (Conversation.mk newId [userId; other] None now true)
                      (conversations db) with
              | Throw e => ((NextError e, None), db)
              | Ok (created, cs) =>
                  ((Json HTTP_STATUS.OK true EmptyString, Some created),
                   withConversations db cs)
              end
          end
      end
end.

(** PUT /api/chat/mark-read/:conversationId: the answer, [markedCount] and
    the store. *)
Definition markRead (now : JsDate) (user : Caller) (conversationId : ObjectId)
           (db : Db) : (Response * nat) * Db :=
match Conversation.findById (conversations db) conversationId with
| None => ((Json HTTP_STATUS.NOT_FOUND false "Conversation not found", 0%nat), db)
| Some conversation =>
    if negb (Conversation.includes conversation (callerId user)) then
      ((Json HTTP_STATUS.FORBIDDEN false "Access denied to this conversation",
        0%nat), db)
    else
      ((Json HTTP_STATUS.OK true "Messages marked as read",
        MessageInbox.countUnreadInConversation (messages db) conversationId
                                               (callerId user)),
       withMessages db
         (Message.markConversationAsRead now (messages db) conversationId
                                         (callerId user)))
end.

End ChatRoutes.

(** models/Subscription.js: the plan hook and upgradePlan;
    services/rateLimitService.js: getUserUsageStats. *)
Module SubscriptionPlan.

Definition Plan_eqb (a b : Subscription.Plan) : bool :=
match a, b with
| Subscription.free, Subscription.free
| Subscription.premium, Subscription.premium
| Subscription.platinum, Subscription.platinum => true
| _, _ => false
end.

(** Pre-save hook: update features when plan changes. *)
Definition preSavePlan (planModified : bool) (s : Subscription.t)
  : Subscription.t :=
if planModified
then Subscription.mk (Subscription.userId s) (Subscription.plan s)
                     (Subscription.FEATURES (Subscription.plan s))
                     (Subscription.usage s)
else s.

(** [upgradePlan(newPlan)] for a plan of the enum: the plan is assigned and
    the document saved; the path counts as modified when the value changed.
    The billing fields it copies are not part of the record. *)
Definition upgradePlan (s : Subscription.t) (newPlan : Subscription.Plan)
           (store : RateLimitService.Store)
  : Subscription.t * RateLimitService.Store :=
let s1 := Subscription.mk (Subscription.userId s) newPlan
                          (Subscription.features s) (Subscription.usage s) in
let s2 := preSavePlan (negb (Plan_eqb (Subscription.plan s) newPlan)) s1 in
(s2, RateLimitService.save s2 store).

(** The order free, premium, platinum. *)
Definition rank (p : Subscription.Plan) : nat :=
match p with
| Subscription.free => 0
| Subscription.premium => 1
| Subscription.platinum => 2
end.

Record Remaining := mkRemaining {
  videoCalls : Z;
  voiceCalls : Z;
  likes : Z;
  superLikes : Z
}.

Record UsageStats := mkUsageStats {
  statsPlan : Subscription.Plan;
  statsFeatures : Subscription.Features;
  statsUsage : Subscription.Usage;
  remaining : Remaining
}.

Definition getUserUsageStats (now : JsDate) (store : RateLimitService.Store)
           (uid : ObjectId) : option UsageStats :=
match RateLimitService.findOne store uid with
| None => None
| Some subscription =>
    let s1 := Subscription.resetDailyUsageIfNeeded now subscription in
    let f := Subscription.features s1 in
    let u := Subscription.usage s1 in
    Some (mkUsageStats (Subscription.plan s1) f u
            (mkRemaining
               (RateLimitReport.calculateRemaining
                  (Subscription.videoCallsPerDay f) (Subscription.videoCallsToday u))
               (RateLimitReport.calculateRemaining
                  (Subscription.voiceCallsPerDay f) (Subscription.voiceCallsToday u))
               (RateLimitReport.calculateRemaining
                  (Subscription.likesPerDay f) (Subscription.likesToday u))
               (RateLimitReport.calculateRemaining
                  (Subscription.superLikesPerDay f)
                  (Subscription.superLikesToday u))))
end.

End SubscriptionPlan.

(** sockets/chat.js and sockets/videocall.js: the room handlers. *)
Module ChatRooms.

Definition denied : Effect := Emit "error" "Access denied to conversation".

(** [socket.on(JOIN_CONVERSATION)] *)
Definition onJoinConversation (socket : Caller) (conversationId : ObjectId)
           (db : Db) : list Effect :=
match Conversation.findById (conversations db) conversationId with
| None => [denied]
| Some conversation =>
    if negb (Conversation.includes conversation (callerId socket)) then [denied]
    else [Join ("conversation_" ++ conversationId);
          Emit "conversation_joined" conversationId]
end.

(** [socket.on(LEAVE_CONVERSATION)] *)
Definition onLeaveConversation (conversationId : ObjectId) : list Effect :=
[Leave ("conversation_" ++ conversationId);
 Emit "conversation_left" conversationId].

(** [socket.on(TYPING_START)] and [socket.on(TYPING_STOP)]: [event] is the
    event name. *)
Definition onTyping (event : string) (socket : Caller)
           (conversationId : ObjectId) (db : Db) : list Effect :=
match Conversation.findById (conversations db) conversationId with
| None => []
| Some conversation =>
    if negb (Conversation.includes conversation (callerId socket)) then []
    else [EmitTo ("conversation_" ++ conversationId) event]
end.

(** [socket.on('join_call')] *)
Definition onJoinCall (socket : Caller) (callId : ObjectId) (db : Db)
  : list Effect :=
match VideoCall.findById (videoCalls db) callId with
| None => []
| Some videoCall =>
    if VideoCall.includes videoCall (callerId socket) then
      [Join ("call_" ++ VideoCall._id videoCall);
       Emit "call_joined" (VideoCall._id videoCall)]
    else []
end.

(** [socket.on('leave_call')] *)
Definition onLeaveCall (callId : ObjectId) : list Effect :=
[Leave ("call_" ++ callId); Emit "call_left" callId].

Inductive Event : Type :=
| JoinConversation (conversationId : ObjectId)
| LeaveConversation (conversationId : ObjectId)
| TypingStart (conversationId : ObjectId)
| TypingStop (conversationId : ObjectId)
| JoinCall (callId : ObjectId)
| LeaveCall (callId : ObjectId).

Definition handle (socket : Caller) (db : Db) (ev : Event) : list Effect :=
match ev with
| JoinConversation c => onJoinConversation socket c db
| LeaveConversation c => onLeaveConversation c
| TypingStart c => onTyping "typing_start" socket c db
| TypingStop c => onTyping "typing_stop" socket c db
| JoinCall c => onJoinCall socket c db
| LeaveCall c => onLeaveCall c
end.

(** The rooms of one socket: [join] adds a room once, [leave] removes it. *)
Definition applyEffect (rooms : list string) (e : Effect) : list string :=
match e with
| Join r => if existsb (fun x => x === r) rooms then rooms else r :: rooms
| Leave r => filter (fun x => negb (x === r)) rooms
| _ => rooms
end.

(** The events of one socket in order: everything sent, and the rooms the
    socket is in at the end. *)
Fixpoint run (socket : Caller) (db : Db) (events : list Event)
         (rooms : list string) : list Effect * list string :=
match events with
| [] => ([], rooms)
| ev :: rest =>
    let sent := handle socket db ev in
    let (later, rooms') := run socket db rest (fold_left applyEffect sent rooms) in
    ((sent ++ later)%list, rooms')
end.

(** A room the user may be in or send to: the room of a stored
    conversation or call the user takes part in. *)
Definition ownRoom (uid : ObjectId) (db : Db) (room : string) : Prop :=
(exists c, In c (conversations db)
           /\ Conversation.includes c uid = true
           /\ room = "conversation_" ++ Conversation._id c)
\/ (exists v, In v (videoCalls db)
              /\ VideoCall.includes v uid = true
              /\ room = "call_" ++ VideoCall._id v).

End ChatRooms.

(** Three stored notifications: an unread like for Alice, an unread match
    for Bob, a read message notice for Alice. *)
Module InboxScenario.

Definition note1 : Notification.t :=
Notification.mk "n1" "alice" (Some "like") (Some "New Like")
                (Some "Bob liked your profile") (Some "bob") false None.

Definition note2 : Notification.t :=
Notification.mk "n2" "bob" (Some "match") (Some "New Match")
                (Some "You matched with Alice") (Some "alice") false None.

Definition note3 : Notification.t :=
Notification.mk "n3" "alice" (Some "message") (Some "New Message")
                (Some "Bob sent you a message") (Some "bob") true
                (Some 1700000000000).

Definition inboxDb : Db :=
mkDb [User.mk "alice" "Alice" "premium" false 1700000000000;
      User.mk "bob" "Bob" "free" false 1700000000000]
     [] [] [note1; note2; note3] [] [].

Definition alice : Caller := mkCaller "alice" "Alice" "premium".
Definition bob : Caller := mkCaller "bob" "Bob" "free".

(** A conversation of Alice and Bob without messages. *)
Definition talkDb : Db :=
mkDb [User.mk "alice" "Alice" "premium" false 1700000000000;
      User.mk "bob" "Bob" "free" false 1700000000000]
     [] [] [] [Conversation.mk "conv1" ["alice"; "bob"] None 1700000000000 true] [].

End InboxScenario.

(** ** The call state machine as the specification draws it *)

(** pending -> active, pending -> declined, active -> ended. *)
Inductive allowed : VideoCall.Status -> VideoCall.Status -> Prop :=
| allowed_accept : allowed VideoCall.pending VideoCall.active
| allowed_decline : allowed VideoCall.pending VideoCall.declined
| allowed_end : allowed VideoCall.active VideoCall.ended.

Definition statusOf (db : Db) (id : ObjectId) : option VideoCall.Status :=
  option_map VideoCall.status (VideoCall.findById (videoCalls db) id).

(** An operation is safe when every stored call keeps its status or moves
    along an allowed transition. *)
Definition safeStep (db db' : Db) : Prop :=
  forall id s s',
    statusOf db id = Some s -> statusOf db' id = Some s' ->
    s = s' \/ allowed s s'.

(** ** Presence events seen from one user *)

Module PresenceView.

Import Presence.

Definition eventUser (e : Event) : ObjectId :=
  match e with
  | Connect _ uid => uid
  | Disconnect _ uid => uid
  | OnlineStatus _ uid _ => uid
  end.

(** The value the handler of an event writes to [isOnline]. *)
Definition eventFlag (e : Event) : bool :=
  match e with
  | Connect _ _ => true
  | Disconnect _ _ => false
  | OnlineStatus _ _ b => b
  end.

Definition eventBroadcast (e : Event) : string :=
  if eventFlag e then SOCKET_EVENTS.USER_ONLINE else SOCKET_EVENTS.USER_OFFLINE.

(** The events of a run that belong to a user, in order. *)
Definition eventsOf (evs : list (JsDate * Event)) (userId : ObjectId) : list Event :=
  filter (fun e => eventUser e === userId) (map snd evs).

(** The flag of the last event of a list, [init] when there is none. *)
Definition lastFlag (init : bool) (es : list Event) : bool :=
  fold_left (fun _ e => eventFlag e) es init.

End PresenceView.

(** ** Concrete documents used by the examples *)

Module Scenario.

(** 2023-11-14T22:13:20Z and the same time one and two days later. *)
Definition day1 : JsDate := 1700000000000.
Definition day2 : JsDate := 1700086400000.
Definition day3 : JsDate := 1700172800000.

Definition alice : Caller := mkCaller "alice" "Alice" "premium".
Definition bob : Caller := mkCaller "bob" "Bob" "free".

Definition userAlice : User.t := User.mk "alice" "Alice" "premium" false day1.
Definition userBob : User.t := User.mk "bob" "Bob" "free" false day1.

(** A free-plan subscription whose like counter reached its limit on day 1. *)
Definition likesSpent : Subscription.t :=
  Subscription.mk "alice" Subscription.free
    (Subscription.FEATURES Subscription.free)
    (Subscription.mkUsage 0 0 20 0 day1).

Definition emptyDb : Db := mkDb [userAlice; userBob] [] [] [] [] [].

(** Alice liked Bob, Bob super-liked back. *)
Definition likeSuperLike : Match.t :=
  Match.mk "m1" "alice" "bob" Match.like Match.super_like false None 0 day1.

(** Alice and Bob matched on day 1. *)
Definition matched : Match.t :=
  Match.mk "m1" "alice" "bob" Match.like Match.like true (Some day1) 80 day1.

Definition matchedDb : Db := mkDb [userAlice; userBob] [matched] [] [] [] [].

(** Daily.co answering every request. *)
Definition dailyUp : DailyService.Api :=
  DailyService.mkApi
    (Some ("call_alice_bob_1700086400000",
           "https://relacio.daily.co/call_alice_bob_1700086400000"))
    DailyService.Deleted (Some "token").

(** A stored call between Alice (initiator) and Bob in a given status. *)
Definition callIn (st : VideoCall.Status) : VideoCall.t :=
  VideoCall.mk "c1" "relacio-call-1" ["alice"; "bob"] "alice" st
    (Some day2) (match st with
                 | VideoCall.declined | VideoCall.ended => Some (day2 + 5000)
                 | _ => None
                 end)
    0 (Some "https://relacio.daily.co/relacio-call-1") (Some "relacio-call-1").

Definition callDb (st : VideoCall.Status) : Db :=
  mkDb [userAlice; userBob] [matched] [callIn st] [] [] [].

(** A message from Alice that Bob read on day 2. *)
Definition conversation : Conversation.t :=
  Conversation.mk "conv1" ["alice"; "bob"] (Some "msg1") day1 true.

Definition readMessage : Message.t :=
  Message.mk "msg1" "conv1" "alice" (Some "hello") Message.text None None
             false 24 true (Some day2) None.

Definition chatDb : Db :=
  mkDb [userAlice; userBob] [matched] [] [] [conversation] [readMessage].

Definition offline : Presence.State := Presence.mkState [userAlice; userBob] [].

End Scenario.

(** * Properties *)

(** ** Quota ledger *)

(** The calendar fields of three known instants: 2023-11-14T22:13:20Z, the
    leap day 2000-02-29T00:00:00Z and the last millisecond of 1969. *)
Example calendar_fields :
  (getFullYear 1700000000000, getMonth 1700000000000, getDate 1700000000000)
  = (2023, 10, 14)
  /\ (getFullYear 951782400000, getMonth 951782400000, getDate 951782400000)
     = (2000, 1, 29)
  /\ (getFullYear (-1), getMonth (-1), getDate (-1)) = (1969, 11, 31).
Proof. repeat split. Qed.

Section QuotaLedger.

Import Subscription.

Lemma features_reset (now : JsDate) (s : t) :
  features (resetDailyUsageIfNeeded now s) = features s.
Proof. unfold resetDailyUsageIfNeeded. now destruct (isNewDay _ _). Qed.

Lemma userId_reset (now : JsDate) (s : t) :
  userId (resetDailyUsageIfNeeded now s) = userId s.
Proof. unfold resetDailyUsageIfNeeded. now destruct (isNewDay _ _). Qed.


Lemma reset_same_day (now : JsDate) (s : t) :
  isNewDay now (lastResetDate (usage s)) = false ->
  resetDailyUsageIfNeeded now s = s.
Proof. unfold resetDailyUsageIfNeeded. now intros ->. Qed.

(** The counter the gate reads after its reset step is today's usage. *)
Lemma usage_after_reset (now : JsDate) (s : t) (featureType : string) :
  usage_get (usage (resetDailyUsageIfNeeded now s)) (featureType ++ "Today")
  = RateLimitService.usedToday now s featureType.
Proof.
  unfold RateLimitService.usedToday, resetDailyUsageIfNeeded.
  destruct (isNewDay now (lastResetDate (usage s))).
  - cbn [usage]. unfold usage_get.
    repeat (destruct (String.eqb _ _); [reflexivity|]). reflexivity.
  - now destruct (usage_get _ _).
Qed.

Lemma canPerformAction_answer (now : JsDate) (s : t) (featureType : string) :
  fst (canPerformAction now s featureType)
  = isUnlimited (features_get (features s) (featureType ++ "PerDay"))
    || js_lt (RateLimitService.usedToday now s featureType)
             (features_get (features s) (featureType ++ "PerDay")).
Proof.
  unfold canPerformAction. cbv zeta.
  rewrite features_reset, usage_after_reset.
  now destruct (isUnlimited _).
Qed.


Lemma isUnlimited_true (limit : option Z) :
  isUnlimited limit = true <-> limit = Some (-1).
Proof.
  destruct limit as [l|]; cbn; [|split; discriminate].
  rewrite Z.eqb_eq. split; [now intros ->|]. now intros [= ->].
Qed.

Lemma js_lt_true (a b : option Z) :
  js_lt a b = true <-> exists x y, a = Some x /\ b = Some y /\ x < y.
Proof.
  destruct a as [x|], b as [y|]; cbn.
  - rewrite Z.ltb_lt. split.
    + intros H. now exists x, y.
    + now intros (x' & y' & [= ->] & [= ->] & H).
  - split; [discriminate|]. now intros (? & ? & _ & [=] & _).
  - split; [discriminate|]. now intros (? & ? & [=] & _).
  - split; [discriminate|]. now intros (? & ? & [=] & _).
Qed.


Lemma sameDay_not_new (last now : JsDate) :
  RateLimitService.sameDay last now -> isNewDay now last = false.
Proof.
  unfold RateLimitService.sameDay, isNewDay. intros (Hy & Hm & Hd).
  rewrite Hy, Hm, Hd, !Z.eqb_refl. reflexivity.
Qed.

(** A saved subscription is the one a later lookup finds. *)
Lemma findOne_save (store : RateLimitService.Store) (uid : ObjectId) (s s' : t) :
  RateLimitService.findOne store uid = Some s ->
  userId s' = userId s ->
  RateLimitService.findOne (RateLimitService.save s' store) uid = Some s'.
Proof.
  unfold RateLimitService.findOne, RateLimitService.save. intros Hfind Hid.
  assert (Huid : userId s = uid).
  { apply find_some in Hfind. now apply String.eqb_eq. }
  induction store as [|x rest IH]; cbn in *; [discriminate|].
  rewrite Hid, Huid.
  destruct (String.eqb_spec (userId x) uid) as [Hx|Hx].
  - cbn. rewrite Hid, Huid, String.eqb_refl. reflexivity.
  - cbn. destruct (String.eqb_spec (userId x) uid); [contradiction|].
    rewrite Hid, Huid in IH. now apply IH.
Qed.

(** The message feature has neither a limit nor a counter in the schema:
    its gate never opens. *)
Lemma checkMessageLimit_closed now store uid :
  RateLimitService.checkMessageLimit now store uid = false.
Proof.
  unfold RateLimitService.checkMessageLimit, RateLimitService.checkFeatureLimit.
  destruct (RateLimitService.findOne store uid) as [s|]; [|reflexivity].
  rewrite canPerformAction_answer. reflexivity.
Qed.

Lemma not_sameDay_isNewDay (last now : JsDate) :
  ~ RateLimitService.sameDay last now -> isNewDay now last = true.
Proof.
  unfold RateLimitService.sameDay, isNewDay. intros H.
  destruct (Z.eqb_spec (getDate now) (getDate last));
    destruct (Z.eqb_spec (getMonth now) (getMonth last));
    destruct (Z.eqb_spec (getFullYear now) (getFullYear last));
    cbn; try reflexivity.
  elim H. auto.
Qed.

(** The truth condition of the four counted gates, on the fields of the
    stored subscription: a gate is open when the limit of its feature is
    the unlimited mark -1, and otherwise exactly when today's count is
    strictly below the limit, today's count being the stored counter while
    the last reset falls on the calendar day of the check and zero on any
    other day. *)
Theorem counted_gates_truth_condition
        (now : JsDate) (store : RateLimitService.Store) (uid : ObjectId)
        (s : t) :
  RateLimitService.findOne store uid = Some s ->
  (RateLimitService.sameDay (lastResetDate (usage s)) now ->
   RateLimitService.checkVideoCallLimit now store uid
   = ((videoCallsPerDay (features s) =? -1)
      || (videoCallsToday (usage s) <? videoCallsPerDay (features s)))
   /\ RateLimitService.checkVoiceCallLimit now store uid
      = ((voiceCallsPerDay (features s) =? -1)
         || (voiceCallsToday (usage s) <? voiceCallsPerDay (features s)))
   /\ RateLimitService.checkLikeLimit now store uid
      = ((likesPerDay (features s) =? -1)
         || (likesToday (usage s) <? likesPerDay (features s)))
   /\ RateLimitService.checkSuperLikeLimit now store uid
      = ((superLikesPerDay (features s) =? -1)
         || (superLikesToday (usage s) <? superLikesPerDay (features s))))
  /\ (~ RateLimitService.sameDay (lastResetDate (usage s)) now ->
      RateLimitService.checkVideoCallLimit now store uid
      = ((videoCallsPerDay (features s) =? -1)
         || (0 <? videoCallsPerDay (features s)))
      /\ RateLimitService.checkVoiceCallLimit now store uid
         = ((voiceCallsPerDay (features s) =? -1)
            || (0 <? voiceCallsPerDay (features s)))
      /\ RateLimitService.checkLikeLimit now store uid
         = ((likesPerDay (features s) =? -1)
            || (0 <? likesPerDay (features s)))
      /\ RateLimitService.checkSuperLikeLimit now store uid
         = ((superLikesPerDay (features s) =? -1)
            || (0 <? superLikesPerDay (features s)))).
Proof.
  intros Hfind.
  unfold RateLimitService.checkVideoCallLimit,
    RateLimitService.checkVoiceCallLimit, RateLimitService.checkLikeLimit,
    RateLimitService.checkSuperLikeLimit, RateLimitService.checkFeatureLimit.
  rewrite Hfind, !canPerformAction_answer.
  unfold RateLimitService.usedToday. split.
  - intros Hsame. rewrite (sameDay_not_new _ _ Hsame). repeat split.
  - intros Hother. rewrite (not_sameDay_isNewDay _ _ Hother). repeat split.
Qed.


End QuotaLedger.

Section QuotaLedgerExamples.

Import Scenario.

Lemma counted_gates_truth_condition_witness :
  RateLimitService.checkLikeLimit day1
    [Subscription.mk "alice" Subscription.free
       (Subscription.FEATURES Subscription.free)
       (Subscription.mkUsage 0 0 19 0 day1)] "alice" = true
  /\ RateLimitService.checkLikeLimit day1 [likesSpent] "alice" = false
  /\ RateLimitService.checkLikeLimit day2 [likesSpent] "alice" = true.
Proof.
  assert (Hday1 : RateLimitService.sameDay day1 day1) by (repeat split).
  assert (Hday2 : ~ RateLimitService.sameDay day1 day2).
  { intros (_ & _ & H). vm_compute in H. discriminate H. }
  split; [|split].
  - destruct (counted_gates_truth_condition day1
                [Subscription.mk "alice" Subscription.free
                   (Subscription.FEATURES Subscription.free)
                   (Subscription.mkUsage 0 0 19 0 day1)] "alice"
                (Subscription.mk "alice" Subscription.free
                   (Subscription.FEATURES Subscription.free)
                   (Subscription.mkUsage 0 0 19 0 day1)) eq_refl)
      as [Hsame _].
    destruct (Hsame Hday1) as (_ & _ & Hlike & _). exact Hlike.
  - destruct (counted_gates_truth_condition day1 [likesSpent] "alice"
                likesSpent eq_refl) as [Hsame _].
    destruct (Hsame Hday1) as (_ & _ & Hlike & _). exact Hlike.
  - destruct (counted_gates_truth_condition day2 [likesSpent] "alice"
                likesSpent eq_refl) as [_ Hother].
    destruct (Hother Hday2) as (_ & _ & Hlike & _). exact Hlike.
Defined.

(** C2. The quota gate truth condition fails for the feature [messages]:
    the plans have a message allowance (100 per hour on the free plan), a
    fresh free subscription has used nothing, and the gate of a sibling
    feature is open for it, yet checkLimit answers false for [messages],
    as it does for every user, store and time. *)
Theorem message_quota_gate_never_opens :
  let fresh := Subscription.mk "alice" Subscription.free
                 (Subscription.FEATURES Subscription.free)
                 (Subscription.mkUsage 0 0 0 0 day1) in
  RATE_LIMIT_CONSTANTS.MESSAGES_max (Subscription.plan fresh) = 100
  /\ RateLimitService.checkLikeLimit day1 [fresh] "alice" = true
  /\ RateLimitService.checkMessageLimit day1 [fresh] "alice" = false
  /\ (forall now store uid,
        RateLimitService.checkMessageLimit now store uid = false).
Proof.
  cbv zeta. repeat split. intros now store uid.
  apply checkMessageLimit_closed.
Qed.


(** The quota-boundary scenario: twenty likes spent on day 1 close the gate
    that day and the gate is open again on day 2. *)
Example quota_boundary :
  RateLimitService.checkLikeLimit day1 [likesSpent] "alice" = false
  /\ RateLimitService.checkLikeLimit day2 [likesSpent] "alice" = true.
Proof. split; reflexivity. Qed.

End QuotaLedgerExamples.

(** ** Match derivation and the swipe paths *)

Section MatchRule.

Import Match.

Lemma Action_eqb_eq (a b : Action) : Action_eqb a b = true <-> a = b.
Proof. destruct a, b; cbn; split; congruence. Qed.

Lemma preSaveMatch_actions (now : JsDate) (m : t) :
  user1Action (preSaveMatch now m) = user1Action m
  /\ user2Action (preSaveMatch now m) = user2Action m
  /\ _id (preSaveMatch now m) = _id m
  /\ user1Id (preSaveMatch now m) = user1Id m
  /\ user2Id (preSaveMatch now m) = user2Id m.
Proof.
  unfold preSaveMatch.
  destruct (Action_eqb (user1Action m) like && Action_eqb (user2Action m) like);
    cbn; auto.
Qed.

Lemma preSaveMatch_isMatch (now : JsDate) (m : t) :
  isMatch (preSaveMatch now m) = true
  <-> user1Action m = like /\ user2Action m = like.
Proof.
  unfold preSaveMatch.
  destruct (Action_eqb (user1Action m) like && Action_eqb (user2Action m) like) eqn:E;
    cbn.
  - apply andb_true_iff in E. rewrite !Action_eqb_eq in E. tauto.
  - split; [discriminate|]. intros [H1 H2].
    rewrite H1, H2 in E. discriminate.
Qed.

Lemma preSaveMatch_matchedAt (now : JsDate) (m : t) :
  matchedAt (preSaveMatch now m)
  = if isMatch (preSaveMatch now m)
    then Some (match matchedAt m with Some d => d | None => now end)
    else None.
Proof.
  unfold preSaveMatch.
  destruct (Action_eqb (user1Action m) like && Action_eqb (user2Action m) like);
    cbn; [|reflexivity].
  now destruct (matchedAt m).
Qed.

(** What a successful save returns: the hooks' document, with [createdAt]
    stamped when it is new. *)
Lemma save_inv (now : JsDate) (m saved : t) (store store' : list t) :
  save now m store = Ok (saved, store') ->
  user1Id m <> user2Id m
  /\ isMatch saved = isMatch (preSaveMatch now m)
  /\ matchedAt saved = matchedAt (preSaveMatch now m)
  /\ user1Action saved = user1Action m
  /\ user2Action saved = user2Action m
  /\ _id saved = _id m
  /\ user1Id saved = user1Id m
  /\ user2Id saved = user2Id m
  /\ compatibility saved = compatibility m
  /\ (store' = map (fun x => if _id x === _id saved then saved else x) store
      \/ store' = (store ++ [saved])%list).
Proof.
  unfold save, preSaveSelf.
  destruct (validate m); cbn; [|discriminate].
  destruct (String.eqb_spec (user1Id m) (user2Id m)) as [|Hne]; cbn; [discriminate|].
  destruct (preSaveMatch_actions now m) as (H1 & H2 & H3 & H4 & H5).
  destruct (findById store (_id (preSaveMatch now m))).
  - intros [= <- <-]. rewrite H1, H2, H3, H4, H5.
    repeat split; auto.
    unfold preSaveMatch;
      destruct (Action_eqb (user1Action m) like && Action_eqb (user2Action m) like);
      reflexivity.
  - destruct (existsb _ store); [discriminate|].
    intros [= <- <-]. cbn. rewrite H1, H2, H3, H4, H5.
    repeat split; auto.
    unfold preSaveMatch;
      destruct (Action_eqb (user1Action m) like && Action_eqb (user2Action m) like);
      reflexivity.
Qed.

(** C6, as the code has it.  After every successful save of a Match record,
    isMatch is true exactly when both action slots are [like]; matchedAt is
    then the value it had before the save when it was set and the time of
    the save otherwise, and it is cleared whenever the two slots are not
    both [like]; a later save of the saved record keeps matchedAt. *)
Theorem match_derivation_rule
        (now : JsDate) (m saved : t) (store store' : list t) :
  save now m store = Ok (saved, store') ->
  (isMatch saved = true <-> user1Action m = like /\ user2Action m = like)
  /\ (isMatch saved = true ->
      matchedAt saved = Some (match matchedAt m with Some d => d | None => now end))
  /\ (isMatch saved = false -> matchedAt saved = None)
  /\ (forall now2 store2 saved2 store2',
        save now2 saved store2 = Ok (saved2, store2') ->
        isMatch saved2 = isMatch saved /\ matchedAt saved2 = matchedAt saved).
Proof.
  intros Hsave.
  destruct (save_inv _ _ _ _ _ Hsave)
    as (_ & Hm & Hat & Ha1 & Ha2 & _).
  rewrite Hm, Hat, preSaveMatch_matchedAt.
  split; [apply preSaveMatch_isMatch|].
  split; [now intros ->|].
  split; [now intros ->|].
  intros now2 store2 saved2 store2' Hsave2.
  destruct (save_inv _ _ _ _ _ Hsave2) as (_ & Hm2 & Hat2 & _).
  assert (Hsame : isMatch (preSaveMatch now2 saved) = isMatch (preSaveMatch now m)).
  { apply eq_true_iff_eq.
    rewrite !preSaveMatch_isMatch, Ha1, Ha2. reflexivity. }
  rewrite Hm2, Hat2, preSaveMatch_matchedAt, Hsame.
  split; [reflexivity|].
  rewrite Hat, preSaveMatch_matchedAt.
  now destruct (isMatch (preSaveMatch now m)).
Qed.

End MatchRule.

Section MatchExamples.

Import Scenario.

(** Against C6 as stated.  A like answered by a super-like: the rule of the
    data model calls it a match, the saved record is not one. *)
Lemma like_super_like_is_no_match :
  Match.sustainsMatch (Match.user1Action likeSuperLike)
                      (Match.user2Action likeSuperLike) = true
  /\ exists saved store',
       Match.save day2 likeSuperLike [likeSuperLike] = Ok (saved, store')
       /\ Match.isMatch saved = false
       /\ Match.matchedAt saved = None.
Proof.
  split; [reflexivity|].
  eexists. eexists. split; [reflexivity|]. split; reflexivity.
Qed.

Lemma match_derivation_rule_witness :
  (Match.isMatch matched = true
   <-> Match.user1Action matched = Match.like
       /\ Match.user2Action matched = Match.like)
  /\ (Match.isMatch matched = true ->
      Match.matchedAt matched
      = Some (match Match.matchedAt matched with Some d => d | None => day2 end))
  /\ (Match.isMatch matched = false -> Match.matchedAt matched = None)
  /\ (forall now2 store2 saved2 store2',
        Match.save now2 matched store2 = Ok (saved2, store2') ->
        Match.isMatch saved2 = Match.isMatch matched
        /\ Match.matchedAt saved2 = Match.matchedAt matched).
Proof.
  apply (match_derivation_rule day2 matched matched [matched] [matched]).
  reflexivity.
Defined.

End MatchExamples.

(** ** Swipes *)

Section Swipes.

Import Scenario.

(** The service alone reciprocates: on the record Alice's like created,
    Bob's like updates that record to a match. *)
Lemma processSwipe_reciprocates :
  exists first store1 second store2,
    MatchingService.processSwipe day1 "m1" None "alice" "bob" Match.like []
    = Ok (first, store1)
    /\ store1 = [Match.mk "m1" "alice" "bob" Match.like Match.pending
                          false None 0 day1]
    /\ MatchingService.processSwipe day2 "m2" None "bob" "alice" Match.like store1
       = Ok (second, store2)
    /\ store2 = [Match.mk "m1" "alice" "bob" Match.like Match.like
                          true (Some day2) 0 day1].
Proof. repeat eexists. Qed.

Lemma match_findById_of_In (store : list Match.t) (m : Match.t) :
  In m store -> exists x, Match.findById store (Match._id m) = Some x.
Proof.
  unfold Match.findById. induction store as [|y rest IH]; cbn; [tauto|].
  intros [->|Hin].
  - rewrite String.eqb_refl. eauto.
  - destruct (Match._id y === Match._id m); eauto.
Qed.

(** The service on a record the other user created: a like that answers a
    like updates that record, and no other, to a match stamped once. *)
Theorem processSwipe_reciprocal_like
        (now : JsDate) (newId : ObjectId) (compat : option Z)
        (store : list Match.t) (a b : ObjectId) (m : Match.t) :
  Match.findExistingMatch store b a = Some m ->
  Match.user1Id m = a ->
  a <> b ->
  Match.user1Action m = Match.like ->
  Match.user2Action m = Match.pending ->
  Match.validate m = true ->
  exists saved store',
    MatchingService.processSwipe now newId compat b a Match.like store
    = Ok (saved, store')
    /\ Match._id saved = Match._id m
    /\ Match.user1Action saved = Match.like
    /\ Match.user2Action saved = Match.like
    /\ Match.isMatch saved = true
    /\ Match.matchedAt saved
       = Some (match Match.matchedAt m with Some d => d | None => now end)
    /\ store' = map (fun x => if Match._id x === Match._id m then saved else x) store.
Proof.
  intros Hfind Hu1 Hab Ha1 Ha2 Hvalid.
  unfold Match.findExistingMatch in Hfind.
  pose proof (find_some _ _ Hfind) as [Hin Hpair].
  assert (Hu2 : Match.user2Id m = b).
  { apply orb_true_iff in Hpair. unfold Match.isPair in Hpair.
    destruct Hpair as [H|H]; apply andb_true_iff in H; destruct H as [H1 H2].
    - apply String.eqb_eq in H1. congruence.
    - now apply String.eqb_eq in H2. }
  destruct (match_findById_of_In _ _ Hin) as [x Hx].
  unfold MatchingService.processSwipe, Match.findExistingMatch. rewrite Hfind.
  destruct (String.eqb_spec (Match.user1Id m) b) as [Heq|_]; [congruence|].
  rewrite Ha2. cbn [Match.Action_eqb].
  unfold Match.save, Match.preSaveSelf, Match.preSaveMatch, Match.validate in *.
  unfold MatchingService.setUser2Action.
  cbn [Match.compatibility Match.user1Id Match.user2Id Match.user1Action
       Match.user2Action Match.matchedAt Match._id Match.isMatch Match.createdAt].
  rewrite Hvalid. cbn [negb].
  destruct (String.eqb_spec (Match.user1Id m) (Match.user2Id m)) as [Heq|_];
    [congruence|].
  cbn [bind]. rewrite Ha1. cbn -[Match.findById]. rewrite Hx.
  eexists. eexists. split; [reflexivity|].
  cbn. repeat split. now destruct (Match.matchedAt m).
Qed.

Lemma processSwipe_reciprocal_like_witness :
  exists saved store',
    MatchingService.processSwipe Scenario.day2 "m2" None "bob" "alice" Match.like
      [Match.mk "m1" "alice" "bob" Match.like Match.pending false None 0 Scenario.day1]
    = Ok (saved, store')
    /\ Match._id saved = "m1"
    /\ Match.user1Action saved = Match.like
    /\ Match.user2Action saved = Match.like
    /\ Match.isMatch saved = true
    /\ Match.matchedAt saved = Some Scenario.day2
    /\ store' = map (fun x => if Match._id x === "m1" then saved else x)
                    [Match.mk "m1" "alice" "bob" Match.like Match.pending false None 0
                              Scenario.day1].
Proof.
  apply (processSwipe_reciprocal_like Scenario.day2 "m2" None
           [Match.mk "m1" "alice" "bob" Match.like Match.pending false None 0
                     Scenario.day1]
           "alice" "bob"
           (Match.mk "m1" "alice" "bob" Match.like Match.pending false None 0
                     Scenario.day1));
    try reflexivity.
  discriminate.
Defined.

(** The route asks for any record of the pair before it calls the service. *)
Lemma swipe_conflict
      (now : JsDate) (matchId notifId1 notifId2 : ObjectId) (compat : option Z)
      (user : Caller) (targetUserId : ObjectId) (action : Match.Action)
      (db : Db) (target : User.t) (existing : Match.t) :
  User.findById (users db) targetUserId = Some target ->
  callerId user <> targetUserId ->
  Match.findExistingMatch (matches db) (callerId user) targetUserId = Some existing ->
  Discovery.swipe now matchId notifId1 notifId2 compat user targetUserId action db
  = (Json HTTP_STATUS.CONFLICT false "You have already swiped on this user", db).
Proof.
  intros Htarget Hne Hexisting. unfold Discovery.swipe. cbv zeta.
  rewrite Htarget.
  destruct (String.eqb_spec (callerId user) targetUserId); [contradiction|].
  now rewrite Hexisting.
Qed.

(** C7 at the failing input.  Alice's like on Bob stores one record (like,
    pending, no match); Bob's like on Alice through the route is answered
    409 and the record stays as it was. *)
Theorem swipe_route_rejects_reciprocal_like :
  let first := Discovery.swipe day1 "m1" "n1" "n2" None alice "bob" Match.like emptyDb in
  let second := Discovery.swipe day2 "m2" "n3" "n4" None bob "alice" Match.like
                                (snd first) in
  matches (snd first)
  = [Match.mk "m1" "alice" "bob" Match.like Match.pending false None 0 day1]
  /\ fst second
     = Json HTTP_STATUS.CONFLICT false "You have already swiped on this user"
  /\ snd second = snd first.
Proof. cbv zeta. repeat split. Qed.

End Swipes.

(** ** Undo *)

Section Undo.

Lemma newest_In (l : list Match.t) (m : Match.t) :
  Discovery.newest l = Some m -> In m l.
Proof.
  revert m. induction l as [|x rest IH]; cbn; [discriminate|].
  intros m. destruct (Discovery.newest rest) as [r|].
  - destruct (Match.createdAt r >? Match.createdAt x).
    + intros [= <-]. right. now apply IH.
    + intros [= <-]. now left.
  - intros [= <-]. now left.
Qed.

Lemma lastSwipe_inv (store : list Match.t) (userId : ObjectId) (now : JsDate)
      (m : Match.t) :
  Discovery.lastSwipe store userId now = Some m ->
  In m store /\ Match.user1Id m = userId
  /\ now - 300000 <= Match.createdAt m.
Proof.
  unfold Discovery.lastSwipe. intros H.
  apply newest_In, filter_In in H. destruct H as [Hin Hp].
  apply andb_true_iff in Hp. destruct Hp as [Hu Hc].
  apply String.eqb_eq in Hu. apply Z.geb_le in Hc.
  repeat split; [assumption..|lia].
Qed.

Lemma delete_keeps (store : list Match.t) (id : ObjectId) (x : Match.t) :
  In x store -> Match._id x <> id -> In x (Match.findByIdAndDelete store id).
Proof.
  induction store as [|y rest IH]; cbn; [tauto|].
  intros [->|Hin] Hne.
  - destruct (String.eqb_spec (Match._id x) id); [contradiction|]. now left.
  - destruct (String.eqb_spec (Match._id y) id); [assumption|].
    right. now apply IH.
Qed.

Lemma delete_subset (store : list Match.t) (id : ObjectId) (x : Match.t) :
  In x (Match.findByIdAndDelete store id) -> In x store.
Proof.
  induction store as [|y rest IH]; cbn; [tauto|].
  destruct (String.eqb_spec (Match._id y) id).
  - intros H. now right.
  - intros [->|H]; [now left|right; now apply IH].
Qed.

Lemma delete_gone (store : list Match.t) (id : ObjectId) (x : Match.t) :
  NoDup (map Match._id store) ->
  In x (Match.findByIdAndDelete store id) -> Match._id x <> id.
Proof.
  induction store as [|y rest IH]; cbn; [tauto|].
  intros Hnd. inversion Hnd as [|? ? Hnotin Hnd']; subst.
  destruct (String.eqb_spec (Match._id y) id) as [Heq|Hne].
  - intros Hin Hx. apply Hnotin. rewrite Heq, <- Hx. now apply in_map.
  - intros [->|Hin]; [assumption|]. now apply IH.
Qed.

Lemma delete_length (store : list Match.t) (m : Match.t) :
  In m store ->
  S (List.length (Match.findByIdAndDelete store (Match._id m))) = List.length store.
Proof.
  induction store as [|y rest IH]; cbn; [tauto|].
  intros [->|Hin].
  - now rewrite String.eqb_refl.
  - destruct (String.eqb_spec (Match._id y) (Match._id m)); [reflexivity|].
    cbn. now rewrite IH.
Qed.

(** C10. Undo deletes at most one Match record; the record it deletes has
    the caller as user1Id and was created no earlier than five minutes
    before the request, and the caller's plan is not [free]; every record
    whose user1Id is another user is still stored afterwards; the stored
    notifications are the same before and after. *)
Theorem undo_restriction (now : JsDate) (user : Caller) (db : Db) :
  NoDup (map Match._id (matches db)) ->
  let db' := snd (Discovery.undo now user db) in
  notifications db' = notifications db
  /\ (forall x, In x (matches db) -> Match.user1Id x <> callerId user ->
                In x (matches db'))
  /\ (db' = db
      \/ exists m,
           In m (matches db)
           /\ Match.user1Id m = callerId user
           /\ now - 300000 <= Match.createdAt m
           /\ callerPlan user <> "free"
           /\ ~ In m (matches db')
           /\ (forall x, In x (matches db) -> x <> m -> In x (matches db'))
           /\ (forall x, In x (matches db') -> In x (matches db))
           /\ S (List.length (matches db')) = List.length (matches db)).
Proof.
  intros Hnd. unfold Discovery.undo.
  destruct (String.eqb_spec (callerPlan user) "free") as [Hfree|Hpaid].
  { cbn. repeat split; auto. }
  destruct (Discovery.lastSwipe (matches db) (callerId user) now) as [m|] eqn:Hlast.
  2:{ cbn. repeat split; auto. }
  destruct (lastSwipe_inv _ _ _ _ Hlast) as (Hin & Hu & Hc).
  cbn [snd]. cbn [notifications matches withMatches].
  split; [reflexivity|].
  assert (Hother : forall x, In x (matches db) -> x <> m ->
                             In x (Match.findByIdAndDelete (matches db) (Match._id m))).
  { intros x Hx Hxm. apply delete_keeps; [assumption|].
    intros Hid. apply Hxm.
    clear - Hnd Hx Hin Hid.
    induction (matches db) as [|y rest IH]; [contradiction|].
    cbn in Hnd. inversion Hnd as [|? ? Hnotin Hnd']; subst.
    destruct Hx as [->|Hx], Hin as [->|Hin]; auto.
    - exfalso. apply Hnotin. rewrite Hid. now apply in_map.
    - exfalso. apply Hnotin. rewrite <- Hid. now apply in_map. }
  split.
  { intros x Hx Hxu. apply Hother; [assumption|]. congruence. }
  right. exists m. repeat split; auto.
  - intros Hm. now apply (delete_gone _ _ _ Hnd Hm).
  - intros x. apply delete_subset.
  - now apply delete_length.
Qed.

Import Scenario.

Lemma undo_restriction_witness :
  let db := withMatches emptyDb
              [Match.mk "m1" "alice" "bob" Match.like Match.pending false None 0 day2] in
  let db' := snd (Discovery.undo (day2 + 60000) alice db) in
  notifications db' = notifications db
  /\ (forall x, In x (matches db) -> Match.user1Id x <> callerId alice ->
                In x (matches db'))
  /\ (db' = db
      \/ exists m,
           In m (matches db)
           /\ Match.user1Id m = callerId alice
           /\ (day2 + 60000) - 300000 <= Match.createdAt m
           /\ callerPlan alice <> "free"
           /\ ~ In m (matches db')
           /\ (forall x, In x (matches db) -> x <> m -> In x (matches db'))
           /\ (forall x, In x (matches db') -> In x (matches db))
           /\ S (List.length (matches db')) = List.length (matches db)).
Proof.
  apply (undo_restriction (day2 + 60000) alice
           (withMatches emptyDb
              [Match.mk "m1" "alice" "bob" Match.like Match.pending false None 0 day2])).
  simpl. constructor; [intros []|constructor].
Defined.

(** Bob's reciprocal like sits on the record Alice created: Bob's undo, on
    any plan other than free, does not find it. *)
Example undo_skips_reciprocal_swipe :
  let paidBob := mkCaller "bob" "Bob" "premium" in
  Discovery.undo (day2 + 60000) paidBob matchedDb
  = (Json HTTP_STATUS.NOT_FOUND false "No recent swipe found to undo", matchedDb).
Proof. reflexivity. Qed.

End Undo.

(** ** Notifications of the call and swipe paths *)

Section NotificationCalls.

Import NotificationService.

(** Every call site of the routes and handlers passes the type name as the
    second argument: the service reads its properties from that string and
    the document fails validation. *)
Lemma createNotification_string_throws
      (store : list Notification.t) (newId : ObjectId)
      (userId : option ObjectId) (typeName : string) (rest : list Arg) :
  exists e, createNotification store newId userId (Str typeName :: rest) = Throw e.
Proof.
  unfold createNotification. destruct userId; cbn; eauto.
Qed.

(** Called with the object as second argument the service stores the
    notification. *)
Lemma createNotification_object_stores
      (store : list Notification.t) (newId uid from : ObjectId) :
  createNotification store newId (Some uid)
    [Obj (mkData (Some "video_call") (Some "Call Accepted")
                 (Some "Bob accepted your video call") (Some from))]
  = Ok (Notification.mk newId uid (Some "video_call") (Some "Call Accepted")
          (Some "Bob accepted your video call") (Some from) false None,
        (store ++ [Notification.mk newId uid (Some "video_call")
                     (Some "Call Accepted")
                     (Some "Bob accepted your video call") (Some from)
                     false None])%list).
Proof. reflexivity. Qed.

End NotificationCalls.

(** ** Call state machine *)

Section CallStateMachine.

Import VideoCall.

Lemma safeStep_refl (db : Db) : safeStep db db.
Proof. intros id s s' H1 H2. left. congruence. Qed.

Lemma findById_id (store : list t) (id : ObjectId) (v : t) :
  findById store id = Some v -> _id v = id.
Proof.
  unfold findById. intros H. apply find_some in H.
  now apply String.eqb_eq.
Qed.

Lemma findById_replace (store : list t) (v : t) (id : ObjectId) :
  findById (map (fun x => if _id x === _id v then v else x) store) id
  = option_map (fun x => if _id x === _id v then v else x) (findById store id).
Proof.
  unfold findById. induction store as [|y rest IH]; cbn; [reflexivity|].
  destruct (String.eqb_spec (_id y) (_id v)) as [Hyv|Hyv].
  - rewrite Hyv. destruct (_id v === id) eqn:E; cbn.
    + now rewrite Hyv, String.eqb_refl.
    + exact IH.
  - destruct (_id y === id) eqn:E; cbn.
    + destruct (String.eqb_spec (_id y) (_id v)); [contradiction|reflexivity].
    + exact IH.
Qed.

Lemma preSaveParticipants_ok (v v1 : t) :
  preSaveParticipants v = Ok v1 -> v1 = v.
Proof.
  unfold preSaveParticipants.
  destruct (participants v) as [|p0 [|p1 [|]]]; try discriminate.
  destruct (p0 === p1); [discriminate|].
  destruct (negb _); [discriminate|]. now intros [= <-].
Qed.

Lemma preSaveDuration_keeps (v : t) :
  _id (preSaveDuration v) = _id v /\ status (preSaveDuration v) = status v.
Proof.
  unfold preSaveDuration.
  destruct (status v) eqn:E, (startTime v), (endTime v); auto.
  destruct (duration v =? 0); cbn; auto.
Qed.

(** Saving a stored call changes the status of that call only. *)
Lemma save_stored (v old saved : t) (store store' : list t) :
  findById store (_id v) = Some old ->
  save v store = Ok (saved, store') ->
  status saved = status v
  /\ _id saved = _id v
  /\ forall id,
       option_map status (findById store' id)
       = if id === _id v then Some (status v)
         else option_map status (findById store id).
Proof.
  intros Hold. unfold save.
  destruct (validate v); cbn; [|discriminate].
  destruct (preSaveParticipants v) as [v1|] eqn:Hp; cbn; [|discriminate].
  apply preSaveParticipants_ok in Hp. subst v1.
  destruct (preSaveDuration_keeps v) as [Hid Hst].
  assert (Hold' : findById store (_id (preSaveDuration v)) = Some old)
    by (rewrite Hid; exact Hold).
  rewrite Hold'. intros [= <- <-].
  split; [assumption|]. split; [assumption|].
  intros id. rewrite findById_replace.
  destruct (findById store id) as [x|] eqn:Hx; cbn.
  - pose proof (findById_id _ _ _ Hx) as Hxid. rewrite Hxid, Hid.
    destruct (id === _id v); [now rewrite Hst|reflexivity].
  - destruct (String.eqb_spec id (_id v)) as [->|]; [|reflexivity].
    congruence.
Qed.

(** A guarded transition: the stored call had status [from], the saved
    document has status [to], and [from -> to] is allowed. *)
Lemma guarded_save_safe (db : Db) (callId : ObjectId) (videoCall v saved : t)
      (calls : list t) (db' : Db) :
  findById (videoCalls db) callId = Some videoCall ->
  _id v = _id videoCall ->
  allowed (status videoCall) (status v) ->
  save v (videoCalls db) = Ok (saved, calls) ->
  videoCalls db' = calls ->
  safeStep db db'.
Proof.
  intros Hfind Hid Hallowed Hsave Hcalls id s s' Hs Hs'.
  pose proof (findById_id _ _ _ Hfind) as Hcid.
  assert (Hold : findById (videoCalls db) (_id v) = Some videoCall)
    by now rewrite Hid, Hcid.
  destruct (save_stored _ _ _ _ _ Hold Hsave) as (_ & _ & Hafter).
  unfold statusOf in *. rewrite Hcalls, Hafter in Hs'.
  destruct (String.eqb_spec id (_id v)) as [->|Hne].
  - rewrite Hold in Hs. cbn in Hs. right. congruence.
  - left. congruence.
Qed.

Lemma Status_eqb_eq (a b : Status) : Status_eqb a b = true <-> a = b.
Proof. destruct a, b; cbn; split; congruence. Qed.

Ltac guard_pending H :=
  apply negb_false_iff, Status_eqb_eq in H.

(** REST accept moves a call from pending to active or leaves the calls
    as they were. *)
Lemma rest_accept_safe daily now notifId user callId db :
  safeStep db (snd (VideoCallRoutes.accept daily now notifId user callId db)).
Proof.
  unfold VideoCallRoutes.accept. cbv zeta.
  destruct (findById (videoCalls db) callId) as [videoCall|] eqn:Hfind;
    [|apply safeStep_refl].
  destruct (negb (includes videoCall (callerId user))); [apply safeStep_refl|].
  destruct (negb (Status_eqb (status videoCall) pending)) eqn:Hst;
    [apply safeStep_refl|].
  guard_pending Hst.
  destruct (save _ (videoCalls db)) as [[saved calls]|] eqn:Hsave;
    [|apply safeStep_refl].
  eapply guarded_save_safe; [exact Hfind| | |exact Hsave|].
  - reflexivity.
  - cbn. rewrite Hst. constructor.
  - destruct (DailyService.generateRoomToken _ _ _); [|reflexivity].
    destruct (NotificationService.createNotification _ _ _ _) as [[? ?]|];
      reflexivity.
Qed.

Lemma rest_decline_safe daily now notifId user callId db :
  safeStep db (snd (VideoCallRoutes.decline daily now notifId user callId db)).
Proof.
  unfold VideoCallRoutes.decline. cbv zeta.
  destruct (findById (videoCalls db) callId) as [videoCall|] eqn:Hfind;
    [|apply safeStep_refl].
  destruct (negb (includes videoCall (callerId user))); [apply safeStep_refl|].
  destruct (negb (Status_eqb (status videoCall) pending)) eqn:Hst;
    [apply safeStep_refl|].
  guard_pending Hst.
  destruct (save _ (videoCalls db)) as [[saved calls]|] eqn:Hsave;
    [|apply safeStep_refl].
  eapply guarded_save_safe; [exact Hfind| | |exact Hsave|].
  - reflexivity.
  - cbn. rewrite Hst. constructor.
  - destruct (DailyService.deleteRoom _ _); [|reflexivity].
    destruct (NotificationService.createNotification _ _ _ _) as [[? ?]|];
      reflexivity.
Qed.

Lemma rest_end_safe daily now notifId user callId db :
  safeStep db (snd (VideoCallRoutes.endCall daily now notifId user callId db)).
Proof.
  unfold VideoCallRoutes.endCall. cbv zeta.
  destruct (findById (videoCalls db) callId) as [videoCall|] eqn:Hfind;
    [|apply safeStep_refl].
  destruct (negb (includes videoCall (callerId user))); [apply safeStep_refl|].
  destruct (negb (Status_eqb (status videoCall) active)) eqn:Hst;
    [apply safeStep_refl|].
  guard_pending Hst.
  unfold VideoCallRoutes.durationSince.
  destruct (startTime videoCall) as [st|]; cbn [bind]; [|apply safeStep_refl].
  destruct (save _ (videoCalls db)) as [[saved calls]|] eqn:Hsave;
    [|apply safeStep_refl].
  eapply guarded_save_safe; [exact Hfind| | |exact Hsave|].
  - reflexivity.
  - cbn. rewrite Hst. constructor.
  - destruct (DailyService.deleteRoom _ _); [|reflexivity].
    destruct (NotificationService.createNotification _ _ _ _) as [[? ?]|];
      reflexivity.
Qed.

Lemma socket_accept_safe daily now notifId socket callId db :
  safeStep db (snd (VideoCallSocket.onCallAccept daily now notifId socket callId db)).
Proof.
  unfold VideoCallSocket.onCallAccept. cbv zeta.
  destruct (findById (videoCalls db) callId) as [videoCall|] eqn:Hfind;
    [|apply safeStep_refl].
  destruct (negb (includes videoCall (callerId socket))); [apply safeStep_refl|].
  destruct (negb (Status_eqb (status videoCall) pending)) eqn:Hst;
    [apply safeStep_refl|].
  guard_pending Hst.
  destruct (save _ (videoCalls db)) as [[saved calls]|] eqn:Hsave;
    [|apply safeStep_refl].
  eapply guarded_save_safe; [exact Hfind| | |exact Hsave|].
  - reflexivity.
  - cbn. rewrite Hst. constructor.
  - destruct (DailyService.generateRoomToken _ _ _); [|reflexivity].
    destruct (NotificationService.createNotification _ _ _ _) as [[? ?]|];
      reflexivity.
Qed.

Lemma socket_decline_safe daily now notifId socket callId db :
  safeStep db (snd (VideoCallSocket.onCallDecline daily now notifId socket callId db)).
Proof.
  unfold VideoCallSocket.onCallDecline. cbv zeta.
  destruct (findById (videoCalls db) callId) as [videoCall|] eqn:Hfind;
    [|apply safeStep_refl].
  destruct (negb (includes videoCall (callerId socket))); [apply safeStep_refl|].
  destruct (negb (Status_eqb (status videoCall) pending)) eqn:Hst;
    [apply safeStep_refl|].
  guard_pending Hst.
  destruct (save _ (videoCalls db)) as [[saved calls]|] eqn:Hsave;
    [|apply safeStep_refl].
  eapply guarded_save_safe; [exact Hfind| | |exact Hsave|].
  - reflexivity.
  - cbn. rewrite Hst. constructor.
  - destruct (DailyService.deleteRoom _ _); [|reflexivity].
    destruct (NotificationService.createNotification _ _ _ _) as [[? ?]|];
      reflexivity.
Qed.

(** The guarded transitions keep to the state machine: after REST accept,
    decline or end, and after the socket's accept or decline, every stored
    call has the status it had or has moved pending -> active,
    pending -> declined or active -> ended. *)
Theorem guarded_transitions_safe daily now notifId user callId db :
  safeStep db (snd (VideoCallRoutes.accept daily now notifId user callId db))
  /\ safeStep db (snd (VideoCallRoutes.decline daily now notifId user callId db))
  /\ safeStep db (snd (VideoCallRoutes.endCall daily now notifId user callId db))
  /\ safeStep db (snd (VideoCallSocket.onCallAccept daily now notifId user callId db))
  /\ safeStep db (snd (VideoCallSocket.onCallDecline daily now notifId user callId db)).
Proof.
  repeat split;
    [apply rest_accept_safe | apply rest_decline_safe | apply rest_end_safe
     | apply socket_accept_safe | apply socket_decline_safe].
Qed.

End CallStateMachine.

Section CallPaths.

Import Scenario.

(** The socket's [call_end] has no status guard: a participant's request
    on a pending call ends it without an accept or a decline. *)
Example socket_call_end_on_pending_call :
  statusOf (snd (VideoCallSocket.onCallEnd dailyUp day3 "n1" alice "c1"
                   (callDb VideoCall.pending))) "c1"
  = Some VideoCall.ended.
Proof. reflexivity. Qed.

(** C1 at the failing input.  A declined call is stored; Bob, a
    participant, sends [call_end] on the socket: the stored status becomes
    [ended], a step the state machine does not have.  The REST end route
    refuses the same request and leaves the call declined. *)
Theorem socket_call_end_rewrites_declined_call :
  let db := callDb VideoCall.declined in
  let db' := snd (VideoCallSocket.onCallEnd dailyUp day3 "n1" bob "c1" db) in
  statusOf db "c1" = Some VideoCall.declined
  /\ statusOf db' "c1" = Some VideoCall.ended
  /\ ~ safeStep db db'
  /\ VideoCallRoutes.endCall dailyUp day3 "n1" bob "c1" db
     = (Json HTTP_STATUS.BAD_REQUEST false "Call is not active", db).
Proof.
  cbv zeta. split; [reflexivity|]. split; [reflexivity|]. split; [|reflexivity].
  intros Hsafe.
  destruct (Hsafe "c1" VideoCall.declined VideoCall.ended eq_refl eq_refl) as [H|H].
  - discriminate H.
  - inversion H.
Qed.

(** A call document without [dailyRoomName] does not pass validation. *)
Lemma save_requires_room_name (v : VideoCall.t) (store : list VideoCall.t) :
  VideoCall.dailyRoomName v = None ->
  VideoCall.save v store = Throw "VideoCall validation failed".
Proof.
  intros H. unfold VideoCall.save, VideoCall.validate.
  rewrite H. cbn [requiredString]. now rewrite andb_false_r.
Qed.

(** Neither initiate path sets [dailyRoomName] (and the route reads the
    room URL under a name the room object does not have): no call record
    is ever stored by them. *)
Lemma rest_initiate_stores_nothing daily now docId notifId user recipientUserId db :
  snd (VideoCallRoutes.initiate daily now docId notifId user recipientUserId db) = db
  /\ forall msg,
       fst (VideoCallRoutes.initiate daily now docId notifId user recipientUserId db)
       <> Json HTTP_STATUS.CREATED true msg.
Proof.
  unfold VideoCallRoutes.initiate. cbv zeta.
  destruct (User.findById _ _); [|split; [reflexivity|discriminate]].
  destruct (find _ (matches db)); [|split; [reflexivity|discriminate]].
  destruct (VideoCall.findOpenCall _ _ _); [split; [reflexivity|discriminate]|].
  destruct (DailyService.createRoom _ _ _); [|split; [reflexivity|discriminate]].
  rewrite save_requires_room_name by reflexivity.
  split; [reflexivity|discriminate].
Qed.

Lemma socket_initiate_stores_nothing
      daily io now generatedCallId docId notifId socket recipientUserId db :
  snd (VideoCallSocket.onCallInitiate daily io now generatedCallId docId notifId
         socket recipientUserId db) = db.
Proof.
  unfold VideoCallSocket.onCallInitiate. cbv zeta.
  destruct (VideoCallSocket.fetchSockets _ _); [reflexivity|].
  destruct (VideoCall.findOpenCall _ _ _); [reflexivity|].
  destruct (DailyService.createRoom _ _ _); [|reflexivity].
  now rewrite save_requires_room_name.
Qed.

(** C4 at the failing input.  Alice and Bob are matched, no call between
    them is stored and Daily.co provisions the room: the route answers with
    the validation error of the save and the store holds no call record;
    the socket path, with Bob online, fails the same way. *)
Theorem initiate_persists_no_call :
  find (fun m => (Match.isPair "alice" "bob" m || Match.isPair "bob" "alice" m)
                 && Match.isMatch m) (matches matchedDb) = Some matched
  /\ VideoCall.findOpenCall (videoCalls matchedDb) "alice" "bob" = None
  /\ DailyService.createRoom dailyUp "call_alice_bob_1700086400000" ["alice"; "bob"]
     = Ok (DailyService.mkRoomData
             "call_alice_bob_1700086400000"
             "https://relacio.daily.co/call_alice_bob_1700086400000")
  /\ VideoCallRoutes.initiate dailyUp day2 "c1" "n1" alice "bob" matchedDb
     = (NextError "VideoCall validation failed", matchedDb)
  /\ VideoCallSocket.onCallInitiate dailyUp [("s1", "bob")] day2 "relacio-call-1"
       "c1" "n1" alice "bob" matchedDb
     = ([VideoCallSocket.callError "INITIATION_FAILED"], matchedDb).
Proof. repeat split. Qed.

(** The three transition routes call the notification service with the
    type name in the place of the data: none of them ever stores a
    notification or answers 200. *)
Lemma rest_accept_never_notifies daily now notifId user callId db :
  let r := VideoCallRoutes.accept daily now notifId user callId db in
  notifications (snd r) = notifications db
  /\ forall msg, fst r <> Json HTTP_STATUS.OK true msg.
Proof.
  cbv zeta. unfold VideoCallRoutes.accept. cbv zeta.
  destruct (VideoCall.findById _ _); [|split; [reflexivity|discriminate]].
  destruct (negb (VideoCall.includes _ _)); [split; [reflexivity|discriminate]|].
  destruct (negb (VideoCall.Status_eqb _ _)); [split; [reflexivity|discriminate]|].
  destruct (VideoCall.save _ _) as [[saved calls]|];
    [|split; [reflexivity|discriminate]].
  destruct (DailyService.generateRoomToken _ _ _);
    [|split; [reflexivity|discriminate]].
  unfold VideoCallRoutes.callNotification.
  destruct (createNotification_string_throws
              (notifications (withVideoCalls db calls)) notifId
              (VideoCall.otherParticipant saved (callerId user)) "video_call"
              [NotificationService.Obj
                 (NotificationService.mkData None (Some "Call Accepted")
                    (Some (callerName user ++ " accepted your video call"))
                    (Some (callerId user)))]) as [e ->].
  split; [reflexivity|discriminate].
Qed.

Lemma rest_decline_never_notifies daily now notifId user callId db :
  let r := VideoCallRoutes.decline daily now notifId user callId db in
  notifications (snd r) = notifications db
  /\ forall msg, fst r <> Json HTTP_STATUS.OK true msg.
Proof.
  cbv zeta. unfold VideoCallRoutes.decline. cbv zeta.
  destruct (VideoCall.findById _ _); [|split; [reflexivity|discriminate]].
  destruct (negb (VideoCall.includes _ _)); [split; [reflexivity|discriminate]|].
  destruct (negb (VideoCall.Status_eqb _ _)); [split; [reflexivity|discriminate]|].
  destruct (VideoCall.save _ _) as [[saved calls]|];
    [|split; [reflexivity|discriminate]].
  destruct (DailyService.deleteRoom _ _);
    [|split; [reflexivity|discriminate]].
  unfold VideoCallRoutes.callNotification.
  destruct (createNotification_string_throws
              (notifications (withVideoCalls db calls)) notifId
              (VideoCall.otherParticipant saved (callerId user)) "video_call"
              [NotificationService.Obj
                 (NotificationService.mkData None (Some "Call Declined")
                    (Some (callerName user ++ " declined your video call"))
                    (Some (callerId user)))]) as [e ->].
  split; [reflexivity|discriminate].
Qed.

Lemma rest_end_never_notifies daily now notifId user callId db :
  let r := VideoCallRoutes.endCall daily now notifId user callId db in
  notifications (snd r) = notifications db
  /\ forall msg, fst r <> Json HTTP_STATUS.OK true msg.
Proof.
  cbv zeta. unfold VideoCallRoutes.endCall. cbv zeta.
  destruct (VideoCall.findById _ _); [|split; [reflexivity|discriminate]].
  destruct (negb (VideoCall.includes _ _)); [split; [reflexivity|discriminate]|].
  destruct (negb (VideoCall.Status_eqb _ _)); [split; [reflexivity|discriminate]|].
  destruct (bind _ _) as [[saved calls]|];
    [|split; [reflexivity|discriminate]].
  destruct (DailyService.deleteRoom _ _);
    [|split; [reflexivity|discriminate]].
  unfold VideoCallRoutes.callNotification.
  destruct (createNotification_string_throws
              (notifications (withVideoCalls db calls)) notifId
              (VideoCall.otherParticipant saved (callerId user)) "video_call"
              [NotificationService.Obj
                 (NotificationService.mkData None (Some "Call Ended")
                    (Some (callerName user ++ " ended the video call"))
                    (Some (callerId user)))]) as [e ->].
  split; [reflexivity|discriminate].
Qed.

(** C5 at the failing input.  Bob accepts the pending call through the
    route while Daily.co issues the token: the call is stored as active, no
    notification is stored for Alice, and the route hands the service's
    validation error to the error handler in place of its 200 answer. *)
Theorem accept_notifies_nobody :
  let r := VideoCallRoutes.accept dailyUp day3 "n1" bob "c1"
                                  (callDb VideoCall.pending) in
  statusOf (snd r) "c1" = Some VideoCall.active
  /\ notifications (snd r) = []
  /\ fst r = NextError "Failed to create notification: Notification validation failed".
Proof. cbv zeta. repeat split. Qed.

End CallPaths.

(** ** Presence *)

Section PresenceFlag.

Import Presence PresenceView.

Lemma findById_update (store : list User.t) (id uid : ObjectId)
      (online : bool) (seen : JsDate) :
  User.findById (User.findByIdAndUpdate store id online seen) uid
  = option_map (fun u => if User._id u === id
                         then User.mk (User._id u) (User.name u)
                                      (User.subscriptionPlan u) online seen
                         else u)
               (User.findById store uid).
Proof.
  unfold User.findById, User.findByIdAndUpdate.
  induction store as [|y rest IH]; cbn; [reflexivity|].
  destruct (User._id y === id) eqn:E1; cbn;
    destruct (User._id y === uid) eqn:E2; cbn; rewrite ?E1; auto.
Qed.

Lemma user_findById_id (store : list User.t) (uid : ObjectId) (u : User.t) :
  User.findById store uid = Some u -> User._id u = uid.
Proof.
  unfold User.findById. intros H. apply find_some in H.
  now apply String.eqb_eq.
Qed.

(** One event: the user's flag becomes the event's flag when the event is
    the user's, and stays otherwise; the user is still stored. *)
Lemma step_flag (now : JsDate) (e : Event) (st : State) (uid : ObjectId)
      (u : User.t) :
  User.findById (userStore st) uid = Some u ->
  (exists u', User.findById (userStore (snd (step now e st))) uid = Some u')
  /\ isOnline (snd (step now e st)) uid
     = (if eventUser e === uid then eventFlag e else isOnline st uid)
  /\ statusBroadcasts (fst (step now e st)) uid
     = (if eventUser e === uid then [eventBroadcast e] else []).
Proof.
  intros Hu. pose proof (user_findById_id _ _ _ Hu) as Hid.
  destruct e as [sid id|sid id|sid id b];
    unfold step, onConnection, onDisconnect, onOnlineStatus, isOnline,
           eventBroadcast;
    cbn [fst snd userStore eventUser eventFlag];
    rewrite findById_update, Hu; cbn [option_map]; rewrite Hid;
    rewrite (String.eqb_sym uid id);
    destruct (id === uid) eqn:E; cbn; rewrite ?E; eauto.
Qed.

Lemma statusBroadcasts_app (sent1 sent2 : list Effect) (uid : ObjectId) :
  statusBroadcasts (sent1 ++ sent2)%list uid
  = (statusBroadcasts sent1 uid ++ statusBroadcasts sent2 uid)%list.
Proof. unfold statusBroadcasts. apply flat_map_app. Qed.

Lemma run_cons (now : JsDate) (e : Event) (rest : list (JsDate * Event))
      (st : State) :
  run ((now, e) :: rest) st
  = ((fst (step now e st) ++ fst (run rest (snd (step now e st))))%list,
     snd (run rest (snd (step now e st)))).
Proof.
  cbn [run]. destruct (step now e st) as [sent st1]. cbn [fst snd].
  now destruct (run rest st1).
Qed.

(** C8, as the code has it.  For a stored user and any run of connection,
    disconnection and manual status events, the online flag after the run is
    the flag written by the user's most recent event (true for a
    connection, false for a disconnection), whatever number of connections
    the user holds, and the run broadcasts one status change for every one
    of the user's events. *)
Theorem presence_follows_last_event
        (evs : list (JsDate * Event)) (st : State) (uid : ObjectId) (u : User.t) :
  User.findById (userStore st) uid = Some u ->
  isOnline (snd (run evs st)) uid = lastFlag (isOnline st uid) (eventsOf evs uid)
  /\ statusBroadcasts (fst (run evs st)) uid
     = map eventBroadcast (eventsOf evs uid).
Proof.
  revert st u. induction evs as [|[now e] rest IH]; intros st u Hu.
  - split; reflexivity.
  - rewrite run_cons. cbn [fst snd].
    destruct (step_flag now e st uid u Hu) as ([u' Hu'] & Hflag & Hsent).
    destruct (IH _ _ Hu') as [IHflag IHsent].
    rewrite IHflag, statusBroadcasts_app, IHsent, Hflag, Hsent.
    unfold eventsOf. cbn [map filter snd].
    destruct (eventUser e === uid); split; reflexivity.
Qed.

End PresenceFlag.

Section PresenceExamples.

Import Scenario Presence PresenceView.

(** Against C8 as stated.  Two tabs open, one closes: one connection is
    still live, the user is stored offline, and three status changes were
    broadcast. *)
Lemma closing_one_of_two_connections_goes_offline :
  let r := run [(day1, Connect "s1" "alice");
                (day1 + 1000, Connect "s2" "alice");
                (day1 + 2000, Disconnect "s1" "alice")] offline in
  connectionCount (snd r) "alice" = 1%nat
  /\ isOnline (snd r) "alice" = false
  /\ statusBroadcasts (fst r) "alice"
     = [SOCKET_EVENTS.USER_ONLINE; SOCKET_EVENTS.USER_ONLINE;
        SOCKET_EVENTS.USER_OFFLINE].
Proof. cbv zeta. repeat split. Qed.

Lemma presence_follows_last_event_witness :
  let evs := [(day1, Connect "s1" "alice");
              (day1 + 1000, Connect "s2" "alice");
              (day1 + 2000, Disconnect "s1" "alice")] in
  isOnline (snd (run evs offline)) "alice"
  = lastFlag (isOnline offline "alice") (eventsOf evs "alice")
  /\ statusBroadcasts (fst (run evs offline)) "alice"
     = map eventBroadcast (eventsOf evs "alice").
Proof.
  apply (presence_follows_last_event
           [(day1, Connect "s1" "alice");
            (day1 + 1000, Connect "s2" "alice");
            (day1 + 2000, Disconnect "s1" "alice")]
           offline "alice" userAlice).
  reflexivity.
Defined.

End PresenceExamples.

(** ** Read receipts *)

Section ReadReceipts.

(** The model methods are no-ops on a read document. *)
Lemma message_markAsRead_idempotent
      (now : JsDate) (m : Message.t) (store : list Message.t) :
  Message.isRead m = true ->
  Message.markAsRead now m store = Ok (m, store).
Proof. unfold Message.markAsRead. now intros ->. Qed.

Lemma notification_markAsRead_idempotent
      (now : JsDate) (n : Notification.t) (store : list Notification.t) :
  Notification.isRead n = true ->
  Notification.markAsRead now n store = Ok (n, store).
Proof. unfold Notification.markAsRead. now intros ->. Qed.

(** The bulk path selects unread messages only. *)
Lemma markConversationAsRead_keeps_read
      (now : JsDate) (store : list Message.t) (conv uid : ObjectId) :
  Forall (fun m => Message.isRead m = true) store ->
  Message.markConversationAsRead now store conv uid = store.
Proof.
  unfold Message.markConversationAsRead.
  induction 1 as [|m rest Hm _ IH]; cbn; [reflexivity|].
  rewrite Hm, IH. cbn. now rewrite andb_false_r.
Qed.

(** The sender's own read receipt changes nothing. *)
Lemma sender_cannot_mark_read
      (now : JsDate) (socket : Caller) (messageId conversationId : ObjectId)
      (db : Db) (message : Message.t) :
  Message.findById (messages db) messageId = Some message ->
  Message.senderId message = callerId socket ->
  ChatSocket.onMessageRead now socket messageId conversationId db = ([], db).
Proof.
  intros Hm Hs. unfold ChatSocket.onMessageRead.
  destruct (Conversation.findById _ _); [|reflexivity].
  destruct (negb (Conversation.includes _ _)); [reflexivity|].
  now rewrite Hm, Hs, String.eqb_refl.
Qed.

Import Scenario.

(** Against C9 as stated.  The single-notification read paths answer a read
    notification with an error, and leave it as it was. *)
Example notification_read_again_is_an_error :
  let n := Notification.mk "n1" "bob" (Some "like") (Some "New Like!")
                           (Some "Alice liked you!") (Some "alice") true None in
  let db := withNotifications emptyDb [n] in
  NotificationRead.route bob "n1" db
  = (Json HTTP_STATUS.BAD_REQUEST false "Notification is already read", db)
  /\ NotificationRead.onNotificationRead bob "n1" db
     = ([Emit "error" "Notification is already read"], db).
Proof. split; reflexivity. Qed.

(** C9, as the code has it.  Marking an already-read Message or Notification
    as read again leaves the document as it is: the model methods and the
    bulk conversation path do so without an error, the single-notification
    route and socket handler answer that the notification is already read;
    and the socket's message handler does nothing for the sender of the
    message. *)
Theorem read_again_changes_nothing
        (now : JsDate) (user : Caller) (db : Db)
        (m : Message.t) (n : Notification.t) :
  Message.isRead m = true ->
  Notification.isRead n = true ->
  Notification.findOne (notifications db) (Notification._id n) (callerId user)
  = Some n ->
  Message.markAsRead now m (messages db) = Ok (m, messages db)
  /\ Notification.markAsRead now n (notifications db) = Ok (n, notifications db)
  /\ NotificationService.markAsRead now (notifications db) (Notification._id n)
                                    (callerId user)
     = Ok (n, notifications db)
  /\ (forall conv, In m (messages db) ->
                   In m (Message.markConversationAsRead now (messages db) conv
                                                        (callerId user)))
  /\ NotificationRead.route user (Notification._id n) db
     = (Json HTTP_STATUS.BAD_REQUEST false "Notification is already read", db)
  /\ NotificationRead.onNotificationRead user (Notification._id n) db
     = ([Emit "error" "Notification is already read"], db)
  /\ (forall messageId conv sent,
        Message.findById (messages db) messageId = Some sent ->
        Message.senderId sent = callerId user ->
        ChatSocket.onMessageRead now user messageId conv db = ([], db)).
Proof.
  intros Hm Hn Hfind.
  split; [now apply message_markAsRead_idempotent|].
  split; [now apply notification_markAsRead_idempotent|].
  split.
  { unfold NotificationService.markAsRead. rewrite Hfind.
    now rewrite notification_markAsRead_idempotent. }
  split.
  { intros conv Hin. unfold Message.markConversationAsRead.
    apply in_map_iff. exists m. split; [|assumption].
    rewrite Hm. cbn. now rewrite andb_false_r. }
  split.
  { unfold NotificationRead.route. now rewrite Hfind, Hn. }
  split.
  { unfold NotificationRead.onNotificationRead. now rewrite Hfind, Hn. }
  intros messageId conv sent Hsent Hsender.
  now apply sender_cannot_mark_read with (message := sent).
Qed.

Lemma read_again_changes_nothing_witness :
  let n := Notification.mk "n1" "bob" (Some "like") (Some "New Like!")
                           (Some "Alice liked you!") (Some "alice") true (Some day2) in
  let db := withNotifications chatDb [n] in
  Message.markAsRead day3 readMessage (messages db) = Ok (readMessage, messages db)
  /\ Notification.markAsRead day3 n (notifications db) = Ok (n, notifications db)
  /\ NotificationService.markAsRead day3 (notifications db) "n1" "bob"
     = Ok (n, notifications db)
  /\ (forall conv, In readMessage (messages db) ->
                   In readMessage
                      (Message.markConversationAsRead day3 (messages db) conv "bob"))
  /\ NotificationRead.route bob "n1" db
     = (Json HTTP_STATUS.BAD_REQUEST false "Notification is already read", db)
  /\ NotificationRead.onNotificationRead bob "n1" db
     = ([Emit "error" "Notification is already read"], db)
  /\ (forall messageId conv sent,
        Message.findById (messages db) messageId = Some sent ->
        Message.senderId sent = "bob" ->
        ChatSocket.onMessageRead day3 bob messageId conv db = ([], db)).
Proof.
  apply (read_again_changes_nothing day3 bob
           (withNotifications chatDb
              [Notification.mk "n1" "bob" (Some "like") (Some "New Like!")
                               (Some "Alice liked you!") (Some "alice") true
                               (Some day2)])
           readMessage
           (Notification.mk "n1" "bob" (Some "like") (Some "New Like!")
                            (Some "Alice liked you!") (Some "alice") true
                            (Some day2))); reflexivity.
Defined.

(** The socket's message handler has no test of isRead.  Bob read Alice's
    message on day 2; on day 3 his client sends [message_read] for it again,
    and the handler stamps readAt with the new time, where the model method
    leaves the message alone. *)
Theorem socket_message_read_restamps_readAt :
  let db' := snd (ChatSocket.onMessageRead day3 bob "msg1" "conv1" chatDb) in
  option_map Message.readAt (Message.findById (messages chatDb) "msg1")
  = Some (Some day2)
  /\ option_map Message.readAt (Message.findById (messages db') "msg1")
     = Some (Some day3)
  /\ Message.markAsRead day3 readMessage (messages chatDb)
     = Ok (readMessage, messages chatDb).
Proof. cbv zeta. repeat split. Qed.

End ReadReceipts.

(** ** Quota reporting and middleware *)

Section QuotaMiddleware.

Import Subscription.

Lemma remaining_of_counted
      (now : JsDate) (store : RateLimitService.Store) (uid : ObjectId)
      (featureType : string) :
  In featureType RateLimitService.countedFeatureTypes ->
  (exists r, RateLimitReport.getRemainingLimit now store uid featureType = Some r
             /\ (RateLimitService.checkFeatureLimit now store uid featureType = true
                 <-> r <> 0)
             /\ (r = -1 \/ 0 <= r)).
Proof.
  intros Hin.
  unfold RateLimitReport.getRemainingLimit, RateLimitService.checkFeatureLimit.
  destruct (RateLimitService.findOne store uid) as [s|].
  2:{ exists 0. split; [reflexivity|]. split; [|lia]. split; [discriminate|lia]. }
  rewrite canPerformAction_answer. cbv zeta.
  rewrite features_reset, usage_after_reset.
  assert (Hl : exists l, features_get (features s) (featureType ++ "PerDay") = Some l).
  { cbn in Hin. destruct Hin as [<-|[<-|[<-|[<-|[]]]]]; cbn; eauto. }
  assert (Hu : exists u, RateLimitService.usedToday now s featureType = Some u).
  { unfold RateLimitService.usedToday.
    cbn in Hin. destruct Hin as [<-|[<-|[<-|[<-|[]]]]]; cbn;
      destruct (isNewDay _ _); eauto. }
  destruct Hl as [l ->], Hu as [u ->]. cbn [isUnlimited js_lt].
  destruct (Z.eqb_spec l (-1)) as [->|Hne].
  - exists (-1). split; [reflexivity|]. split; [|lia]. split; [lia|reflexivity].
  - exists (Z.max 0 (l - u)). split; [reflexivity|].
    cbn [orb RateLimitReport.remainingOf]. rewrite Z.ltb_lt. split; lia.
Qed.

(** The gate of the service and the allowance it reports agree: for a
    feature with a daily counter the check passes exactly when the remaining
    allowance is not zero (the unlimited mark -1 or a positive number), with
    or without a subscription. *)
Theorem check_agrees_with_remaining
        (now : JsDate) (store : RateLimitService.Store) (uid : ObjectId)
        (featureType : string) :
  In featureType RateLimitService.countedFeatureTypes ->
  (exists r, RateLimitReport.getRemainingLimit now store uid featureType = Some r
             /\ (RateLimitService.checkFeatureLimit now store uid featureType = true
                 <-> r <> 0)
             /\ (r = -1 \/ 0 <= r)).
Proof. exact (remaining_of_counted now store uid featureType). Qed.

Lemma check_agrees_with_remaining_witness :
  exists r, RateLimitReport.getRemainingLimit Scenario.day1 [Scenario.likesSpent]
                                             "alice" "likes" = Some r
            /\ (RateLimitService.checkFeatureLimit Scenario.day1
                  [Scenario.likesSpent] "alice" "likes" = true <-> r <> 0)
            /\ (r = -1 \/ 0 <= r).
Proof.
  apply (check_agrees_with_remaining Scenario.day1 [Scenario.likesSpent]
           "alice" "likes").
  simpl. auto.
Defined.

(** What a rejecting gate reports. *)
Lemma rejected_remaining_zero
      (now : JsDate) (store : RateLimitService.Store) (uid : ObjectId)
      (featureType : string) :
  In featureType RateLimitService.countedFeatureTypes ->
  RateLimitService.checkFeatureLimit now store uid featureType = false ->
  RateLimitReport.getRemainingLimit now store uid featureType = Some 0.
Proof.
  intros Hin Hcheck.
  destruct (remaining_of_counted now store uid featureType Hin)
    as (r & Hr & Hiff & _).
  rewrite Hr. f_equal.
  destruct (Z.eq_dec r 0) as [|Hne]; [assumption|].
  apply Hiff in Hne. congruence.
Qed.

(** Two clock reads on one calendar day see the same day change. *)
Lemma isNewDay_same_day (now now' last : JsDate) :
  RateLimitService.sameDay now now' -> isNewDay now' last = isNewDay now last.
Proof.
  unfold RateLimitService.sameDay, isNewDay. intros (Hy & Hm & Hd).
  now rewrite Hy, Hm, Hd.
Qed.

(** The allowance reported for the same subscription on the same calendar
    day is the same. *)
Lemma remaining_same_day
      (now now' : JsDate) (store store' : RateLimitService.Store)
      (uid : ObjectId) (featureType : string) :
  RateLimitService.findOne store' uid = RateLimitService.findOne store uid ->
  RateLimitService.sameDay now now' ->
  RateLimitReport.getRemainingLimit now' store' uid featureType
  = RateLimitReport.getRemainingLimit now store uid featureType.
Proof.
  intros Hload Hday. unfold RateLimitReport.getRemainingLimit.
  rewrite Hload. destruct (RateLimitService.findOne store uid) as [s|];
    [|reflexivity].
  cbv zeta. unfold resetDailyUsageIfNeeded.
  rewrite (isNewDay_same_day now now' _ Hday).
  destruct (isNewDay now (lastResetDate (usage s))); [|reflexivity].
  cbn [features usage]. unfold usage_get.
  repeat (destruct (String.eqb _ _); [reflexivity|]). reflexivity.
Qed.

(** The four daily gates, when their two service calls load the same
    subscription and read the clock on the same calendar day, either call
    next() or answer 403 with a remaining allowance of zero and the hint
    [tomorrow]: such a rejected request is never shown a positive
    allowance. *)
Theorem daily_gates_reject_with_zero
        (now now' : JsDate) (store store' : RateLimitService.Store)
        (user : Caller) :
  RateLimitService.findOne store' (callerId user)
  = RateLimitService.findOne store (callerId user) ->
  RateLimitService.sameDay now now' ->
  (RateLimitMiddleware.videoCallRateLimit now store now' store' user
   = RateLimitMiddleware.CallNext
   \/ RateLimitMiddleware.videoCallRateLimit now store now' store' user
      = RateLimitMiddleware.LimitReached 403 "Daily video call limit reached"
          (Some 0) "tomorrow")
  /\ (RateLimitMiddleware.voiceCallRateLimit now store now' store' user
      = RateLimitMiddleware.CallNext
      \/ RateLimitMiddleware.voiceCallRateLimit now store now' store' user
         = RateLimitMiddleware.LimitReached 403 "Daily voice call limit reached"
             (Some 0) "tomorrow")
  /\ (RateLimitMiddleware.likeRateLimit now store now' store' user
      = RateLimitMiddleware.CallNext
      \/ RateLimitMiddleware.likeRateLimit now store now' store' user
         = RateLimitMiddleware.LimitReached 403 "Daily like limit reached"
             (Some 0) "tomorrow")
  /\ (RateLimitMiddleware.superLikeRateLimit now store now' store' user
      = RateLimitMiddleware.CallNext
      \/ RateLimitMiddleware.superLikeRateLimit now store now' store' user
         = RateLimitMiddleware.LimitReached 403 "Daily super like limit reached"
             (Some 0) "tomorrow").
Proof.
  intros Hload Hday.
  unfold RateLimitMiddleware.videoCallRateLimit,
    RateLimitMiddleware.voiceCallRateLimit, RateLimitMiddleware.likeRateLimit,
    RateLimitMiddleware.superLikeRateLimit,
    RateLimitService.checkVideoCallLimit, RateLimitService.checkVoiceCallLimit,
    RateLimitService.checkLikeLimit, RateLimitService.checkSuperLikeLimit.
  repeat split.
  all: match goal with
       | |- context [RateLimitService.checkFeatureLimit ?n ?s ?u ?f] =>
           destruct (RateLimitService.checkFeatureLimit n s u f) eqn:E;
           [left; reflexivity
           |right;
            rewrite (remaining_same_day n now' s store' u f Hload Hday);
            rewrite (rejected_remaining_zero n s u f); [reflexivity| |exact E];
            cbn; auto]
       end.
Qed.

Lemma daily_gates_reject_with_zero_witness :
  RateLimitMiddleware.likeRateLimit Scenario.day1 [Scenario.likesSpent]
    (Scenario.day1 + 1) [Scenario.likesSpent] Scenario.alice
  = RateLimitMiddleware.LimitReached 403 "Daily like limit reached"
      (Some 0) "tomorrow".
Proof.
  destruct (daily_gates_reject_with_zero Scenario.day1 (Scenario.day1 + 1)
              [Scenario.likesSpent] [Scenario.likesSpent] Scenario.alice
              eq_refl)
    as (_ & _ & [Hopen|Hclosed] & _).
  - vm_compute. repeat split; reflexivity.
  - discriminate Hopen.
  - exact Hclosed.
Defined.

(** Across midnight the two clock reads disagree: the check, one
    millisecond before the day ends, finds the twenty likes spent, and the
    report, at midnight, finds a new day and answers the full allowance. *)
Example gate_across_midnight_reports_allowance :
  RateLimitMiddleware.likeRateLimit 1700006399999 [Scenario.likesSpent]
    1700006400000 [Scenario.likesSpent] Scenario.alice
  = RateLimitMiddleware.LimitReached 403 "Daily like limit reached"
      (Some 20) "tomorrow".
Proof. reflexivity. Qed.

(** The message gate never calls next(): the subscription has no message
    limit and no message counter, so every request is answered 403, with a
    NaN allowance for a subscribed user and 0 otherwise, whatever the two
    clock reads and loads. *)
Theorem message_gate_always_rejects
        (now now' : JsDate) (store store' : RateLimitService.Store)
        (user : Caller) :
  RateLimitMiddleware.messageRateLimit now store now' store' user
  = RateLimitMiddleware.LimitReached 403 "Hourly message limit reached"
      (match RateLimitService.findOne store' (callerId user) with
       | Some _ => None
       | None => Some 0
       end)
      "next hour".
Proof.
  unfold RateLimitMiddleware.messageRateLimit.
  rewrite checkMessageLimit_closed.
  unfold RateLimitReport.getRemainingLimit.
  destruct (RateLimitService.findOne store' (callerId user)); reflexivity.
Qed.

(** Below 2^53 in magnitude a sum is exact; at 2^53 adding one is lost. *)
Lemma js_add_exact (a b : Z) :
  Z.abs (a + b) < 9007199254740992 -> js_add a b = a + b.
Proof.
  intros H. unfold js_add, toNumber. cbv zeta.
  change (2 ^ 53) with 9007199254740992.
  destruct (Z.ltb_spec (Z.abs (a + b)) 9007199254740992); [reflexivity|lia].
Qed.

Example counter_stops_at_2_53 :
  js_add 9007199254740991 1 = 9007199254740992
  /\ js_add 9007199254740992 1 = 9007199254740992.
Proof. split; reflexivity. Qed.

(** One increment on the day of the last reset: the charged counter is
    [counter + 1] as a Number and everything else of the subscription
    stays. *)
Lemma increment_same_day
      (now : JsDate) (store : RateLimitService.Store) (uid : ObjectId)
      (s : t) (featureType : string) (u : Z) :
  RateLimitService.findOne store uid = Some s ->
  RateLimitService.sameDay (lastResetDate (usage s)) now ->
  In featureType RateLimitService.countedFeatureTypes ->
  usage_get (usage s) (featureType ++ "Today") = Some u ->
  exists s',
    RateLimitService.findOne
      (fst (RateLimitService.incrementUsage now store uid featureType)) uid = Some s'
    /\ features s' = features s
    /\ lastResetDate (usage s') = lastResetDate (usage s)
    /\ usage_get (usage s') (featureType ++ "Today") = Some (js_add u 1).
Proof.
  intros Hfind Hsame Hin Hu.
  unfold RateLimitService.incrementUsage. rewrite Hfind. cbn [fst].
  set (s' := incrementUsage now s featureType).
  assert (Hs' : s' = mk (userId s) (plan s) (features s)
                        (usage_set (usage s) (featureType ++ "Today")
                                   (js_add u 1))).
  { unfold s', incrementUsage. cbv zeta.
    rewrite (reset_same_day now s (sameDay_not_new _ _ Hsame)), Hu. reflexivity. }
  exists s'. split.
  { apply findOne_save with (s := s); [exact Hfind|]. now rewrite Hs'. }
  rewrite Hs'. cbn [features usage]. generalize (js_add u 1). intros v.
  cbn in Hin. destruct Hin as [<-|[<-|[<-|[<-|[]]]]]; repeat split; reflexivity.
Qed.

(** Quota exhaustion.  A subscription whose last reset was today has used
    [u] of a limit [l]; after [n] further charged actions on the same day,
    the counter staying below 2^53 (where a Number still counts by one),
    the gate answers from [u + n]: it is open exactly while [u + n < l] (or
    the limit is the unlimited mark). *)
Theorem gate_after_increments
        (times : list JsDate) (later : JsDate)
        (store : RateLimitService.Store) (uid : ObjectId)
        (s : t) (featureType : string) (u l : Z) :
  RateLimitService.findOne store uid = Some s ->
  In featureType RateLimitService.countedFeatureTypes ->
  usage_get (usage s) (featureType ++ "Today") = Some u ->
  features_get (features s) (featureType ++ "PerDay") = Some l ->
  - 9007199254740992 < u ->
  u + Z.of_nat (List.length times) < 9007199254740992 ->
  Forall (RateLimitService.sameDay (lastResetDate (usage s))) times ->
  RateLimitService.sameDay (lastResetDate (usage s)) later ->
  RateLimitService.checkFeatureLimit later
    (RateLimitMiddleware.incrementEach times store uid featureType) uid featureType
  = ((l =? -1) || (u + Z.of_nat (List.length times) <? l)).
Proof.
  intros Hfind Hin Hu Hl Hlow Hhigh Htimes Hlater.
  revert store s u Hfind Hu Hl Hlow Hhigh Htimes Hlater.
  induction times as [|now rest IH];
    intros store s u Hfind Hu Hl Hlow Hhigh Htimes Hlater.
  - cbn [RateLimitMiddleware.incrementEach List.length Z.of_nat].
    unfold RateLimitService.checkFeatureLimit. rewrite Hfind.
    rewrite canPerformAction_answer, Hl.
    unfold RateLimitService.usedToday.
    rewrite Hu, (sameDay_not_new _ _ Hlater), Z.add_0_r. reflexivity.
  - inversion Htimes as [|? ? Hnow Hrest]; subst.
    destruct (increment_same_day now store uid s featureType u Hfind Hnow Hin Hu)
      as (s' & Hfind' & Hf' & Hd' & Hu').
    cbn [List.length] in Hhigh. rewrite Nat2Z.inj_succ in Hhigh.
    rewrite js_add_exact in Hu' by lia.
    cbn [RateLimitMiddleware.incrementEach].
    rewrite (IH _ s' (u + 1) Hfind' Hu').
    + cbn [List.length]. rewrite Nat2Z.inj_succ. f_equal. f_equal. lia.
    + now rewrite Hf'.
    + lia.
    + lia.
    + now rewrite Hd'.
    + now rewrite Hd'.
Qed.

Lemma gate_after_increments_witness :
  RateLimitService.checkFeatureLimit (Scenario.day1 + 3000)
    (RateLimitMiddleware.incrementEach [Scenario.day1 + 1000; Scenario.day1 + 2000]
       [Subscription.mk "alice" Subscription.free
          (Subscription.FEATURES Subscription.free)
          (Subscription.mkUsage 0 0 18 0 Scenario.day1)]
       "alice" "likes")
    "alice" "likes"
  = ((20 =? -1) || (18 + Z.of_nat (List.length [Scenario.day1 + 1000;
                                                Scenario.day1 + 2000]) <? 20)).
Proof.
  apply (gate_after_increments
           [Scenario.day1 + 1000; Scenario.day1 + 2000] (Scenario.day1 + 3000)
           [Subscription.mk "alice" Subscription.free
              (Subscription.FEATURES Subscription.free)
              (Subscription.mkUsage 0 0 18 0 Scenario.day1)]
           "alice"
           (Subscription.mk "alice" Subscription.free
              (Subscription.FEATURES Subscription.free)
              (Subscription.mkUsage 0 0 18 0 Scenario.day1))
           "likes" 18 20).
  - reflexivity.
  - simpl. auto.
  - reflexivity.
  - reflexivity.
  - lia.
  - simpl. lia.
  - repeat constructor; vm_compute; repeat split; reflexivity.
  - vm_compute. repeat split; reflexivity.
Defined.

(** At 2^53 the counter no longer counts: with 2^53 of a limit 2^53 + 2
    used, two further charged actions leave the counter where it was and the
    gate open. *)
Example gate_stays_open_at_2_53 :
  RateLimitService.checkFeatureLimit (Scenario.day1 + 3000)
    (RateLimitMiddleware.incrementEach [Scenario.day1 + 1000; Scenario.day1 + 2000]
       [Subscription.mk "alice" Subscription.free
          (Subscription.mkFeatures 2 5 9007199254740994 1)
          (Subscription.mkUsage 0 0 9007199254740992 0 Scenario.day1)]
       "alice" "likes")
    "alice" "likes"
  = true.
Proof. reflexivity. Qed.

(** Every answer of the initiate handler says [success: false] or is an
    error. *)
Lemma initiate_answer_fails daily now docId notifId user recipientUserId db :
  match fst (VideoCallRoutes.initiate daily now docId notifId user recipientUserId db) with
  | Json _ success _ => success = false
  | NextError _ => True
  end.
Proof.
  unfold VideoCallRoutes.initiate. cbv zeta.
  destruct (User.findById _ _); [|reflexivity].
  destruct (find _ (matches db)); [|reflexivity].
  destruct (VideoCall.findOpenCall _ _ _); [reflexivity|].
  destruct (DailyService.createRoom _ _ _); [|exact I].
  rewrite save_requires_room_name by reflexivity. exact I.
Qed.

(** POST /initiate behind its quota middleware never charges the caller:
    whatever the gate and the handler answer and whenever the clock is read,
    the subscriptions and the stored calls are the ones before the
    request. *)
Theorem initiate_request_charges_nothing
        (daily : DailyService.Api) (now now' handled answered : JsDate)
        (docId notifId : ObjectId)
        (user : Caller) (recipientUserId : ObjectId)
        (store : RateLimitService.Store) (db : Db) :
  snd (fst (RateLimitMiddleware.initiateRequest daily now now' handled answered
              docId notifId user recipientUserId store db)) = store
  /\ snd (RateLimitMiddleware.initiateRequest daily now now' handled answered
            docId notifId user recipientUserId store db) = db.
Proof.
  unfold RateLimitMiddleware.initiateRequest.
  destruct (RateLimitMiddleware.videoCallRateLimit now store now' store user);
    [|split; reflexivity].
  pose proof (initiate_answer_fails daily handled docId notifId user
                recipientUserId db) as Hans.
  pose proof (rest_initiate_stores_nothing daily handled docId notifId user
                recipientUserId db) as [Hdb _].
  destruct (VideoCallRoutes.initiate daily handled docId notifId user
              recipientUserId db) as [answer db'].
  cbn [fst snd] in *. split; [|exact Hdb].
  unfold RateLimitMiddleware.incrementUsage.
  destruct answer as [code success msg|e]; [|reflexivity].
  now rewrite Hans.
Qed.

End QuotaMiddleware.

(** ** The Match collection under swipes *)

Section MatchCollection.

Import MatchStore.

Lemma samePair_sym (a b : Match.t) : samePair a b -> samePair b a.
Proof. unfold samePair. intuition congruence. Qed.

Lemma pairUnique_app (store : list Match.t) (m : Match.t) :
  pairUnique store ->
  (forall x, In x store -> ~ samePair x m) ->
  pairUnique (store ++ [m])%list.
Proof.
  induction store as [|y rest IH]; cbn; intros Hpu Hnew.
  - split; [intros x []|exact I].
  - destruct Hpu as [Hy Hrest]. split.
    + intros x Hx. apply in_app_or in Hx. destruct Hx as [Hx|[<-|[]]].
      * now apply Hy.
      * apply Hnew. now left.
    + apply IH; [assumption|]. intros x Hx. apply Hnew. now right.
Qed.

Lemma pairUnique_map (f : Match.t -> Match.t) (store : list Match.t) :
  (forall x, In x store ->
             Match.user1Id (f x) = Match.user1Id x
             /\ Match.user2Id (f x) = Match.user2Id x) ->
  pairUnique store -> pairUnique (map f store).
Proof.
  induction store as [|y rest IH]; cbn; intros Hf Hpu; [exact I|].
  destruct Hpu as [Hy Hrest]. split.
  - intros x Hx. apply in_map_iff in Hx. destruct Hx as (x0 & <- & Hx0).
    intros Hsame. apply (Hy x0 Hx0).
    destruct (Hf y (or_introl eq_refl)) as [Hy1 Hy2].
    destruct (Hf x0 (or_intror Hx0)) as [Hx1 Hx2].
    unfold samePair in *. rewrite Hy1, Hy2, Hx1, Hx2 in Hsame. exact Hsame.
  - apply IH; [|assumption]. intros x Hx. apply Hf. now right.
Qed.

Lemma unique_id_In (store : list Match.t) (x y : Match.t) :
  NoDup (map Match._id store) ->
  In x store -> In y store -> Match._id x = Match._id y -> x = y.
Proof.
  induction store as [|z rest IH]; cbn; [tauto|].
  intros Hnd. inversion Hnd as [|? ? Hnotin Hnd']; subst.
  intros [->|Hx] [->|Hy] Hid; auto.
  - exfalso. apply Hnotin. rewrite Hid. now apply in_map.
  - exfalso. apply Hnotin. rewrite <- Hid. now apply in_map.
Qed.

Lemma match_findById_In (store : list Match.t) (id : ObjectId) (x : Match.t) :
  Match.findById store id = Some x -> In x store /\ Match._id x = id.
Proof.
  unfold Match.findById. intros H. apply find_some in H.
  destruct H as [Hin Hid]. now apply String.eqb_eq in Hid.
Qed.

Lemma match_findById_none (store : list Match.t) (id : ObjectId) :
  Match.findById store id = None -> ~ In id (map Match._id store).
Proof.
  unfold Match.findById. intros H Hin.
  apply in_map_iff in Hin. destruct Hin as (x & Hid & Hx).
  pose proof (find_none _ _ H x Hx) as Hf. cbn in Hf.
  rewrite Hid, String.eqb_refl in Hf. discriminate.
Qed.

(** The two ways a save ends: the stored document with the id is replaced,
    or the document is appended under a fresh id. *)
Lemma match_save_cases (now : JsDate) (m saved : Match.t) (store store' : list Match.t) :
  Match.save now m store = Ok (saved, store') ->
  Match.user1Id saved = Match.user1Id m
  /\ Match.user2Id saved = Match.user2Id m
  /\ Match._id saved = Match._id m
  /\ Match.user1Action saved = Match.user1Action m
  /\ Match.user2Action saved = Match.user2Action m
  /\ ((exists old, Match.findById store (Match._id m) = Some old
                   /\ Match.createdAt saved = Match.createdAt m
                   /\ store' = map (fun x => if Match._id x === Match._id saved
                                             then saved else x) store)
      \/ (Match.findById store (Match._id m) = None
          /\ Match.createdAt saved = now
          /\ store' = (store ++ [saved])%list)).
Proof.
  unfold Match.save, Match.preSaveSelf.
  destruct (Match.validate m); cbn; [|discriminate].
  destruct (Match.user1Id m === Match.user2Id m); cbn; [discriminate|].
  destruct (preSaveMatch_actions now m) as (H1 & H2 & H3 & H4 & H5).
  destruct (Match.findById store (Match._id (Match.preSaveMatch now m)))
    as [old|] eqn:Hold; rewrite H3 in Hold.
  - intros [= <- <-]. rewrite H1, H2, H3, H4, H5. repeat split; try reflexivity.
    left. exists old. split; [exact Hold|]. split; [|reflexivity].
    unfold Match.preSaveMatch.
    now destruct (Match.Action_eqb (Match.user1Action m) Match.like
                  && Match.Action_eqb (Match.user2Action m) Match.like).
  - destruct (existsb _ store); [discriminate|].
    intros [= <- <-]. cbn. rewrite H1, H2, H3, H4, H5.
    repeat split; try reflexivity. right. repeat split. exact Hold.
Qed.

Lemma findExisting_none_no_pair (store : list Match.t) (a b : ObjectId) (m : Match.t) :
  Match.findExistingMatch store a b = None ->
  Match.user1Id m = a -> Match.user2Id m = b ->
  forall x, In x store -> ~ samePair x m.
Proof.
  unfold Match.findExistingMatch. intros Hnone H1 H2 x Hx Hsame.
  pose proof (find_none _ _ Hnone x Hx) as Hf. cbn in Hf.
  apply orb_false_iff in Hf. destruct Hf as [Hab Hba].
  unfold Match.isPair in *. unfold samePair in Hsame.
  rewrite H1, H2 in Hsame.
  destruct Hsame as [[E1 E2]|[E1 E2]].
  - rewrite E1, E2, !String.eqb_refl in Hab. discriminate.
  - rewrite E1, E2, !String.eqb_refl in Hba. discriminate.
Qed.

(** Replacing the stored copy of [e] by a document with the same id and the
    same users keeps the collection consistent. *)
Lemma replace_consistent (store : list Match.t) (e saved : Match.t) :
  consistent store -> In e store ->
  Match._id saved = Match._id e ->
  Match.user1Id saved = Match.user1Id e ->
  Match.user2Id saved = Match.user2Id e ->
  consistent (map (fun x => if Match._id x === Match._id saved then saved else x)
                  store).
Proof.
  intros [Hnd Hpu] Hin Hid H1 H2.
  assert (Hf : forall x, In x store ->
                 Match._id (if Match._id x === Match._id saved then saved else x)
                 = Match._id x
                 /\ Match.user1Id (if Match._id x === Match._id saved then saved else x)
                    = Match.user1Id x
                 /\ Match.user2Id (if Match._id x === Match._id saved then saved else x)
                    = Match.user2Id x).
  { intros x Hx. destruct (String.eqb_spec (Match._id x) (Match._id saved)) as [E|_];
      [|auto].
    assert (x = e) by (apply (unique_id_In store); congruence).
    subst x. auto. }
  split.
  - rewrite map_map.
    rewrite (map_ext_in _ Match._id); [exact Hnd|].
    intros x Hx. apply (Hf x Hx).
  - apply pairUnique_map; [|exact Hpu]. intros x Hx. split; apply (Hf x Hx).
Qed.

(** processSwipe keeps the Match collection consistent: with unique ids and
    at most one record per unordered pair before the swipe, and a fresh id
    for a new document, the same holds after every successful swipe. *)
Theorem processSwipe_keeps_pairs_unique
        (now : JsDate) (newId : ObjectId) (compat : option Z)
        (userId targetUserId : ObjectId) (action : Match.Action)
        (store store' : list Match.t) (saved : Match.t) :
  consistent store ->
  Match.findById store newId = None ->
  MatchingService.processSwipe now newId compat userId targetUserId action store
  = Ok (saved, store') ->
  consistent store'.
Proof.
  intros Hc Hfresh. unfold MatchingService.processSwipe.
  destruct (Match.findExistingMatch store userId targetUserId) as [e|] eqn:Hex.
  - assert (Hin : In e store).
    { unfold Match.findExistingMatch in Hex. now apply find_some in Hex. }
    destruct (match_findById_of_In _ _ Hin) as [old Hold].
    destruct (Match.user1Id e === userId).
    + destruct (Match.Action_eqb (Match.user1Action e) Match.pending); [|discriminate].
      destruct (Match.save now _ store) as [[sv st]|] eqn:Hsave; [|discriminate].
      intros [= <- <-].
      destruct (match_save_cases _ _ _ _ _ Hsave) as (H1 & H2 & H3 & _ & _ & Hcase).
      cbn in H1, H2, H3, Hcase.
      destruct Hcase as [(_ & _ & _ & ->)|(Hnone & _)]; [|congruence].
      now apply replace_consistent with (e := e).
    + destruct (Match.Action_eqb (Match.user2Action e) Match.pending); [|discriminate].
      destruct (Match.save now _ store) as [[sv st]|] eqn:Hsave; [|discriminate].
      intros [= <- <-].
      destruct (match_save_cases _ _ _ _ _ Hsave) as (H1 & H2 & H3 & _ & _ & Hcase).
      cbn in H1, H2, H3, Hcase.
      destruct Hcase as [(_ & _ & _ & ->)|(Hnone & _)]; [|congruence].
      now apply replace_consistent with (e := e).
  - destruct (Match.save now _ store) as [[sv st]|] eqn:Hsave; [|discriminate].
    intros [= <- <-].
    destruct (match_save_cases _ _ _ _ _ Hsave) as (H1 & H2 & H3 & _ & _ & Hcase).
    cbn in H1, H2, H3, Hcase.
    destruct Hcase as [(old & Hold & _)|(_ & _ & ->)]; [congruence|].
    destruct Hc as [Hnd Hpu]. split.
    + rewrite map_app. cbn. rewrite H3. cbn.
      apply NoDup_app; [exact Hnd|repeat constructor; intros []|].
      intros a Ha [<-|[]]. now apply match_findById_none in Hfresh.
    + apply pairUnique_app; [exact Hpu|].
      now apply findExisting_none_no_pair with (a := userId) (b := targetUserId).
Qed.

Lemma processSwipe_keeps_pairs_unique_witness :
  consistent [Match.mk "m1" "alice" "bob" Match.like Match.like true
                       (Some Scenario.day2) 0 Scenario.day1].
Proof.
  apply (processSwipe_keeps_pairs_unique Scenario.day2 "m2" None "bob" "alice"
           Match.like
           [Match.mk "m1" "alice" "bob" Match.like Match.pending false None 0
                     Scenario.day1]
           [Match.mk "m1" "alice" "bob" Match.like Match.like true
                     (Some Scenario.day2) 0 Scenario.day1]
           (Match.mk "m1" "alice" "bob" Match.like Match.like true
                     (Some Scenario.day2) 0 Scenario.day1)).
  - split.
    + simpl. constructor; [intros []|constructor].
    + simpl. split; [intros x []|exact I].
  - reflexivity.
  - reflexivity.
Defined.

(** A swipe on a pair without a record appends one record: the caller's
    action in the first slot, the second slot pending, no match. *)
Lemma processSwipe_first
      (now : JsDate) (newId : ObjectId) (compat : option Z)
      (userId targetUserId : ObjectId) (action : Match.Action)
      (store store' : list Match.t) (saved : Match.t) :
  Match.findExistingMatch store userId targetUserId = None ->
  Match.findById store newId = None ->
  MatchingService.processSwipe now newId compat userId targetUserId action store
  = Ok (saved, store') ->
  store' = (store ++ [saved])%list
  /\ saved = Match.mk newId userId targetUserId action Match.pending false None
                      (match compat with Some c => c | None => 0 end) now.
Proof.
  intros Hex Hfresh. unfold MatchingService.processSwipe. rewrite Hex.
  unfold Match.save, Match.preSaveSelf.
  cbn [Match.validate Match.compatibility Match.user1Id Match.user2Id].
  destruct (negb _); [discriminate|].
  destruct (userId === targetUserId); cbn [bind]; [discriminate|].
  unfold Match.preSaveMatch.
  cbn [Match.user1Action Match.user2Action Match.Action_eqb].
  rewrite andb_false_r. cbn [Match._id]. rewrite Hfresh.
  cbn -[existsb]. destruct (existsb _ store); [discriminate|].
  intros [= <- <-]. split; reflexivity.
Qed.

(** Swipes are final.  With unique document ids and a fresh id for a new
    document, a successful processSwipe keeps every stored record (same id,
    same users, same creation time) and changes no action slot that was
    already decided: only a pending slot is ever written. *)
Theorem swipes_are_final
        (now : JsDate) (newId : ObjectId) (compat : option Z)
        (userId targetUserId : ObjectId) (action : Match.Action)
        (store store' : list Match.t) (saved : Match.t) :
  NoDup (map Match._id store) ->
  Match.findById store newId = None ->
  MatchingService.processSwipe now newId compat userId targetUserId action store
  = Ok (saved, store') ->
  forall m, In m store ->
    exists m', In m' store'
      /\ Match._id m' = Match._id m
      /\ Match.user1Id m' = Match.user1Id m
      /\ Match.user2Id m' = Match.user2Id m
      /\ Match.createdAt m' = Match.createdAt m
      /\ (Match.user1Action m <> Match.pending ->
          Match.user1Action m' = Match.user1Action m)
      /\ (Match.user2Action m <> Match.pending ->
          Match.user2Action m' = Match.user2Action m).
Proof.
  intros Hnd Hfresh Hswipe m Hm.
  destruct (Match.findExistingMatch store userId targetUserId) as [e|] eqn:Hex.
  2:{ destruct (processSwipe_first _ _ _ _ _ _ _ _ _ Hex Hfresh Hswipe) as [-> _].
      exists m. repeat split; auto. apply in_or_app. now left. }
  unfold MatchingService.processSwipe in Hswipe. rewrite Hex in Hswipe.
  assert (Hin : In e store).
  { unfold Match.findExistingMatch in Hex. now apply find_some in Hex. }
  destruct (match_findById_of_In _ _ Hin) as [old Hold].
  assert (Hkeep : forall sv st slot1 slot2,
             Match.save now (Match.mk (Match._id e) (Match.user1Id e) (Match.user2Id e)
                                      slot1 slot2 (Match.isMatch e) (Match.matchedAt e)
                                      (Match.compatibility e) (Match.createdAt e))
                        store = Ok (sv, st) ->
             (Match.user1Action e <> Match.pending -> slot1 = Match.user1Action e) ->
             (Match.user2Action e <> Match.pending -> slot2 = Match.user2Action e) ->
             exists m', In m' st
               /\ Match._id m' = Match._id m
               /\ Match.user1Id m' = Match.user1Id m
               /\ Match.user2Id m' = Match.user2Id m
               /\ Match.createdAt m' = Match.createdAt m
               /\ (Match.user1Action m <> Match.pending ->
                   Match.user1Action m' = Match.user1Action m)
               /\ (Match.user2Action m <> Match.pending ->
                   Match.user2Action m' = Match.user2Action m)).
  { intros sv st slot1 slot2 Hsave Hs1 Hs2.
    destruct (match_save_cases _ _ _ _ _ Hsave)
      as (H1 & H2 & H3 & H4 & H5 & Hcase).
    cbn in H1, H2, H3, H4, H5, Hcase.
    destruct Hcase as [(_ & _ & Hc & ->)|(Hnone & _)]; [|congruence].
    exists (if Match._id m === Match._id sv then sv else m).
    split; [apply in_map_iff; exists m; split; [reflexivity|assumption]|].
    destruct (String.eqb_spec (Match._id m) (Match._id sv)) as [E|_];
      [|repeat split; auto].
    assert (m = e) by (apply (unique_id_In store); congruence).
    subst m. rewrite H1, H2, H3, H4, H5, Hc. repeat split; auto. }
  destruct (Match.user1Id e === userId).
  - destruct (Match.Action_eqb (Match.user1Action e) Match.pending) eqn:Ep;
      [|discriminate].
    apply Action_eqb_eq in Ep.
    destruct (Match.save now _ store) as [[sv st]|] eqn:Hsave; [|discriminate].
    injection Hswipe as <- <-.
    apply (Hkeep _ _ _ _ Hsave); [congruence|reflexivity].
  - destruct (Match.Action_eqb (Match.user2Action e) Match.pending) eqn:Ep;
      [|discriminate].
    apply Action_eqb_eq in Ep.
    destruct (Match.save now _ store) as [[sv st]|] eqn:Hsave; [|discriminate].
    injection Hswipe as <- <-.
    apply (Hkeep _ _ _ _ Hsave); [reflexivity|congruence].
Qed.

Lemma swipes_are_final_witness :
  let m := Match.mk "m1" "alice" "bob" Match.like Match.pending false None 0
                    Scenario.day1 in
  exists m', In m' [Match.mk "m1" "alice" "bob" Match.like Match.like true
                             (Some Scenario.day2) 0 Scenario.day1]
    /\ Match._id m' = Match._id m
    /\ Match.user1Id m' = Match.user1Id m
    /\ Match.user2Id m' = Match.user2Id m
    /\ Match.createdAt m' = Match.createdAt m
    /\ (Match.user1Action m <> Match.pending ->
        Match.user1Action m' = Match.user1Action m)
    /\ (Match.user2Action m <> Match.pending ->
        Match.user2Action m' = Match.user2Action m).
Proof.
  apply (swipes_are_final Scenario.day2 "m2" None "bob" "alice" Match.like
           [Match.mk "m1" "alice" "bob" Match.like Match.pending false None 0
                     Scenario.day1]
           [Match.mk "m1" "alice" "bob" Match.like Match.like true
                     (Some Scenario.day2) 0 Scenario.day1]
           (Match.mk "m1" "alice" "bob" Match.like Match.like true
                     (Some Scenario.day2) 0 Scenario.day1)).
  - simpl. constructor; [intros []|constructor].
  - reflexivity.
  - reflexivity.
  - simpl. auto.
Defined.

(** A user's second swipe on the same profile is refused by the service and
    nothing is written. *)
Lemma processSwipe_rejects_repeat
      (now : JsDate) (newId : ObjectId) (compat : option Z)
      (userId targetUserId : ObjectId) (action : Match.Action)
      (store : list Match.t) (e : Match.t) :
  Match.findExistingMatch store userId targetUserId = Some e ->
  (if Match.user1Id e === userId then Match.user1Action e else Match.user2Action e)
  <> Match.pending ->
  MatchingService.processSwipe now newId compat userId targetUserId action store
  = Throw "Failed to process swipe: User has already swiped on this profile".
Proof.
  intros Hex Hslot. unfold MatchingService.processSwipe. rewrite Hex.
  destruct (Match.user1Id e === userId).
  - destruct (Match.Action_eqb (Match.user1Action e) Match.pending) eqn:E;
      [apply Action_eqb_eq in E; contradiction|reflexivity].
  - destruct (Match.Action_eqb (Match.user2Action e) Match.pending) eqn:E;
      [apply Action_eqb_eq in E; contradiction|reflexivity].
Qed.

(** The swipe route only ever appends.  With a fresh id for the new
    document, POST /swipe leaves the Match collection as it was or appends
    one record holding the caller's action and a pending second slot: no
    stored record is changed and no match is ever formed through the route.
    No notification is stored, and the route answers 200 only for an action
    that is neither like nor super_like. *)
Theorem swipe_route_only_appends
        (now : JsDate) (matchId notifId1 notifId2 : ObjectId) (compat : option Z)
        (user : Caller) (targetUserId : ObjectId) (action : Match.Action) (db : Db) :
  Match.findById (matches db) matchId = None ->
  let r := Discovery.swipe now matchId notifId1 notifId2 compat user targetUserId
                           action db in
  notifications (snd r) = notifications db
  /\ (matches (snd r) = matches db
      \/ matches (snd r)
         = (matches db
            ++ [Match.mk matchId (callerId user) targetUserId action Match.pending
                         false None (match compat with Some c => c | None => 0 end)
                         now])%list)
  /\ (forall msg, fst r = Json HTTP_STATUS.OK true msg ->
                  action <> Match.like /\ action <> Match.super_like).
Proof.
  intros Hfresh. cbv zeta. unfold Discovery.swipe. cbv zeta.
  destruct (User.findById _ _) as [targetUser|];
    [|repeat split; auto; discriminate].
  destruct (callerId user === targetUserId);
    [repeat split; auto; discriminate|].
  destruct (Match.findExistingMatch _ _ _) eqn:Hex;
    [repeat split; auto; discriminate|].
  destruct (MatchingService.processSwipe _ _ _ _ _ _ _) as [[result ms]|] eqn:Hswipe;
    [|repeat split; auto; discriminate].
  destruct (processSwipe_first _ _ _ _ _ _ _ _ _ Hex Hfresh Hswipe) as [-> ->].
  cbn [Match.isMatch].
  destruct (Match.Action_eqb action Match.like
            || Match.Action_eqb action Match.super_like) eqn:Eact.
  - destruct (createNotification_string_throws
                (notifications
                   (withMatches db
                      (matches db
                       ++ [Match.mk matchId (callerId user) targetUserId action
                                    Match.pending false None
                                    (match compat with Some c => c | None => 0 end)
                                    now])%list))
                notifId1 (Some targetUserId) "like"
                [NotificationService.Obj
                   (NotificationService.mkData None
                      (Some (if Match.Action_eqb action Match.super_like
                             then "Super Like!" else "New Like!"))
                      (Some (callerName user ++ " "
                             ++ (if Match.Action_eqb action Match.super_like
                                 then "super " else "")
                             ++ "liked you!"))
                      (Some (callerId user)))]) as [e ->].
    repeat split; auto; discriminate.
  - repeat split; auto.
    + intros ->. discriminate Eact.
    + intros ->. discriminate Eact.
Qed.

Lemma swipe_route_only_appends_witness :
  let r := Discovery.swipe Scenario.day1 "m1" "n1" "n2" None Scenario.alice "bob"
                           Match.pass Scenario.emptyDb in
  notifications (snd r) = notifications Scenario.emptyDb
  /\ (matches (snd r) = matches Scenario.emptyDb
      \/ matches (snd r)
         = (matches Scenario.emptyDb
            ++ [Match.mk "m1" (callerId Scenario.alice) "bob" Match.pass Match.pending
                         false None 0 Scenario.day1])%list)
  /\ (forall msg, fst r = Json HTTP_STATUS.OK true msg ->
                  Match.pass <> Match.like /\ Match.pass <> Match.super_like).
Proof.
  apply (swipe_route_only_appends Scenario.day1 "m1" "n1" "n2" None Scenario.alice
           "bob" Match.pass Scenario.emptyDb).
  reflexivity.
Defined.

End MatchCollection.

(** ** The VideoCall collection under the handlers *)

Section CallCollection.

Import VideoCallStore.

Lemma requiredString_true (v : option string) :
  requiredString v = true <-> exists s, v = Some s /\ s <> "".
Proof.
  destruct v as [s|]; cbn.
  - rewrite negb_true_iff. split.
    + intros H. exists s. split; [reflexivity|].
      intros ->. discriminate H.
    + intros (s' & [= <-] & Hne).
      destruct (String.eqb_spec s ""); [contradiction|reflexivity].
  - split; [discriminate|]. now intros (s & [=] & _).
Qed.

Lemma wellFormed_validate (v : VideoCall.t) :
  wellFormed v -> VideoCall.validate v = true.
Proof.
  intros (_ & Hc & Hu & Hn). unfold VideoCall.validate.
  apply requiredString_true in Hu, Hn. rewrite Hu, Hn.
  assert (Hcid : requiredString (Some (VideoCall.callId v)) = true).
  { apply requiredString_true. eauto. }
  now rewrite Hcid.
Qed.

Lemma wellFormed_hook (v : VideoCall.t) :
  wellFormed v -> VideoCall.preSaveParticipants v = Ok v.
Proof.
  intros ((p0 & p1 & Hp & Hne & Hi) & _). unfold VideoCall.preSaveParticipants.
  rewrite Hp. destruct (String.eqb_spec p0 p1); [contradiction|].
  cbn [existsb]. destruct Hi as [->| ->]; rewrite String.eqb_refl;
    rewrite ?orb_true_r; reflexivity.
Qed.

(** A successful save proves its document well formed. *)
Lemma saved_wellFormed (v saved : VideoCall.t) (store store' : list VideoCall.t) :
  VideoCall.save v store = Ok (saved, store') ->
  wellFormed saved
  /\ saved = VideoCall.preSaveDuration v
  /\ (store' = map (fun x => if VideoCall._id x === VideoCall._id saved
                             then saved else x) store
      \/ store' = (store ++ [saved])%list).
Proof.
  unfold VideoCall.save.
  destruct (VideoCall.validate v) eqn:Hv; cbn; [|discriminate].
  destruct (VideoCall.preSaveParticipants v) as [v1|] eqn:Hp; cbn; [|discriminate].
  pose proof (preSaveParticipants_ok _ _ Hp). subst v1.
  assert (Hwf : wellFormed (VideoCall.preSaveDuration v)).
  { assert (Hsame : VideoCall.participants (VideoCall.preSaveDuration v)
                    = VideoCall.participants v
                    /\ VideoCall.initiatorId (VideoCall.preSaveDuration v)
                       = VideoCall.initiatorId v
                    /\ VideoCall.callId (VideoCall.preSaveDuration v)
                       = VideoCall.callId v
                    /\ VideoCall.dailyRoomUrl (VideoCall.preSaveDuration v)
                       = VideoCall.dailyRoomUrl v
                    /\ VideoCall.dailyRoomName (VideoCall.preSaveDuration v)
                       = VideoCall.dailyRoomName v).
    { unfold VideoCall.preSaveDuration.
      destruct (VideoCall.status v), (VideoCall.startTime v), (VideoCall.endTime v);
        auto.
      destruct (VideoCall.duration v =? 0); cbn; auto. }
    destruct Hsame as (E1 & E2 & E3 & E4 & E5).
    unfold wellFormed. rewrite E1, E2, E3, E4, E5.
    unfold VideoCall.validate in Hv.
    apply andb_true_iff in Hv. destruct Hv as [Hv Hn].
    apply andb_true_iff in Hv. destruct Hv as [Hc Hu].
    apply requiredString_true in Hc, Hu, Hn.
    destruct Hc as (c & [= <-] & Hc).
    split; [|auto].
    unfold VideoCall.preSaveParticipants in Hp.
    destruct (VideoCall.participants v) as [|p0 [|p1 [|]]]; try discriminate.
    destruct (String.eqb_spec p0 p1); [discriminate|].
    destruct (existsb _ _) eqn:Hex; [|discriminate].
    exists p0, p1. split; [reflexivity|]. split; [assumption|].
    cbn in Hex. rewrite orb_false_r in Hex. apply orb_true_iff in Hex.
    destruct Hex as [H|H]; apply String.eqb_eq in H; auto. }
  destruct (VideoCall.findById store _).
  - intros [= <- <-]. auto.
  - destruct (existsb _ store); [discriminate|].
    intros [= <- <-]. auto.
Qed.

Lemma save_keeps_wellFormed (v saved : VideoCall.t) (store store' : list VideoCall.t) :
  Forall wellFormed store ->
  VideoCall.save v store = Ok (saved, store') ->
  Forall wellFormed store'.
Proof.
  intros Hall Hsave.
  destruct (saved_wellFormed _ _ _ _ Hsave) as (Hwf & _ & [->| ->]).
  - apply Forall_forall. intros x Hx. apply in_map_iff in Hx.
    destruct Hx as (y & <- & Hy).
    destruct (VideoCall._id y === VideoCall._id saved); [assumption|].
    now apply (proj1 (Forall_forall _ _) Hall).
  - apply Forall_app. split; [assumption|]. now constructor.
Qed.

Ltac saved_once :=
  repeat match goal with
    | |- savedOnce _ (snd (match ?c with _ => _ end)) => destruct c eqn:?
    | |- savedOnce _ (snd (if ?c then _ else _)) => destruct c eqn:?
    end;
  cbn [snd videoCalls withVideoCalls withNotifications];
  first [left; reflexivity | right; eauto].

(** Every call handler writes the calls through at most one save. *)
Lemma handlers_save_once
      (daily : DailyService.Api) (io : Connections) (now : JsDate)
      (generatedCallId : string) (docId notifId : ObjectId) (user : Caller)
      (recipientUserId callId : ObjectId) (db : Db) :
  savedOnce db (snd (VideoCallRoutes.initiate daily now docId notifId user
                       recipientUserId db))
  /\ savedOnce db (snd (VideoCallRoutes.accept daily now notifId user callId db))
  /\ savedOnce db (snd (VideoCallRoutes.decline daily now notifId user callId db))
  /\ savedOnce db (snd (VideoCallRoutes.endCall daily now notifId user callId db))
  /\ savedOnce db (snd (VideoCallSocket.onCallInitiate daily io now generatedCallId
                          docId notifId user recipientUserId db))
  /\ savedOnce db (snd (VideoCallSocket.onCallAccept daily now notifId user callId db))
  /\ savedOnce db (snd (VideoCallSocket.onCallDecline daily now notifId user callId db))
  /\ savedOnce db (snd (VideoCallSocket.onCallEnd daily now notifId user callId db)).
Proof.
  repeat split.
  - unfold VideoCallRoutes.initiate. cbv zeta. saved_once.
  - unfold VideoCallRoutes.accept. cbv zeta. saved_once.
  - unfold VideoCallRoutes.decline. cbv zeta. saved_once.
  - unfold VideoCallRoutes.endCall, VideoCallRoutes.durationSince. cbv zeta.
    destruct (VideoCall.findById (videoCalls db) callId) as [videoCall|];
      [|now left].
    destruct (negb (VideoCall.includes _ _)); [now left|].
    destruct (negb (VideoCall.Status_eqb _ _)); [now left|].
    destruct (VideoCall.startTime videoCall); cbn [bind]; [|now left].
    saved_once.
  - unfold VideoCallSocket.onCallInitiate. cbv zeta. saved_once.
  - unfold VideoCallSocket.onCallAccept. cbv zeta. saved_once.
  - unfold VideoCallSocket.onCallDecline. cbv zeta. saved_once.
  - unfold VideoCallSocket.onCallEnd. cbv zeta. saved_once.
Qed.

(** The schema's invariant holds of every stored call, whatever handler
    runs: if every stored call has two different participants, one of them
    the initiator, and its call id and room set, so has every call stored
    after a REST or socket initiate, accept, decline or end. *)
Theorem handlers_keep_calls_wellFormed
        (daily : DailyService.Api) (io : Connections) (now : JsDate)
        (generatedCallId : string) (docId notifId : ObjectId) (user : Caller)
        (recipientUserId callId : ObjectId) (db : Db) :
  Forall wellFormed (videoCalls db) ->
  Forall wellFormed (videoCalls (snd (VideoCallRoutes.initiate daily now docId
                                        notifId user recipientUserId db)))
  /\ Forall wellFormed (videoCalls (snd (VideoCallRoutes.accept daily now notifId
                                           user callId db)))
  /\ Forall wellFormed (videoCalls (snd (VideoCallRoutes.decline daily now notifId
                                           user callId db)))
  /\ Forall wellFormed (videoCalls (snd (VideoCallRoutes.endCall daily now notifId
                                           user callId db)))
  /\ Forall wellFormed (videoCalls (snd (VideoCallSocket.onCallInitiate daily io now
                                           generatedCallId docId notifId user
                                           recipientUserId db)))
  /\ Forall wellFormed (videoCalls (snd (VideoCallSocket.onCallAccept daily now
                                           notifId user callId db)))
  /\ Forall wellFormed (videoCalls (snd (VideoCallSocket.onCallDecline daily now
                                           notifId user callId db)))
  /\ Forall wellFormed (videoCalls (snd (VideoCallSocket.onCallEnd daily now
                                           notifId user callId db))).
Proof.
  intros Hall.
  assert (Hstep : forall db', savedOnce db db' -> Forall wellFormed (videoCalls db')).
  { intros db' [-> |(v & saved & Hsave)]; [assumption|].
    now apply (save_keeps_wellFormed v saved (videoCalls db)). }
  destruct (handlers_save_once daily io now generatedCallId docId notifId user
              recipientUserId callId db)
    as (H1 & H2 & H3 & H4 & H5 & H6 & H7 & H8).
  repeat split; now apply Hstep.
Qed.

Lemma handlers_keep_calls_wellFormed_witness :
  Forall wellFormed (videoCalls (Scenario.callDb VideoCall.pending))
  /\ Forall wellFormed
       (videoCalls (snd (VideoCallRoutes.accept Scenario.dailyUp Scenario.day2
                           "n1" Scenario.bob "c1"
                           (Scenario.callDb VideoCall.pending))))
  /\ VideoCallRoutes.accept Scenario.dailyUp Scenario.day2 "n1" Scenario.bob "c1"
       (Scenario.callDb VideoCall.pending)
     <> (NextError "VideoCall validation failed",
         Scenario.callDb VideoCall.pending).
Proof.
  assert (Hwf : Forall wellFormed (videoCalls (Scenario.callDb VideoCall.pending))).
  { repeat constructor.
    - exists "alice", "bob". repeat split; auto. discriminate.
    - discriminate.
    - eexists. split; [reflexivity|discriminate].
    - eexists. split; [reflexivity|discriminate]. }
  split; [exact Hwf|]. split.
  - exact (proj1 (proj2 (handlers_keep_calls_wellFormed Scenario.dailyUp [] Scenario.day2
                   "g1" "c2" "n1" Scenario.bob "alice" "c1"
                   (Scenario.callDb VideoCall.pending) Hwf))).
  - vm_compute. discriminate.
Defined.

Ltac notification_throws :=
  repeat match goal with
    | |- context [NotificationService.createNotification ?s ?i ?u
                    (NotificationService.Str ?t :: ?r)] =>
        let e := fresh "e" in
        let He := fresh "He" in
        destruct (createNotification_string_throws s i u t r) as [e He];
        rewrite He
    end.

Ltac same_branch :=
  repeat (match goal with
          | |- snd (match ?c with _ => _ end) = _ => destruct c eqn:?
          | |- snd (if ?c then _ else _) = _ => destruct c eqn:?
          end; cbv beta iota);
  try reflexivity.

(** The two transports write the same data: PUT /:callId/accept and the
    socket's call_accept leave the same database behind, and so do
    PUT /:callId/decline and call_decline; PUT /:callId/end either changes
    nothing or leaves what call_end leaves. *)
Theorem rest_and_socket_store_the_same
        (daily : DailyService.Api) (now : JsDate) (notifId : ObjectId)
        (user : Caller) (callId : ObjectId) (db : Db) :
  snd (VideoCallRoutes.accept daily now notifId user callId db)
  = snd (VideoCallSocket.onCallAccept daily now notifId user callId db)
  /\ snd (VideoCallRoutes.decline daily now notifId user callId db)
     = snd (VideoCallSocket.onCallDecline daily now notifId user callId db)
  /\ (snd (VideoCallRoutes.endCall daily now notifId user callId db) = db
      \/ snd (VideoCallRoutes.endCall daily now notifId user callId db)
         = snd (VideoCallSocket.onCallEnd daily now notifId user callId db)).
Proof.
  split; [|split].
  - unfold VideoCallRoutes.accept, VideoCallSocket.onCallAccept,
      VideoCallRoutes.callNotification. cbv zeta.
    notification_throws. same_branch.
  - unfold VideoCallRoutes.decline, VideoCallSocket.onCallDecline,
      VideoCallRoutes.callNotification. cbv zeta.
    notification_throws. same_branch.
  - unfold VideoCallRoutes.endCall, VideoCallSocket.onCallEnd,
      VideoCallRoutes.callNotification, VideoCallRoutes.durationSince. cbv zeta.
    destruct (VideoCall.findById (videoCalls db) callId) as [videoCall|];
      [|now left].
    destruct (negb (VideoCall.includes _ _)); [now left|].
    destruct (negb (VideoCall.Status_eqb _ _)) eqn:Hst; [now left|].
    apply negb_false_iff, Status_eqb_eq in Hst. rewrite Hst.
    destruct (VideoCall.startTime videoCall) as [st|] eqn:Hstart; cbn [bind];
      [|now left].
    right.
    assert (Hsame :
              VideoCall.setDuration
                (VideoCall.setEndTime
                   (VideoCall.setStatus videoCall VideoCall.ended) now)
                (secondsBetween now st)
              = VideoCall.setStatus
                  (VideoCall.setDuration (VideoCall.setEndTime videoCall now)
                                         (secondsBetween now st))
                  VideoCall.ended) by reflexivity.
    rewrite Hsame.
    destruct (VideoCall.save _ _) as [[saved calls]|]; [|reflexivity].
    destruct (DailyService.deleteRoom _ _); [|reflexivity].
    destruct (VideoCall.otherParticipant saved (callerId user)); [|reflexivity].
    notification_throws. reflexivity.
Qed.

(** Saving a well-formed document that is already stored replaces it. *)
Lemma save_existing (v old : VideoCall.t) (store : list VideoCall.t) :
  wellFormed v ->
  VideoCall.findById store (VideoCall._id v) = Some old ->
  VideoCall.save v store
  = Ok (VideoCall.preSaveDuration v,
        map (fun x => if VideoCall._id x === VideoCall._id v
                      then VideoCall.preSaveDuration v else x) store).
Proof.
  intros Hwf Hold. unfold VideoCall.save.
  rewrite (wellFormed_validate v Hwf), (wellFormed_hook v Hwf). cbn [negb bind].
  destruct (preSaveDuration_keeps v) as [Hid _]. rewrite Hid, Hold.
  reflexivity.
Qed.

Lemma accept_calls (daily : DailyService.Api) (now : JsDate) (notifId : ObjectId)
      (user : Caller) (callId : ObjectId) (db : Db) (v : VideoCall.t) :
  VideoCall.findById (videoCalls db) callId = Some v ->
  wellFormed v ->
  VideoCall.status v = VideoCall.pending ->
  VideoCall.includes v (callerId user) = true ->
  videoCalls (snd (VideoCallRoutes.accept daily now notifId user callId db))
  = map (fun x => if VideoCall._id x === VideoCall._id v
                  then VideoCall.setStartTime
                         (VideoCall.setStatus v VideoCall.active) now
                  else x) (videoCalls db).
Proof.
  intros Hfind Hwf Hst Hin.
  unfold VideoCallRoutes.accept, VideoCallRoutes.callNotification. cbv zeta.
  rewrite Hfind, Hin, Hst. cbn [negb VideoCall.Status_eqb].
  pose proof (findById_id _ _ _ Hfind) as Hid.
  rewrite (save_existing
             (VideoCall.setStartTime (VideoCall.setStatus v VideoCall.active) now)
             v (videoCalls db)); [|exact Hwf|cbn [VideoCall._id VideoCall.setStartTime
                                                   VideoCall.setStatus];
                                             now rewrite Hid].
  notification_throws.
  destruct (DailyService.generateRoomToken _ _ _); reflexivity.
Qed.

Lemma end_calls (daily : DailyService.Api) (now st : JsDate) (notifId : ObjectId)
      (user : Caller) (callId : ObjectId) (db : Db) (v : VideoCall.t) :
  VideoCall.findById (videoCalls db) callId = Some v ->
  wellFormed v ->
  VideoCall.status v = VideoCall.active ->
  VideoCall.startTime v = Some st ->
  VideoCall.includes v (callerId user) = true ->
  videoCalls (snd (VideoCallRoutes.endCall daily now notifId user callId db))
  = map (fun x => if VideoCall._id x === VideoCall._id v
                  then VideoCall.mk (VideoCall._id v) (VideoCall.callId v)
                         (VideoCall.participants v) (VideoCall.initiatorId v)
                         VideoCall.ended (Some st) (Some now)
                         (secondsBetween now st)
                         (VideoCall.dailyRoomUrl v) (VideoCall.dailyRoomName v)
                  else x) (videoCalls db).
Proof.
  intros Hfind Hwf Hst Hstart Hin.
  unfold VideoCallRoutes.endCall, VideoCallRoutes.callNotification,
    VideoCallRoutes.durationSince. cbv zeta.
  rewrite Hfind, Hin, Hst, Hstart. cbn [negb VideoCall.Status_eqb bind].
  pose proof (findById_id _ _ _ Hfind) as Hid.
  rewrite (save_existing
             (VideoCall.setDuration
                (VideoCall.setEndTime (VideoCall.setStatus v VideoCall.ended) now)
                (secondsBetween now st))
             v (videoCalls db)); [|exact Hwf|cbn; now rewrite Hid].
  assert (Hdoc : VideoCall.preSaveDuration
                   (VideoCall.setDuration
                      (VideoCall.setEndTime
                         (VideoCall.setStatus v VideoCall.ended) now)
                      (secondsBetween now st))
                 = VideoCall.mk (VideoCall._id v) (VideoCall.callId v)
                     (VideoCall.participants v) (VideoCall.initiatorId v)
                     VideoCall.ended (Some st) (Some now)
                     (secondsBetween now st)
                     (VideoCall.dailyRoomUrl v) (VideoCall.dailyRoomName v)).
  { unfold VideoCall.preSaveDuration, VideoCall.setDuration,
      VideoCall.setEndTime, VideoCall.setStatus. cbn. rewrite Hstart.
    destruct (secondsBetween now st =? 0); reflexivity. }
  rewrite Hdoc. notification_throws.
  destruct (DailyService.deleteRoom _ _); reflexivity.
Qed.

(** A call accepted at [tAccept] and ended at [tEnd] through the REST
    routes is stored as ended with startTime = tAccept (the accept
    overwrites the start time written at initiation), endTime = tEnd and
    duration = floor((tEnd - tAccept) / 1000) seconds, whatever Daily.co
    and the notification step answer. *)
Theorem accept_then_end_records_duration
        (daily : DailyService.Api) (tAccept tEnd : JsDate)
        (notifId notifId' : ObjectId) (callee ender : Caller)
        (callId : ObjectId) (db : Db) (v : VideoCall.t) :
  VideoCall.findById (videoCalls db) callId = Some v ->
  wellFormed v ->
  VideoCall.status v = VideoCall.pending ->
  VideoCall.includes v (callerId callee) = true ->
  VideoCall.includes v (callerId ender) = true ->
  VideoCall.findById
    (videoCalls
       (snd (VideoCallRoutes.endCall daily tEnd notifId' ender callId
               (snd (VideoCallRoutes.accept daily tAccept notifId callee
                       callId db)))))
    callId
  = Some (VideoCall.mk (VideoCall._id v) (VideoCall.callId v)
            (VideoCall.participants v) (VideoCall.initiatorId v)
            VideoCall.ended (Some tAccept) (Some tEnd)
            (secondsBetween tEnd tAccept)
            (VideoCall.dailyRoomUrl v) (VideoCall.dailyRoomName v)).
Proof.
  intros Hfind Hwf Hst Hcallee Hender.
  pose proof (findById_id _ _ _ Hfind) as Hid.
  pose proof (accept_calls daily tAccept notifId callee callId db v
                Hfind Hwf Hst Hcallee) as Hacc.
  set (db1 := snd (VideoCallRoutes.accept daily tAccept notifId callee callId db))
    in *.
  set (v1 := VideoCall.setStartTime (VideoCall.setStatus v VideoCall.active)
                                    tAccept) in *.
  assert (Hfind1 : VideoCall.findById (videoCalls db1) callId = Some v1).
  { rewrite Hacc.
    change (fun x : VideoCall.t => if VideoCall._id x === VideoCall._id v
                                   then v1 else x)
      with (fun x : VideoCall.t => if VideoCall._id x === VideoCall._id v1
                                   then v1 else x).
    rewrite findById_replace, Hfind. cbn [option_map].
    change (VideoCall._id v1) with (VideoCall._id v).
    now rewrite String.eqb_refl. }
  rewrite (end_calls daily tEnd tAccept notifId' ender callId db1 v1 Hfind1);
    [|exact Hwf|reflexivity|reflexivity|exact Hender].
  set (v2 := VideoCall.mk _ _ _ _ _ _ _ _ _ _).
  change (fun x : VideoCall.t => if VideoCall._id x === VideoCall._id v1
                                 then v2 else x)
    with (fun x : VideoCall.t => if VideoCall._id x === VideoCall._id v2
                                 then v2 else x).
  rewrite findById_replace, Hfind1. cbn [option_map].
  change (VideoCall._id v1) with (VideoCall._id v2).
  now rewrite String.eqb_refl.
Qed.

Lemma accept_then_end_records_duration_witness :
  VideoCall.findById
    (videoCalls
       (snd (VideoCallRoutes.endCall Scenario.dailyUp (Scenario.day2 + 61500)
               "n2" Scenario.alice "c1"
               (snd (VideoCallRoutes.accept Scenario.dailyUp
                       (Scenario.day2 + 1000) "n1" Scenario.bob "c1"
                       (Scenario.callDb VideoCall.pending))))))
    "c1"
  = Some (VideoCall.mk "c1" "relacio-call-1" ["alice"; "bob"] "alice"
            VideoCall.ended (Some (Scenario.day2 + 1000))
            (Some (Scenario.day2 + 61500)) 60
            (Some "https://relacio.daily.co/relacio-call-1")
            (Some "relacio-call-1")).
Proof.
  apply (accept_then_end_records_duration Scenario.dailyUp
           (Scenario.day2 + 1000) (Scenario.day2 + 61500) "n1" "n2"
           Scenario.bob Scenario.alice "c1"
           (Scenario.callDb VideoCall.pending)
           (Scenario.callIn VideoCall.pending)).
  - reflexivity.
  - repeat split.
    + exists "alice", "bob". repeat split; auto. discriminate.
    + discriminate.
    + eexists. split; [reflexivity|discriminate].
    + eexists. split; [reflexivity|discriminate].
  - reflexivity.
  - reflexivity.
  - reflexivity.
Defined.

End CallCollection.

(** ** Inboxes *)

Section MessageUnread.

Import MessageInbox.

Lemma setRead_not_unread (now : JsDate) (conv uid : ObjectId) (m : Message.t) :
  unreadFor conv uid (Message.setRead m now) = false.
Proof. unfold unreadFor. cbn. now rewrite andb_false_r. Qed.

Lemma bulk_read_clears (now : JsDate) (store : list Message.t)
      (conv uid : ObjectId) :
  countUnreadInConversation
    (Message.markConversationAsRead now store conv uid) conv uid = 0%nat.
Proof.
  unfold countUnreadInConversation, Message.markConversationAsRead.
  induction store as [|m rest IH]; [reflexivity|].
  cbn [map filter].
  destruct ((Message.conversationId m === conv)
            && negb (Message.senderId m === uid)
            && negb (Message.isRead m)) eqn:E.
  - rewrite setRead_not_unread. exact IH.
  - unfold unreadFor at 1. rewrite E. exact IH.
Qed.

(** After the bulk read of a conversation the reader's unread count of it
    is 0; the unread counts of every other conversation, the messages the
    reader sent and the order and identity of the stored messages are as
    before. *)
Theorem bulk_read_clears_unread_count
        (now : JsDate) (store : list Message.t) (conv uid : ObjectId) :
  countUnreadInConversation
    (Message.markConversationAsRead now store conv uid) conv uid = 0%nat
  /\ (forall conv' uid',
        conv' <> conv ->
        countUnreadInConversation
          (Message.markConversationAsRead now store conv uid) conv' uid'
        = countUnreadInConversation store conv' uid')
  /\ filter (fun m => Message.senderId m === uid)
            (Message.markConversationAsRead now store conv uid)
     = filter (fun m => Message.senderId m === uid) store
  /\ map Message._id (Message.markConversationAsRead now store conv uid)
     = map Message._id store.
Proof.
  split; [apply bulk_read_clears|].
  unfold countUnreadInConversation, Message.markConversationAsRead.
  repeat split.
  - intros conv' uid' Hne.
    induction store as [|m rest IH]; [reflexivity|].
    cbn [map filter].
    destruct ((Message.conversationId m === conv)
              && negb (Message.senderId m === uid)
              && negb (Message.isRead m)) eqn:E.
    + rewrite setRead_not_unread.
      apply andb_true_iff in E. destruct E as [E _].
      apply andb_true_iff in E. destruct E as [E _].
      apply String.eqb_eq in E.
      unfold unreadFor at 2. rewrite E.
      destruct (String.eqb_spec conv conv') as [Heq|_];
        [now elim Hne|]. cbn [andb]. exact IH.
    + destruct (unreadFor conv' uid' m); cbn [List.length]; now rewrite IH.
  - induction store as [|m rest IH]; [reflexivity|].
    cbn [map filter].
    destruct ((Message.conversationId m === conv)
              && negb (Message.senderId m === uid)
              && negb (Message.isRead m)) eqn:E.
    + apply andb_true_iff in E. destruct E as [E _].
      apply andb_true_iff in E. destruct E as [_ E].
      apply negb_true_iff in E.
      cbn [Message.senderId Message.setRead]. rewrite E. exact IH.
    + destruct (Message.senderId m === uid); now rewrite IH.
  - induction store as [|m rest IH]; [reflexivity|].
    cbn [map]. rewrite IH.
    now destruct ((Message.conversationId m === conv)
                  && negb (Message.senderId m === uid)
                  && negb (Message.isRead m)).
Qed.

End MessageUnread.

Section NotificationUnread.

Import NotificationInbox.

Lemma setIsRead_not_unread (uid : ObjectId) (n : Notification.t) :
  unread uid (NotificationRead.setIsRead n) = false.
Proof. unfold unread. cbn. now rewrite andb_false_r. Qed.

Lemma updateManyRead_count (store : list Notification.t) (uid : ObjectId) :
  countUnread (snd (updateManyRead store uid)) uid = 0%nat.
Proof.
  unfold countUnread, updateManyRead. cbn [snd].
  induction store as [|n rest IH]; [reflexivity|].
  cbn [map filter]. destruct (unread uid n) eqn:E.
  - now rewrite setIsRead_not_unread.
  - now rewrite E.
Qed.

Lemma updateManyRead_others (store : list Notification.t) (uid : ObjectId) :
  filter (fun n => negb (Notification.userId n === uid))
         (snd (updateManyRead store uid))
  = filter (fun n => negb (Notification.userId n === uid)) store.
Proof.
  unfold updateManyRead. cbn [snd].
  induction store as [|n rest IH]; [reflexivity|].
  cbn [map filter]. destruct (unread uid n) eqn:E.
  - apply andb_true_iff in E. destruct E as [E _].
    cbn [NotificationRead.setIsRead Notification.userId]. rewrite E.
    exact IH.
  - destruct (negb (Notification.userId n === uid)); now rewrite IH.
Qed.

Lemma updateManyRead_readAt (store : list Notification.t) (uid : ObjectId) :
  map Notification.readAt (snd (updateManyRead store uid))
  = map Notification.readAt store.
Proof.
  unfold updateManyRead. cbn [snd].
  induction store as [|n rest IH]; [reflexivity|].
  cbn [map]. rewrite IH. now destruct (unread uid n).
Qed.

Lemma markAllAsRead_count (now : JsDate) (store : list Notification.t)
      (uid : ObjectId) :
  countUnread (markAllAsRead now store uid) uid = 0%nat.
Proof.
  unfold countUnread, markAllAsRead.
  induction store as [|n rest IH]; [reflexivity|].
  cbn [map filter]. destruct (unread uid n) eqn:En.
  - unfold unread at 1. cbn. rewrite andb_false_r. exact IH.
  - rewrite En. exact IH.
Qed.

(** Marking all notifications read, by the route or by the socket: the
    caller's unread count afterwards is 0, which is the count the socket
    sends as a literal; [markedCount] is the unread count before; the
    notifications of other users are untouched; and no [readAt] is written,
    while the model's own static stamps [readAt] on what it marks. *)
Theorem mark_all_read_clears_unread (now : JsDate) (user : Caller) (db : Db) :
  countUnread (notifications (snd (markAllReadRoute user db))) (callerId user)
  = 0%nat
  /\ snd (fst (markAllReadRoute user db))
     = countUnread (notifications db) (callerId user)
  /\ fst (onMarkAllNotificationsRead user db)
     = [AllNotificationsRead (countUnread (notifications db) (callerId user));
        UnreadCountUpdated
          (countUnread (notifications (snd (onMarkAllNotificationsRead user db)))
                       (callerId user))]
  /\ snd (onMarkAllNotificationsRead user db) = snd (markAllReadRoute user db)
  /\ filter (fun n => negb (Notification.userId n === callerId user))
            (notifications (snd (markAllReadRoute user db)))
     = filter (fun n => negb (Notification.userId n === callerId user))
              (notifications db)
  /\ map Notification.readAt (notifications (snd (markAllReadRoute user db)))
     = map Notification.readAt (notifications db)
  /\ countUnread (markAllAsRead now (notifications db) (callerId user))
                 (callerId user) = 0%nat
  /\ (forall n,
        In n (notifications db) ->
        unread (callerId user) n = true ->
        exists n',
          In n' (markAllAsRead now (notifications db) (callerId user))
          /\ Notification._id n' = Notification._id n
          /\ Notification.isRead n' = true
          /\ Notification.readAt n' = Some now).
Proof.
  pose proof (updateManyRead_count (notifications db) (callerId user)) as Hc.
  pose proof (updateManyRead_others (notifications db) (callerId user)) as Ho.
  pose proof (updateManyRead_readAt (notifications db) (callerId user)) as Hr.
  unfold markAllReadRoute, onMarkAllNotificationsRead.
  destruct (updateManyRead (notifications db) (callerId user))
    as [markedCount ns] eqn:E.
  cbn [fst snd notifications withNotifications] in *.
  assert (Hm : markedCount = countUnread (notifications db) (callerId user)).
  { unfold updateManyRead in E. now injection E as <- _. }
  repeat split; try assumption.
  - now rewrite Hc, Hm.
  - apply markAllAsRead_count.
  - intros n Hin Hun. unfold markAllAsRead.
    eexists. split.
    + apply in_map_iff. exists n. split; [reflexivity|exact Hin].
    + rewrite Hun. cbn. auto.
Qed.

End NotificationUnread.

Section NotificationStore.

Import NotificationInbox.

Lemma findOne_some (store : list Notification.t) (id uid : ObjectId)
      (n : Notification.t) :
  Notification.findOne store id uid = Some n ->
  In n store /\ Notification._id n = id /\ Notification.userId n = uid.
Proof.
  unfold Notification.findOne. intros H. apply find_some in H.
  destruct H as [Hin H]. apply andb_true_iff in H. destruct H as [H1 H2].
  apply String.eqb_eq in H1, H2. auto.
Qed.

Lemma replace_absent (store : list Notification.t) (id : ObjectId)
      (v : Notification.t) :
  ~ In id (map Notification._id store) ->
  map (fun x => if Notification._id x === id then v else x) store = store.
Proof.
  induction store as [|x rest IH]; [reflexivity|].
  cbn [map]. intros Hno.
  destruct (String.eqb_spec (Notification._id x) id) as [Heq|_].
  - elim Hno. now left.
  - rewrite IH; [reflexivity|]. intros Hin. apply Hno. now right.
Qed.

(** Replacing the found unread notification by its read copy takes one
    from its owner's unread count and nothing from anybody else's. *)
Lemma replace_read_count (store : list Notification.t) (id uid : ObjectId)
      (n : Notification.t) (uid' : ObjectId) :
  NoDup (map Notification._id store) ->
  Notification.findOne store id uid = Some n ->
  Notification.isRead n = false ->
  (countUnread
     (map (fun x => if Notification._id x
                       === Notification._id (NotificationRead.setIsRead n)
                    then NotificationRead.setIsRead n else x) store) uid'
   + (if uid === uid' then 1 else 0))%nat
  = countUnread store uid'.
Proof.
  unfold countUnread.
  change (Notification._id (NotificationRead.setIsRead n))
    with (Notification._id n).
  induction store as [|x rest IH]; [discriminate|].
  intros Hnd Hfind Hunread. inversion Hnd as [|? ? Hnotin Hnd']. subst.
  unfold Notification.findOne in Hfind. cbn [find] in Hfind.
  destruct ((Notification._id x === id) && (Notification.userId x === uid))
    eqn:Hx.
  - injection Hfind as ->.
    apply andb_true_iff in Hx. destruct Hx as [_ Hu].
    apply String.eqb_eq in Hu.
    cbn [map]. rewrite String.eqb_refl.
    rewrite (replace_absent rest (Notification._id n)
               (NotificationRead.setIsRead n) Hnotin).
    cbn [filter]. rewrite setIsRead_not_unread.
    unfold unread at 2. rewrite Hu, Hunread. cbn [negb].
    rewrite andb_true_r.
    destruct (uid === uid'); cbn [List.length]; lia.
  - destruct (findOne_some rest id uid n Hfind) as (Hin & Hid & _).
    cbn [map].
    destruct (String.eqb_spec (Notification._id x) (Notification._id n))
      as [Heq|_].
    + elim Hnotin. rewrite Heq. now apply in_map.
    + cbn [filter].
      specialize (IH Hnd' Hfind Hunread).
      destruct (unread uid' x); cbn [List.length]; lia.
Qed.

(** A successful single read, by the route or by the socket, lowers the
    caller's unread count by exactly one and leaves every other user's
    count as it was; the socket handler stores what the route stores. *)
Theorem single_read_decrements_unread
        (user : Caller) (notificationId : ObjectId) (db : Db) :
  NoDup (map Notification._id (notifications db)) ->
  fst (NotificationRead.route user notificationId db)
  = Json HTTP_STATUS.OK true "Notification marked as read" ->
  S (countUnread (notifications (snd (NotificationRead.route user
                                        notificationId db)))
                 (callerId user))
  = countUnread (notifications db) (callerId user)
  /\ (forall other,
        other <> callerId user ->
        countUnread (notifications (snd (NotificationRead.route user
                                           notificationId db))) other
        = countUnread (notifications db) other)
  /\ snd (NotificationRead.onNotificationRead user notificationId db)
     = snd (NotificationRead.route user notificationId db).
Proof.
  intros Hnd. unfold NotificationRead.route, NotificationRead.onNotificationRead.
  destruct (Notification.findOne (notifications db) notificationId
              (callerId user)) as [n|] eqn:Hfind; [|discriminate].
  destruct (Notification.isRead n) eqn:Hread; [discriminate|].
  unfold Notification.update.
  destruct (Notification.validate (NotificationRead.setIsRead n));
    [|discriminate].
  cbn [fst snd notifications withNotifications]. intros _.
  repeat split.
  - pose proof (replace_read_count _ _ _ _ (callerId user) Hnd Hfind Hread) as H.
    rewrite String.eqb_refl in H. lia.
  - intros other Hne.
    pose proof (replace_read_count _ _ _ _ other Hnd Hfind Hread) as H.
    destruct (String.eqb_spec (callerId user) other) as [Heq|_];
      [now elim Hne|]. lia.
Qed.

Lemma single_read_decrements_unread_witness :
  S (countUnread
       (notifications (snd (NotificationRead.route InboxScenario.alice "n1"
                              InboxScenario.inboxDb))) "alice")
  = countUnread (notifications InboxScenario.inboxDb) "alice"
  /\ countUnread (notifications InboxScenario.inboxDb) "alice" = 1%nat.
Proof.
  split; [|reflexivity].
  apply (single_read_decrements_unread InboxScenario.alice "n1"
           InboxScenario.inboxDb).
  - cbn. repeat constructor; cbn; intuition discriminate.
  - reflexivity.
Defined.

Lemma delete_found (store : list Notification.t) (id uid : ObjectId)
      (n : Notification.t) :
  NoDup (map Notification._id store) ->
  Notification.findOne store id uid = Some n ->
  filter (fun x => negb (Notification.userId x === uid))
         (findByIdAndDelete store id)
  = filter (fun x => negb (Notification.userId x === uid)) store
  /\ S (countAll (findByIdAndDelete store id) uid) = countAll store uid
  /\ ~ In id (map Notification._id (findByIdAndDelete store id)).
Proof.
  unfold countAll.
  induction store as [|x rest IH]; [discriminate|].
  intros Hnd Hfind. inversion Hnd as [|? ? Hnotin Hnd']. subst.
  unfold Notification.findOne in Hfind. cbn [find] in Hfind.
  cbn [findByIdAndDelete].
  destruct ((Notification._id x === id) && (Notification.userId x === uid))
    eqn:Hx.
  - apply andb_true_iff in Hx. destruct Hx as [Hi Hu]. rewrite Hi.
    cbn [filter]. rewrite Hu. cbn [negb List.length].
    apply String.eqb_eq in Hi. subst id. auto.
  - destruct (findOne_some rest id uid n Hfind) as (Hin & Hid & _).
    destruct (String.eqb_spec (Notification._id x) id) as [Heq|Hne].
    + elim Hnotin. rewrite Heq, <- Hid. now apply in_map.
    + destruct (IH Hnd' Hfind) as (H1 & H2 & H3).
      cbn [filter map]. rewrite H1. repeat split.
      * destruct (Notification.userId x === uid); cbn [List.length]; lia.
      * intros [Heq|Hin']; [now elim Hne|now elim H3].
Qed.

(** DELETE /:notificationId removes nothing of another user's: their
    notifications are the same, in the same order, whatever id is named;
    the route answers 404 and changes nothing, or answers 200 and the
    caller has exactly one notification less, the named id being gone. *)
Theorem delete_route_owner_only
        (user : Caller) (notificationId : ObjectId) (db : Db) :
  NoDup (map Notification._id (notifications db)) ->
  filter (fun x => negb (Notification.userId x === callerId user))
         (notifications (snd (deleteRoute user notificationId db)))
  = filter (fun x => negb (Notification.userId x === callerId user))
           (notifications db)
  /\ ((fst (deleteRoute user notificationId db)
       = Json HTTP_STATUS.NOT_FOUND false "Notification not found"
       /\ snd (deleteRoute user notificationId db) = db)
      \/ (fst (deleteRoute user notificationId db)
          = Json HTTP_STATUS.OK true "Notification deleted successfully"
          /\ S (countAll (notifications (snd (deleteRoute user notificationId
                                                db))) (callerId user))
             = countAll (notifications db) (callerId user)
          /\ ~ In notificationId
                  (map Notification._id
                       (notifications (snd (deleteRoute user notificationId
                                              db)))))).
Proof.
  intros Hnd. unfold deleteRoute.
  destruct (Notification.findOne (notifications db) notificationId
              (callerId user)) as [n|] eqn:Hfind.
  - destruct (delete_found _ _ _ _ Hnd Hfind) as (H1 & H2 & H3).
    cbn [fst snd notifications withNotifications].
    split; [exact H1|]. right. auto.
  - cbn [fst snd]. split; [reflexivity|]. left. auto.
Qed.

Lemma delete_route_owner_only_witness :
  filter (fun x => negb (Notification.userId x === "alice"))
         (notifications (snd (deleteRoute InboxScenario.alice "n2"
                                InboxScenario.inboxDb)))
  = [InboxScenario.note2]
  /\ fst (deleteRoute InboxScenario.alice "n2" InboxScenario.inboxDb)
     = Json HTTP_STATUS.NOT_FOUND false "Notification not found".
Proof.
  split; [|reflexivity].
  refine (eq_trans
            (proj1 (delete_route_owner_only InboxScenario.alice "n2"
                      InboxScenario.inboxDb _)) _).
  - cbn. repeat constructor; cbn; intuition discriminate.
  - reflexivity.
Defined.

End NotificationStore.

Section NotificationSending.

Import NotificationInbox.

(** A caller who is not an admin can create a notification for nobody but
    themselves: a payload addressed to another user is refused and nothing
    is stored; otherwise the handler stores nothing or appends one valid,
    unread notification addressed to the caller. *)
Theorem non_admin_notifies_self_only
        (role : string) (socket : Caller) (data : NewNotification)
        (newId : ObjectId) (db : Db) :
  role <> "admin" ->
  (recipientId data <> callerId socket ->
   onNewNotification role socket data newId db
   = ([Emit "error" "Unauthorized to send notifications to other users"], db))
  /\ (notifications (snd (onNewNotification role socket data newId db))
      = notifications db
      \/ exists n,
          notifications (snd (onNewNotification role socket data newId db))
          = (notifications db ++ [n])%list
          /\ Notification.userId n = callerId socket
          /\ Notification.isRead n = false
          /\ Notification.validate n = true).
Proof.
  intros Hrole. unfold onNewNotification.
  destruct (String.eqb_spec role "admin") as [Heq|_]; [now elim Hrole|].
  cbn [negb andb].
  destruct (String.eqb_spec (recipientId data) (callerId socket)) as [Heq|Hne];
    cbn [negb].
  - split; [intros Hne; now elim Hne|].
    unfold Notification.save.
    destruct (Notification.validate _) eqn:Hv; [|now left].
    right. eexists. cbn [snd notifications withNotifications].
    split; [reflexivity|]. cbn [Notification.userId Notification.isRead].
    auto.
  - split; [reflexivity|]. now left.
Qed.

Lemma non_admin_notifies_self_only_witness :
  onNewNotification "user" InboxScenario.bob
    (mkNew "alice" (Some "like") (Some "Hello") (Some "A note") None)
    "n4" InboxScenario.inboxDb
  = ([Emit "error" "Unauthorized to send notifications to other users"],
     InboxScenario.inboxDb)
  /\ notifications
       (snd (onNewNotification "user" InboxScenario.bob
               (mkNew "bob" (Some "like") (Some "Hello") (Some "A note") None)
               "n4" InboxScenario.inboxDb))
     = (notifications InboxScenario.inboxDb
        ++ [Notification.mk "n4" "bob" (Some "like") (Some "Hello")
              (Some "A note") (Some "bob") false None])%list.
Proof.
  split; [|reflexivity].
  apply (non_admin_notifies_self_only "user" InboxScenario.bob
           (mkNew "alice" (Some "like") (Some "Hello") (Some "A note") None)
           "n4" InboxScenario.inboxDb); discriminate.
Defined.

End NotificationSending.

Section MessageSending.

Import ChatSend.

Lemma create_text_only (now : JsDate) (m saved : Message.t)
      (store store' : list Message.t) :
  Message.fileName m = None ->
  Message.fileUrl m = None ->
  create now m store = Ok (saved, store') ->
  store' = (store ++ [saved])%list
  /\ saved = Message.preSaveExpiry now m
  /\ Message.type m = Message.text
  /\ exists s, Message.content m = Some s /\ s <> ""
               /\ (String.length s <= 1000)%nat.
Proof.
  intros Hname Hurl. unfold create, Message.validate.
  rewrite Hname, Hurl.
  destruct (Message.type m) eqn:Hty; cbn [requiredString andb negb];
    try discriminate.
  destruct (Message.content m) as [s|] eqn:Hc; cbn [requiredString andb negb];
    [|discriminate].
  destruct (String.eqb_spec s "") as [->|Hne]; cbn [negb andb]; [discriminate|].
  destruct (Nat.leb (String.length s) 1000) eqn:Hlen; cbn [negb]; [|discriminate].
  intros [= <- <-]. apply Nat.leb_le in Hlen. eauto 8.
Qed.

Lemma preSaveExpiry_keeps (now : JsDate) (m : Message.t) :
  Message._id (Message.preSaveExpiry now m) = Message._id m
  /\ Message.conversationId (Message.preSaveExpiry now m) = Message.conversationId m
  /\ Message.senderId (Message.preSaveExpiry now m) = Message.senderId m
  /\ Message.content (Message.preSaveExpiry now m) = Message.content m
  /\ Message.type (Message.preSaveExpiry now m) = Message.type m
  /\ Message.isRead (Message.preSaveExpiry now m) = Message.isRead m
  /\ Message.readAt (Message.preSaveExpiry now m) = Message.readAt m.
Proof.
  unfold Message.preSaveExpiry.
  destruct (Message.isDisappearing m); [|auto 8].
  destruct (Message.expiresAt m); cbn; auto 8.
Qed.

(** The expiry the handler computed is the one stored: the hook writes an
    expiry only where a disappearing message has none. *)
Lemma expiry_stored (now : JsDate) (flag : bool) (hours : Z)
      (e : option JsDate) (m : Message.t) :
  expiryOf now flag hours = Ok e ->
  Message.isDisappearing m = flag ->
  Message.expiresAt m = e ->
  Message.expiresAt (Message.preSaveExpiry now m) = e.
Proof.
  unfold expiryOf, Message.preSaveExpiry. intros He Hflag Hexp.
  rewrite Hflag. destruct flag; [|exact Hexp].
  destruct (timeClip _) as [t|]; [|discriminate].
  injection He as <-. now rewrite Hexp.
Qed.

Lemma expiryOf_valid (now : JsDate) (flag : bool) (hours : Z)
      (e : option JsDate) :
  expiryOf now flag hours = Ok e ->
  match e with
  | Some t => flag = true /\ Z.abs t <= 8640000000000000
  | None => flag = false
  end.
Proof.
  unfold expiryOf, timeClip. destruct flag.
  - destruct (Z.leb_spec (Z.abs (js_add now
                                   (js_mul (js_mul (js_mul hours 60) 60) 1000)))
                         8640000000000000); [|discriminate].
    intros [= <-]. auto.
  - now intros [= <-].
Qed.

Lemma conversation_save_cases (c : Conversation.t) (store cs : list Conversation.t) :
  Conversation.save c store = Ok cs ->
  cs = map (fun x => if Conversation._id x === Conversation._id c then c else x)
           store.
Proof.
  unfold Conversation.save, Conversation.preSave.
  destruct (Conversation.participants c) as [|p0 [|p1 [|]]]; try discriminate.
  destruct (p0 === p1); [discriminate|]. cbn [bind]. now intros [= <-].
Qed.

(** The send_message handler stores nothing, or appends exactly one message
    and may stamp the conversation with it.  The message is a text message
    (image and file messages never pass validation, the handler passing no
    file name or URL) with the new id, sent by the caller into a stored
    conversation the caller takes part in, unread, with a non-empty content
    of at most 1000 characters and the expiry the handler computed, a valid
    date.  Of the conversations only the addressed one can change, and only
    in lastMessage and lastMessageAt.  No notification is stored and the
    users, matches and calls stay. *)
Theorem send_message_stores_text_only
        (io : Connections) (now later : JsDate) (newId notifId : ObjectId)
        (socket : Caller) (data : SendMessage) (db : Db) :
  let r := onSendMessage io now later newId notifId socket data db in
  users (after r) = users db
  /\ matches (after r) = matches db
  /\ videoCalls (after r) = videoCalls db
  /\ notifications (after r) = notifications db
  /\ ((messages (after r) = messages db
       /\ conversations (after r) = conversations db)
      \/ exists m c,
          messages (after r) = (messages db ++ [m])%list
          /\ sentBy socket data newId now db m c
          /\ (conversations (after r) = conversations db
              \/ conversations (after r)
                 = map (fun x => if Conversation._id x === Conversation._id c
                                 then stamp c newId later else x)
                       (conversations db))).
Proof.
  cbv zeta. unfold onSendMessage.
  destruct (Conversation.findById (conversations db) (conversationId data))
    as [c|] eqn:Hfind; [|cbn; repeat split; auto].
  destruct (Conversation.includes c (callerId socket)) eqn:Hin;
    cbn [negb]; [|cbn; repeat split; auto].
  destruct (kindOf (typeOf data)) as [kind|]; [|cbn; repeat split; auto].
  destruct (expiryOf now (isDisappearingOf data) (disappearTimeOf data))
    as [e|] eqn:Hexp; [|cbn; repeat split; auto].
  destruct (create now _ (messages db)) as [[saved ms]|] eqn:Hcreate;
    [|cbn; repeat split; auto].
  apply create_text_only in Hcreate; [|reflexivity|reflexivity].
  destruct Hcreate as (Hms & Hsaved & Hty & s & Hc & Hne & Hlen).
  match type of Hsaved with
  | _ = Message.preSaveExpiry _ ?m =>
      destruct (preSaveExpiry_keeps now m)
        as (K1 & K2 & K3 & K4 & K5 & K6 & K7);
      pose proof (expiry_stored now _ _ e m Hexp eq_refl eq_refl) as K8
  end.
  rewrite <- Hsaved in K1, K2, K3, K4, K5, K6, K7, K8.
  cbn in K1, K2, K3, K4, K5, K6, K7, Hty, Hc.
  assert (Hdoc : sentBy socket data newId now db saved c).
  { unfold sentBy. rewrite Hfind, K8, Hexp.
    pose proof (expiryOf_valid _ _ _ _ Hexp) as Hvalid.
    repeat split; try assumption; try congruence.
    exists s. repeat split; try assumption. congruence. }
  rewrite K1.
  destruct (Conversation.save (stamp c newId later)
                              (conversations (withMessages db ms)))
    as [cs|] eqn:Hsave.
  2:{ cbn. repeat split; auto. right. exists saved, c. rewrite Hms. auto. }
  apply conversation_save_cases in Hsave.
  cbn [conversations withMessages stamp Conversation._id] in Hsave.
  assert (Hall : forall sent' : list Effect,
             let r := mkOutcome sent' (withConversations (withMessages db ms) cs) in
             users (after r) = users db
             /\ matches (after r) = matches db
             /\ videoCalls (after r) = videoCalls db
             /\ notifications (after r) = notifications db
             /\ ((messages (after r) = messages db
                  /\ conversations (after r) = conversations db)
                 \/ exists m c0,
                     messages (after r) = (messages db ++ [m])%list
                     /\ sentBy socket data newId now db m c0
                     /\ (conversations (after r) = conversations db
                         \/ conversations (after r)
                            = map (fun x => if Conversation._id x
                                               === Conversation._id c0
                                            then stamp c0 newId later else x)
                                  (conversations db)))).
  { intros sent'. cbn. repeat split; auto.
    right. exists saved, c. rewrite Hms, Hsave. auto. }
  destruct (User.findById _ (callerId socket)); [|apply Hall].
  destruct (find (fun id => negb (id === callerId socket))
                 (Conversation.participants c)) as [other|]; [|apply Hall].
  destruct (VideoCallSocket.fetchSockets io other); [|apply Hall].
  match goal with
  | |- context [NotificationService.createNotification ?st ?i ?u
                  (NotificationService.Str ?t :: ?rest)] =>
      destruct (createNotification_string_throws st i u t rest) as [err He];
      rewrite He
  end.
  apply Hall.
Qed.

(** A valid text message of a stored sender into a stored two-person
    conversation, with an expiry that is a valid date, is always stored,
    stamped on the conversation as its last message and announced to the
    conversation; the sender is then told "Failed to send message" exactly
    when the recipient holds no live connection, the notification step
    failing after the message is stored. *)
Theorem send_message_offline_recipient
        (io : Connections) (now later : JsDate) (newId notifId : ObjectId)
        (socket : Caller) (data : SendMessage) (db : Db)
        (sender : User.t) (c : Conversation.t) (p0 p1 : ObjectId) (s : string)
        (e : option JsDate) :
  User.findById (users db) (callerId socket) = Some sender ->
  Conversation.findById (conversations db) (conversationId data) = Some c ->
  Conversation.participants c = [p0; p1] ->
  p0 <> p1 ->
  callerId socket = p0 \/ callerId socket = p1 ->
  type data = None \/ type data = Some "text" ->
  content data = Some s ->
  s <> "" ->
  (String.length s <= 1000)%nat ->
  expiryOf now (isDisappearingOf data) (disappearTimeOf data) = Ok e ->
  let recipient := if p0 === callerId socket then p1 else p0 in
  let r := onSendMessage io now later newId notifId socket data db in
  (exists m, messages (after r) = (messages db ++ [m])%list
             /\ Message._id m = newId
             /\ Message.content m = Some s
             /\ Message.senderId m = callerId socket
             /\ Message.expiresAt m = e)
  /\ conversations (after r)
     = map (fun x => if Conversation._id x === Conversation._id c
                     then stamp c newId later else x)
           (conversations db)
  /\ notifications (after r) = notifications db
  /\ sent r
     = EmitTo ("conversation_" ++ conversationId data) "message_received"
       :: match VideoCallSocket.fetchSockets io recipient with
          | [] => [failed]
          | _ :: _ => []
          end.
Proof.
  intros Hsender Hfind Hp Hne Hcaller Hty Hc Hs Hlen Hexp. cbv zeta.
  unfold onSendMessage. rewrite Hfind.
  assert (Hin : Conversation.includes c (callerId socket) = true).
  { unfold Conversation.includes. rewrite Hp. cbn [existsb].
    destruct Hcaller as [-> | ->]; rewrite String.eqb_refl;
      rewrite ?orb_true_r; reflexivity. }
  rewrite Hin. cbn [negb].
  assert (Hkind : kindOf (typeOf data) = Some Message.text).
  { unfold typeOf. destruct Hty as [-> | ->]; reflexivity. }
  rewrite Hkind, Hexp.
  unfold create, Message.validate.
  cbn [Message.type Message.content]. rewrite Hc.
  cbn [requiredString].
  destruct (String.eqb_spec s "") as [Heq|_]; [now elim Hs|].
  apply Nat.leb_le in Hlen. rewrite Hlen. cbn [negb andb].
  set (m := Message.mk newId (conversationId data) (callerId socket) (Some s)
              Message.text None None (isDisappearingOf data)
              (if isDisappearingOf data then disappearTimeOf data else 24)
              false None e).
  destruct (preSaveExpiry_keeps now m) as (K1 & _ & K3 & K4 & _).
  pose proof (expiry_stored now _ _ e m Hexp eq_refl eq_refl) as K8.
  rewrite K1. cbn [Message._id m].
  unfold Conversation.save, Conversation.preSave.
  cbn [stamp Conversation.participants Conversation._id]. rewrite Hp.
  destruct (String.eqb_spec p0 p1) as [Heq|_]; [now elim Hne|].
  cbn [bind users withConversations withMessages conversations].
  rewrite Hsender.
  assert (Hother : find (fun id => negb (id === callerId socket)) [p0; p1]
                   = Some (if p0 === callerId socket then p1 else p0)).
  { cbn [find].
    destruct (String.eqb_spec p0 (callerId socket)) as [E0|E0]; cbn [negb];
      [|reflexivity].
    destruct (String.eqb_spec p1 (callerId socket)) as [E1|E1]; cbn [negb];
      [|reflexivity].
    elim Hne. congruence. }
  rewrite Hother.
  destruct (VideoCallSocket.fetchSockets io _) as [|x xs].
  - match goal with
    | |- context [NotificationService.createNotification ?st ?i ?u
                    (NotificationService.Str ?t :: ?rest)] =>
        destruct (createNotification_string_throws st i u t rest) as [err He];
        rewrite He
    end.
    cbn [after sent messages conversations notifications
         withMessages withConversations].
    repeat split; eauto 8.
  - cbn [after sent messages conversations notifications
         withMessages withConversations].
    repeat split; eauto 8.
Qed.

Lemma send_message_offline_recipient_witness :
  let r := onSendMessage [] 1700086400000 1700086400005 "msg1" "n1"
             InboxScenario.alice
             (mkSend "conv1" (Some "hello") None (Some true) (Some 24))
             InboxScenario.talkDb in
  (exists m, messages (after r)
             = (messages InboxScenario.talkDb ++ [m])%list
             /\ Message._id m = "msg1"
             /\ Message.content m = Some "hello"
             /\ Message.senderId m = "alice"
             /\ Message.expiresAt m = Some 1700172800000)
  /\ conversations (after r)
     = [Conversation.mk "conv1" ["alice"; "bob"] (Some "msg1") 1700086400005
                        true]
  /\ notifications (after r) = []
  /\ sent r = [EmitTo "conversation_conv1" "message_received"; failed].
Proof.
  apply (send_message_offline_recipient [] 1700086400000 1700086400005
           "msg1" "n1" InboxScenario.alice
           (mkSend "conv1" (Some "hello") None (Some true) (Some 24))
           InboxScenario.talkDb
           (User.mk "alice" "Alice" "premium" false 1700000000000)
           (Conversation.mk "conv1" ["alice"; "bob"] None 1700000000000 true)
           "alice" "bob" "hello" (Some 1700172800000)).
  - reflexivity.
  - reflexivity.
  - reflexivity.
  - discriminate.
  - now left.
  - now left.
  - reflexivity.
  - discriminate.
  - cbn. lia.
  - reflexivity.
Defined.

(** An expiry beyond the range of a Date is refused with the message: a
    disappearing message with a duration of 3000000000 hours stores
    nothing and announces nothing. *)
Example send_message_invalid_expiry :
  onSendMessage [] 1700086400000 1700086400005 "msg1" "n1" InboxScenario.alice
    (mkSend "conv1" (Some "hello") None (Some true) (Some 3000000000))
    InboxScenario.talkDb
  = mkOutcome [failed] InboxScenario.talkDb.
Proof. reflexivity. Qed.

End MessageSending.

(** ** Conversations *)

Section ConversationRoutes.

Import ChatRoutes.



(** PUT /mark-read/:conversationId stores what the socket's
    mark_conversation_read stores; when it answers 200 its markedCount is
    the caller's unread count of the conversation before and that count is
    0 afterwards; any other answer leaves the store as it was. *)
Theorem mark_read_route_counts
        (now : JsDate) (user : Caller) (conversationId : ObjectId) (db : Db) :
  snd (markRead now user conversationId db)
  = snd (ChatSocket.onMarkConversationRead now user conversationId db)
  /\ (fst (fst (markRead now user conversationId db))
      = Json HTTP_STATUS.OK true "Messages marked as read"
      /\ snd (fst (markRead now user conversationId db))
         = MessageInbox.countUnreadInConversation (messages db) conversationId
                                                  (callerId user)
      /\ MessageInbox.countUnreadInConversation
           (messages (snd (markRead now user conversationId db)))
           conversationId (callerId user) = 0%nat
      /\ (exists c, Conversation.findById (conversations db) conversationId
                    = Some c
                    /\ Conversation.includes c (callerId user) = true)
      \/ (exists code msg,
             fst (fst (markRead now user conversationId db))
             = Json code false msg)
         /\ snd (markRead now user conversationId db) = db).
Proof.
  unfold markRead, ChatSocket.onMarkConversationRead.
  destruct (Conversation.findById (conversations db) conversationId)
    as [c|]; [|cbn; split; [reflexivity|right; eauto]].
  destruct (Conversation.includes c (callerId user)) eqn:Hin; cbn [negb];
    [|cbn; split; [reflexivity|right; eauto]].
  cbn [fst snd messages withMessages]. split; [reflexivity|]. left.
  repeat split.
  - apply bulk_read_clears.
  - eauto.
Qed.

End ConversationRoutes.

(** ** Plans and usage statistics *)

Section Plans.

Import Subscription SubscriptionPlan.

(** An upgrade keeps the counters and never closes a gate.  For a
    subscription whose limits are those of its plan, upgradePlan to the same
    or a higher plan stores the limits of the new plan, keeps today's usage
    and the reset date, and every feature gate that was open before the
    upgrade is open after it. *)
Theorem upgrade_never_closes_a_gate
        (now : JsDate) (store : RateLimitService.Store) (uid : ObjectId)
        (s : t) (newPlan : Plan) (featureType : string) :
  RateLimitService.findOne store uid = Some s ->
  features s = FEATURES (plan s) ->
  (rank (plan s) <= rank newPlan)%nat ->
  plan (fst (upgradePlan s newPlan store)) = newPlan
  /\ features (fst (upgradePlan s newPlan store)) = FEATURES newPlan
  /\ usage (fst (upgradePlan s newPlan store)) = usage s
  /\ (RateLimitService.checkFeatureLimit now store uid featureType = true ->
      RateLimitService.checkFeatureLimit now
        (snd (upgradePlan s newPlan store)) uid featureType = true).
Proof.
  intros Hfind Hfeat Hrank.
  assert (Hdoc : fst (upgradePlan s newPlan store)
                 = mk (userId s) newPlan (FEATURES newPlan) (usage s)).
  { unfold upgradePlan, preSavePlan. cbv zeta. cbn [fst].
    destruct (Plan_eqb (plan s) newPlan) eqn:E; cbn [negb plan userId usage];
      [|reflexivity].
    assert (plan s = newPlan) by (destruct (plan s), newPlan; now try discriminate).
    subst newPlan. now rewrite Hfeat. }
  assert (Hstore : snd (upgradePlan s newPlan store)
                   = RateLimitService.save (fst (upgradePlan s newPlan store))
                                           store) by reflexivity.
  rewrite Hstore, Hdoc. cbn [plan features usage].
  repeat split.
  unfold RateLimitService.checkFeatureLimit.
  rewrite Hfind.
  rewrite (findOne_save store uid s (mk (userId s) newPlan (FEATURES newPlan)
                                        (usage s)) Hfind eq_refl).
  rewrite !canPerformAction_answer. cbn [features].
  unfold RateLimitService.usedToday. cbn [usage]. rewrite Hfeat.
  destruct (usage_get (usage s) (featureType ++ "Today")) as [v|];
    [|unfold features_get;
      repeat (destruct (String.eqb _ _); [destruct (plan s), newPlan; cbn in *;
                                          try lia; auto|]);
      cbn; auto].
  destruct (isNewDay now (lastResetDate (usage s)));
    unfold features_get;
    repeat (destruct (String.eqb _ _);
            [destruct (plan s), newPlan; cbn in Hrank |- *; try lia;
             rewrite ?Z.ltb_lt; try lia; auto|]);
    cbn; auto.
Qed.

Lemma upgrade_never_closes_a_gate_witness :
  let s := mk "alice" free (FEATURES free) (mkUsage 1 0 19 0 Scenario.day1) in
  plan (fst (upgradePlan s premium [s])) = premium
  /\ features (fst (upgradePlan s premium [s])) = FEATURES premium
  /\ usage (fst (upgradePlan s premium [s])) = usage s
  /\ (RateLimitService.checkFeatureLimit Scenario.day1 [s] "alice" "likes" = true ->
      RateLimitService.checkFeatureLimit Scenario.day1
        (snd (upgradePlan s premium [s])) "alice" "likes" = true).
Proof.
  apply (upgrade_never_closes_a_gate Scenario.day1
           [mk "alice" free (FEATURES free) (mkUsage 1 0 19 0 Scenario.day1)]
           "alice"
           (mk "alice" free (FEATURES free) (mkUsage 1 0 19 0 Scenario.day1))
           premium "likes").
  - reflexivity.
  - reflexivity.
  - simpl. lia.
Defined.

(** The usage statistics report the allowances the gates report: for each
    of the four counted features the [remaining] entry of getUserUsageStats
    is the answer of getRemainingLimit, and the statistics are missing
    exactly when the subscription is. *)
Theorem usage_stats_agree_with_remaining
        (now : JsDate) (store : RateLimitService.Store) (uid : ObjectId) :
  match getUserUsageStats now store uid with
  | None => RateLimitService.findOne store uid = None
  | Some st =>
      RateLimitReport.getRemainingLimit now store uid "videoCalls"
      = Some (videoCalls (remaining st))
      /\ RateLimitReport.getRemainingLimit now store uid "voiceCalls"
         = Some (voiceCalls (remaining st))
      /\ RateLimitReport.getRemainingLimit now store uid "likes"
         = Some (likes (remaining st))
      /\ RateLimitReport.getRemainingLimit now store uid "superLikes"
         = Some (superLikes (remaining st))
      /\ exists s, RateLimitService.findOne store uid = Some s
                   /\ statsPlan st = plan s
                   /\ statsFeatures st = features s
  end.
Proof.
  unfold getUserUsageStats, RateLimitReport.getRemainingLimit.
  destruct (RateLimitService.findOne store uid) as [s|]; [|reflexivity].
  cbv zeta. cbn [remaining videoCalls voiceCalls likes superLikes
                 statsPlan statsFeatures].
  unfold RateLimitReport.calculateRemaining, isUnlimited,
    RateLimitReport.remainingOf.
  repeat split.
  1-4: cbn; destruct (_ =? -1); reflexivity.
  exists s. unfold resetDailyUsageIfNeeded.
  destruct (isNewDay _ _); auto.
Qed.

End Plans.

(** ** Rooms *)

Section RoomMembership.

Import ChatRooms.

Lemma conversation_found (store : list Conversation.t) (id : ObjectId)
      (c : Conversation.t) :
  Conversation.findById store id = Some c ->
  In c store /\ Conversation._id c = id.
Proof.
  unfold Conversation.findById. intros H. apply find_some in H.
  destruct H as [Hin H]. now apply String.eqb_eq in H.
Qed.

(** What one handler joins or sends to is a room of the user. *)
Lemma handle_own (socket : Caller) (db : Db) (ev : Event) (e : Effect) :
  In e (handle socket db ev) ->
  match e with
  | Join room | EmitTo room _ => ownRoom (callerId socket) db room
  | _ => True
  end.
Proof.
  destruct ev as [c|c|c|c|c|c]; cbn [handle];
    unfold onJoinConversation, onLeaveConversation, onTyping, onJoinCall,
      onLeaveCall.
  - destruct (Conversation.findById _ _) as [conv|] eqn:Hfind;
      [|intros [<-|[]]; exact I].
    destruct (Conversation.includes conv _) eqn:Hin; cbn [negb];
      [|intros [<-|[]]; exact I].
    destruct (conversation_found _ _ _ Hfind) as [Hc Hid].
    intros [<-|[<-|[]]]; [|exact I].
    left. exists conv. rewrite Hid. auto.
  - intros [<-|[<-|[]]]; exact I.
  - destruct (Conversation.findById _ _) as [conv|] eqn:Hfind; [|intros []].
    destruct (Conversation.includes conv _) eqn:Hin; cbn [negb]; [|intros []].
    destruct (conversation_found _ _ _ Hfind) as [Hc Hid].
    intros [<-|[]]. left. exists conv. rewrite Hid. auto.
  - destruct (Conversation.findById _ _) as [conv|] eqn:Hfind; [|intros []].
    destruct (Conversation.includes conv _) eqn:Hin; cbn [negb]; [|intros []].
    destruct (conversation_found _ _ _ Hfind) as [Hc Hid].
    intros [<-|[]]. left. exists conv. rewrite Hid. auto.
  - destruct (VideoCall.findById _ _) as [v|] eqn:Hfind; [|intros []].
    destruct (VideoCall.includes v _) eqn:Hin; [|intros []].
    assert (Hv : In v (videoCalls db)).
    { unfold VideoCall.findById in Hfind. now apply find_some in Hfind. }
    intros [<-|[<-|[]]]; [|exact I].
    right. exists v. auto.
  - intros [<-|[<-|[]]]; exact I.
Qed.

Lemma applyEffects_own (uid : ObjectId) (db : Db) (sent : list Effect)
      (rooms : list string) :
  (forall e, In e sent ->
             match e with
             | Join room | EmitTo room _ => ownRoom uid db room
             | _ => True
             end) ->
  Forall (ownRoom uid db) rooms ->
  Forall (ownRoom uid db) (fold_left applyEffect sent rooms).
Proof.
  revert rooms. induction sent as [|e rest IH]; intros rooms Hsent Hrooms;
    [exact Hrooms|].
  cbn [fold_left]. apply IH.
  - intros e' He'. apply Hsent. now right.
  - pose proof (Hsent e (or_introl eq_refl)) as He.
    destruct e as [ev code|room ev|ev u|room|room]; cbn [applyEffect];
      try exact Hrooms.
    + destruct (existsb _ rooms); [exact Hrooms|]. now constructor.
    + apply Forall_forall. intros r Hr. apply filter_In in Hr.
      destruct Hr as [Hr _]. revert r Hr. now apply Forall_forall.
Qed.

(** Room membership.  Whatever join, leave and typing events a socket
    sends, in any order: every room it is in afterwards is the room of a
    stored conversation or call its user takes part in, and so is every
    room it joined or sent a typing indicator to on the way. *)
Theorem rooms_are_the_users_own
        (socket : Caller) (db : Db) (events : list Event)
        (rooms : list string) :
  Forall (ownRoom (callerId socket) db) rooms ->
  Forall (ownRoom (callerId socket) db) (snd (run socket db events rooms))
  /\ (forall room, In (Join room) (fst (run socket db events rooms)) ->
                   ownRoom (callerId socket) db room)
  /\ (forall room ev, In (EmitTo room ev) (fst (run socket db events rooms)) ->
                      ownRoom (callerId socket) db room).
Proof.
  revert rooms. induction events as [|ev rest IH]; intros rooms Hrooms.
  - cbn. repeat split; [exact Hrooms|intros ? []|intros ? ? []].
  - cbn [run].
    pose proof (applyEffects_own (callerId socket) db (handle socket db ev) rooms
                  (handle_own socket db ev) Hrooms) as Hnext.
    specialize (IH _ Hnext).
    destruct (run socket db rest
                  (fold_left applyEffect (handle socket db ev) rooms))
      as [later rooms'].
    cbn [fst snd] in *. destruct IH as (IH1 & IH2 & IH3).
    repeat split; [exact IH1| |].
    + intros room Hin. apply in_app_or in Hin. destruct Hin as [Hin|Hin].
      * exact (handle_own socket db ev _ Hin).
      * now apply IH2.
    + intros room e Hin. apply in_app_or in Hin. destruct Hin as [Hin|Hin].
      * exact (handle_own socket db ev _ Hin).
      * now apply (IH3 room e).
Qed.

Lemma rooms_are_the_users_own_witness :
  Forall (ownRoom "alice" InboxScenario.talkDb)
         (snd (run InboxScenario.alice InboxScenario.talkDb
                   [JoinConversation "conv1"; JoinConversation "conv2";
                    TypingStart "conv1"; JoinCall "c1"] []))
  /\ snd (run InboxScenario.alice InboxScenario.talkDb
              [JoinConversation "conv1"; JoinConversation "conv2";
               TypingStart "conv1"; JoinCall "c1"] [])
     = ["conversation_conv1"].
Proof.
  split; [|reflexivity].
  apply (rooms_are_the_users_own InboxScenario.alice InboxScenario.talkDb
           [JoinConversation "conv1"; JoinConversation "conv2";
            TypingStart "conv1"; JoinCall "c1"] []).
  constructor.
Defined.

End RoomMembership.
